(** * Forecast dashboard: the week pivot and the query layer

    A shallow embedding of the data reshaping done by the forecast table
    component ([getWeekNumber], [getWeekDateRange], [pivotData],
    [activeFilters]) and of the query hooks ([forecastKeys],
    [useForecastData], [useSmartFilteredForecastData],
    [useForecastDataWithBrick]), with the properties the specification
    states about them. *)

From Stdlib Require Import ZArith List Bool Lia String Ascii QArith Qround.
From Stdlib Require Import DecimalString DecimalZ.
Import ListNotations.

Local Open Scope string_scope.
Local Open Scope Z_scope.

(* ================================================================== *)
(** * JavaScript values used by the component *)
(* ================================================================== *)

(** An integral JavaScript number, or [NaN] ([None]).  Week numbers, day
    numbers and the page are numbers of this kind. *)
Definition num := option Z.

Definition NaN : num := None.

(** [x - i] on numbers: [NaN] is absorbing. *)
Definition num_sub (x : num) (i : Z) : num :=
  match x with
  | Some z => Some (z - i)
  | None => None
  end.

(** SameValueZero on numbers, the comparison [Set.prototype.has] uses:
    unlike [===] it makes [NaN] equal to itself. *)
Definition sameValueZero (a b : num) : bool :=
  match a, b with
  | Some x, Some y => x =? y
  | None, None => true
  | _, _ => false
  end.

(** Decimal rendering of an integer inside a template literal.  (Integers of
    magnitude below 1e21 print in plain decimal notation.) *)
Definition string_of_Z (z : Z) : string :=
  NilZero.string_of_int (Z.to_int z).

(** [`${n}`] for a number. *)
Definition num_to_string (n : num) : string :=
  match n with
  | Some z => string_of_Z z
  | None => "NaN"
  end.

(** Truthiness of a string: every string but the empty one. *)
Definition truthy_str (s : string) : bool :=
  negb (s =? "")%string.

(** Truthiness of an integral number: every number but 0 (and [NaN], which
    the callers below handle on their own). *)
Definition truthy_Z (z : Z) : bool :=
  negb (z =? 0).

(* ================================================================== *)
(** * The [Date] object *)
(* ================================================================== *)

Module JsDate.

(** A [Date] holds a time value in milliseconds since the epoch, or [NaN]
    for an Invalid Date. *)
Definition Date := option Z.

Definition msPerDay : Z := 86400000.

Definition maxTime : Z := 8640000000000000.

(** TimeClip: a time value outside +-8.64e15 ms makes an Invalid Date. *)
Definition timeClip (t : Z) : Date :=
  if Z.abs t <=? maxTime then Some t else None.

(** Day(t) = floor(t / msPerDay). *)
Definition Day (t : Z) : Z := t / msPerDay.

(** DayFromYear(y): the day number of 1 January of year [y]. *)
Definition DayFromYear (y : Z) : Z :=
  365 * (y - 1970) + (y - 1969) / 4 - (y - 1901) / 100 + (y - 1601) / 400.

(** The year a day number falls in: the largest [y] with
    [DayFromYear y <= d] (see [YearFromDay_spec]), computed over the
    400-, 100-, 4- and 1-year cycles counted from 1 January 1601. *)
Definition YearFromDay (d : Z) : Z :=
  let n := d + 134774 in
  let q400 := n / 146097 in
  let r400 := n mod 146097 in
  let c := Z.min (r400 / 36524) 3 in
  let r100 := r400 - c * 36524 in
  let q4 := r100 / 1461 in
  let r4 := r100 mod 1461 in
  let a := Z.min (r4 / 365) 3 in
  1601 + 400 * q400 + 100 * c + 4 * q4 + a.

Definition YearFromTime (t : Z) : Z := YearFromDay (Day t).

Definition InLeapYear (y : Z) : bool :=
  (DayFromYear (y + 1) - DayFromYear y) =? 366.

(** WeekDay(t): 0 is Sunday; 1 January 1970 was a Thursday. *)
Definition WeekDay (t : Z) : Z := (Day t + 4) mod 7.

(** MonthFromTime and DateFromTime, by the day within the year. *)
Definition MonthDate (t : Z) : Z * Z :=
  let y := YearFromTime t in
  let dwy := Day t - DayFromYear y in
  let l := if InLeapYear y then 1 else 0 in
  if dwy <? 31 then (0, dwy + 1)
  else if dwy <? 59 + l then (1, dwy - 30)
  else if dwy <? 90 + l then (2, dwy - 58 - l)
  else if dwy <? 120 + l then (3, dwy - 89 - l)
  else if dwy <? 151 + l then (4, dwy - 119 - l)
  else if dwy <? 181 + l then (5, dwy - 150 - l)
  else if dwy <? 212 + l then (6, dwy - 180 - l)
  else if dwy <? 243 + l then (7, dwy - 211 - l)
  else if dwy <? 273 + l then (8, dwy - 242 - l)
  else if dwy <? 304 + l then (9, dwy - 272 - l)
  else if dwy <? 334 + l then (10, dwy - 303 - l)
  else (11, dwy - 333 - l).

Section LocalTime.

(** The offset of local time from UTC in milliseconds, taken as constant. *)
Variable localTZA : Z.

Definition LocalTime (t : Z) : Z := t + localTZA.

Definition UTC (t : Z) : Z := t - localTZA.

(** [date.getFullYear()], [date.getDay()], [date.getDate()],
    [date.getMonth()] and [date.getTime()]; each is [NaN] on an Invalid
    Date. *)
Definition getFullYear (d : Date) : num :=
  option_map (fun t => YearFromTime (LocalTime t)) d.

Definition getDay (d : Date) : num :=
  option_map (fun t => WeekDay (LocalTime t)) d.

Definition getDate (d : Date) : num :=
  option_map (fun t => snd (MonthDate (LocalTime t))) d.

Definition getMonth (d : Date) : num :=
  option_map (fun t => fst (MonthDate (LocalTime t))) d.

Definition getTime (d : Date) : num := d.

(** [new Date(year, 0, day)]: local midnight of the [day]-th day counted
    from 1 January of [year] (days overflow into later months); a year from
    0 to 99 stands for 1900 + year; [NaN] arguments make an Invalid Date. *)
Definition newDate_y0d (year day : num) : Date :=
  match year, day with
  | Some y, Some d =>
      let yr := if (0 <=? y) && (y <=? 99) then 1900 + y else y in
      timeClip (UTC ((DayFromYear yr + d - 1) * msPerDay))
  | _, _ => None
  end.

(** [date.toLocaleDateString('en-US', { month: 'short' })]. *)
Definition monthShort (d : Date) : string :=
  match getMonth d with
  | Some 0 => "Jan" | Some 1 => "Feb" | Some 2 => "Mar" | Some 3 => "Apr"
  | Some 4 => "May" | Some 5 => "Jun" | Some 6 => "Jul" | Some 7 => "Aug"
  | Some 8 => "Sep" | Some 9 => "Oct" | Some 10 => "Nov" | Some _ => "Dec"
  | None => "Invalid Date"
  end.

End LocalTime.

End JsDate.

(* ================================================================== *)
(** * Wire types (types/forecast) *)
(* ================================================================== *)

(** [predicted_qty] and the other numeric fields arrive by JSON, which has
    no [NaN]; they are taken as integers here. *)
Record ForecastRecord := {
  forecast_datetime : string;
  forecast_run_id : string;
  site_id : string;
  brand : option string;
  mh_segment : option string;
  mh_family : option string;
  mh_class : option string;
  mh_brick : option string;
  product_id : option string;
  forecast_week : string;
  actual_qty : option Z;
  predicted_qty : Z;
  model_used : option string;
  qty_group : option Z;
  forecast_week_number : option Z;
  training_data_max_date : option string;
  forecast_horizon : option Z;
  created_at : option string
}.

Record ForecastResponse := {
  data : list ForecastRecord;
  total_records : Z;
  page : Z;
  page_size : Z;
  has_next : bool
}.

(* ================================================================== *)
(** * Objects and Maps with string keys *)
(* ================================================================== *)

Module Obj.
Section Obj.
Context {V : Type}.

(** A plain object or a [Map] keyed by (non-numeric) strings: its entries
    in insertion order. *)
Definition t := list (string * V).

Fixpoint get (o : t) (k : string) : option V :=
  match o with
  | [] => None
  | (k', v) :: o' => if (k' =? k)%string then Some v else get o' k
  end.

Definition has (o : t) (k : string) : bool :=
  match get o k with Some _ => true | None => false end.

(** [o[k] = v] / [m.set(k, v)]: an existing key keeps its place, a new one
    goes last. *)
Fixpoint set (o : t) (k : string) (v : V) : t :=
  match o with
  | [] => [(k, v)]
  | (k', v') :: o' =>
      if (k' =? k)%string then (k', v) :: o' else (k', v') :: set o' k v
  end.

Definition keys (o : t) : list string := map fst o.

Definition values (o : t) : list V := map snd o.

End Obj.
Arguments t : clear implicits.
End Obj.

(* ================================================================== *)
(** * ForecastDataTable: week helpers and the pivot *)
(* ================================================================== *)

(** One pivot row: [{ mh_brick, site_id, weeks, _pageId }]. *)
Record Row := {
  row_mh_brick : string;
  row_site_id : string;
  row_weeks : Obj.t Z;
  row_pageId : string
}.

(** One entry of the [weeks] array: [{ week, dateRange }]. *)
Record WeekInfo := {
  week : string;
  dateRange : string
}.

Record Pivot := {
  rows : list Row;
  weeks : list WeekInfo
}.

(** [x || 0] on a number. *)
Definition or_zero (x : Z) : Z := if truthy_Z x then x else 0.

(** [o[k] || 0]: a missing property reads [undefined]. *)
Definition get_or_zero (o : Obj.t Z) (k : string) : Z :=
  match Obj.get o k with
  | Some v => or_zero v
  | None => 0
  end.

(** [record.mh_brick || 'Unknown']: [null] and the empty string both give
    ['Unknown']. *)
Definition brick_or_unknown (b : option string) : string :=
  match b with
  | Some s => if truthy_str s then s else "Unknown"
  | None => "Unknown"
  end.

(** [`Week ${weekNum}`]. *)
Definition weekLabel (weekNum : num) : string :=
  "Week " ++ num_to_string weekNum.

(** [`${record.mh_brick || 'Unknown'}-${record.site_id}`]. *)
Definition rowKey (record : ForecastRecord) : string :=
  brick_or_unknown (mh_brick record) ++ "-" ++ site_id record.

(** [`${page}-${key}`]. *)
Definition pageId (page : Z) (key : string) : string :=
  string_of_Z page ++ "-" ++ key.

Section ForecastDataTable.

Import JsDate.

(** The host: the local time zone offset and [Date.parse], whose result on
    strings outside the ISO format is left to the implementation. *)
Variable localTZA : Z.
Variable Date_parse : string -> num.

(** [new Date(s)] for a string. *)
Definition newDate_str (s : string) : Date :=
  match Date_parse s with
  | Some t => timeClip t
  | None => None
  end.

(** [getWeekNumber].  The quotient by 86400000 is kept as a rational: the
    operands are integers far below 2^53, so the double the source computes
    has the same ceiling. *)
Definition getWeekNumber (date : Date) : num :=
  let startOfYear := newDate_y0d localTZA (getFullYear localTZA date) (Some 1) in
  match getTime date, getTime startOfYear, getDay localTZA startOfYear with
  | Some t, Some s, Some wd =>
      let pastDaysOfYear : Q := Qmake (t - s) 86400000 in
      Some (Qceiling ((pastDaysOfYear + inject_Z wd + 1) / 7))
  | _, _, _ => None
  end.

Definition formatDate (date : Date) : string :=
  let day := getDate localTZA date in
  let month := monthShort localTZA date in
  num_to_string day ++ " " ++ month.

(** [getWeekDateRange]. *)
Definition getWeekDateRange (weekNumber : num) (year : num) : string :=
  let startDay := option_map (fun w => 1 + (w - 1) * 7) weekNumber in
  let endDay := option_map (fun d => d + 6) startDay in
  let weekStart := newDate_y0d localTZA year startDay in
  let weekEnd := newDate_y0d localTZA year endDay in
  formatDate weekStart ++ "-" ++ formatDate weekEnd.

(** The [for] loop filling [last5Weeks]. *)
Definition last5Weeks_of (currentWeek : num) : list num :=
  map (fun i => num_sub currentWeek i) [4; 3; 2; 1; 0].

(** [new Set(last5Weeks).has(weekNumber)]. *)
Definition set_has (s : list num) (weekNumber : num) : bool :=
  existsb (sameValueZero weekNumber) s.

(** The object with every week of [last5Weeks] set to 0. *)
Definition initialWeeks (last5Weeks : list num) : Obj.t Z :=
  fold_left (fun o weekNum => Obj.set o (weekLabel weekNum) 0) last5Weeks [].

(** The body of [data.forEach]: one record against the rows collected so
    far.  The row object held by the map is updated in place. *)
Definition pivotStep (pg : Z) (last5Weeks : list num)
    (rowsMap : Obj.t Row) (record : ForecastRecord) : Obj.t Row :=
  let weekDate := newDate_str (forecast_week record) in
  let weekNumber := getWeekNumber weekDate in
  if negb (set_has last5Weeks weekNumber) then rowsMap
  else
    let key := rowKey record in
    let label := weekLabel weekNumber in
    let rowsMap1 :=
      if negb (Obj.has rowsMap key) then
        Obj.set rowsMap key
          {| row_mh_brick := brick_or_unknown (mh_brick record);
             row_site_id := site_id record;
             row_weeks := initialWeeks last5Weeks;
             row_pageId := pageId pg key |}
      else rowsMap in
    match Obj.get rowsMap1 key with
    | Some row =>
        Obj.set rowsMap1 key
          {| row_mh_brick := row_mh_brick row;
             row_site_id := row_site_id row;
             row_weeks := Obj.set (row_weeks row) label
                            (or_zero (predicted_qty record));
             row_pageId := row_pageId row |}
    | None => rowsMap1
    end.

(** The map built by [data.forEach]. *)
Definition buildRowsMap (pg : Z) (last5Weeks : list num)
    (records : list ForecastRecord) : Obj.t Row :=
  fold_left (pivotStep pg last5Weeks) records [].

(** The closing [map] over the rows: every week of [last5Weeks] read back
    with [|| 0]; the spread keeps the other fields. *)
Definition completeRow (last5Weeks : list num) (row : Row) : Row :=
  let completeWeeks :=
    fold_left
      (fun o weekNum =>
         Obj.set o (weekLabel weekNum)
           (get_or_zero (row_weeks row) (weekLabel weekNum)))
      last5Weeks [] in
  {| row_mh_brick := row_mh_brick row;
     row_site_id := row_site_id row;
     row_weeks := completeWeeks;
     row_pageId := row_pageId row |}.

(** [pivotData].  [now0] and [now] are the two readings of the clock
    ([new Date()] for [currentYear] and for [currentDate]), [pg] is the
    component's [page] state and [currentData] the response in hand
    ([None] while there is none). *)
Definition pivotData (now0 now : Z) (pg : Z)
    (currentData : option ForecastResponse) : Pivot :=
  match option_map data currentData with
  | None => {| rows := []; weeks := [] |}
  | Some sourceData =>
      let currentYear := getFullYear localTZA (Some now0) in
      let currentDate : Date := Some now in
      let currentWeek := getWeekNumber currentDate in
      let last5Weeks := last5Weeks_of currentWeek in
      let rowsMap := buildRowsMap pg last5Weeks sourceData in
      let weeksWithDates :=
        map (fun weekNum =>
               {| week := weekLabel weekNum;
                  dateRange := getWeekDateRange weekNum currentYear |})
            last5Weeks in
      let rows := map (completeRow last5Weeks) (Obj.values rowsMap) in
      {| rows := rows; weeks := weeksWithDates |}
  end.

End ForecastDataTable.

(* ================================================================== *)
(** * Query keys and filter state *)
(* ================================================================== *)

(** A value of a query parameter object: a string, or a number, which is
    an integer or [NaN]. *)
Inductive JsVal :=
| VStr (s : string)
| VNum (z : Z)
| VNaN.

(** Truthiness of a property read; a missing property reads [undefined]. *)
Definition truthy (v : option JsVal) : bool :=
  match v with
  | Some (VStr s) => truthy_str s
  | Some (VNum z) => truthy_Z z
  | Some VNaN => false
  | None => false
  end.

Inductive KeyPart :=
| KStr (s : string)
| KObj (o : Obj.t JsVal).

Definition QueryKey := list KeyPart.

(** [forecastKeys], the query key factory. *)
Definition forecastKeys_all : QueryKey := [KStr "forecast"].

Definition forecastKeys_lists : QueryKey :=
  (forecastKeys_all ++ [KStr "list"])%list.

Definition forecastKeys_list (params : Obj.t JsVal) : QueryKey :=
  (forecastKeys_lists ++ [KObj params])%list.

Definition forecastKeys_summary (params : Obj.t JsVal) : QueryKey :=
  (forecastKeys_all ++ [KStr "summary"; KObj params])%list.

Definition forecastKeys_uniqueValues (column : string) : QueryKey :=
  (forecastKeys_all ++ [KStr "unique-values"; KStr column])%list.

Definition forecastKeys_health : QueryKey :=
  (forecastKeys_all ++ [KStr "health"])%list.

(** [if (c) o.k = v]. *)
Definition set_if (c : bool) (o : Obj.t JsVal) (k : string) (v : JsVal) :=
  if c then Obj.set o k v else o.

(** [if (s) o.k = s] for an optional string [s]. *)
Definition set_str (o : Obj.t JsVal) (k : string) (s : option string) :=
  match s with
  | Some x => set_if (truthy_str x) o k (VStr x)
  | None => o
  end.

(** A number as a value. *)
Definition num_val (n : num) : JsVal :=
  match n with
  | Some z => VNum z
  | None => VNaN
  end.

(** [if (n !== undefined) o.k = n] for an optional number [n]. *)
Definition set_defined (o : Obj.t JsVal) (k : string) (n : option num) :=
  match n with
  | Some x => Obj.set o k (num_val x)
  | None => o
  end.

(** [{ ...o, ...dateRange }] for [{ start_date?, end_date? }]. *)
Definition spread_dateRange (o : Obj.t JsVal)
    (start_date end_date : option string) : Obj.t JsVal :=
  let o1 := match start_date with Some s => Obj.set o "start_date" (VStr s) | None => o end in
  match end_date with Some s => Obj.set o1 "end_date" (VStr s) | None => o1 end.

Module FilterState.

(** The filter and pagination state held by the table component.  A bound
    of the quantity range is [undefined], or what [parseInt] made of the
    input: an integer or [NaN]. *)
Record t := {
  dateRange : option string * option string;
  limit : Z;
  page : Z;
  zoneFilter : string;
  stateFilter : string;
  cityFilter : string;
  storeFilter : string;
  formatFilter : string;
  brandFilter : string;
  searchTerm : string;
  dateRangeFilter : option string * option string;
  quantityRangeFilter : option num * option num
}.

(** Equality field by field. *)
Definition fieldwise_eq (a b : t) : Prop :=
  fst (dateRange a) = fst (dateRange b) /\
  snd (dateRange a) = snd (dateRange b) /\
  limit a = limit b /\
  page a = page b /\
  zoneFilter a = zoneFilter b /\
  stateFilter a = stateFilter b /\
  cityFilter a = cityFilter b /\
  storeFilter a = storeFilter b /\
  formatFilter a = formatFilter b /\
  brandFilter a = brandFilter b /\
  searchTerm a = searchTerm b /\
  fst (dateRangeFilter a) = fst (dateRangeFilter b) /\
  snd (dateRangeFilter a) = snd (dateRangeFilter b) /\
  fst (quantityRangeFilter a) = fst (quantityRangeFilter b) /\
  snd (quantityRangeFilter a) = snd (quantityRangeFilter b).

End FilterState.

Section Filters.

Import FilterState.

Variable f : FilterState.t.

Definition truthy_ostr (s : option string) : bool :=
  match s with Some x => truthy_str x | None => false end.

Definition truthy_onum (n : option Z) : bool :=
  match n with Some x => truthy_Z x | None => false end.

(** Truthiness of a bound of the quantity range: [undefined], [NaN] and 0
    are falsy. *)
Definition truthy_bound (n : option num) : bool :=
  match n with Some (Some x) => truthy_Z x | _ => false end.

(** [hasActiveFilters]. *)
Definition hasActiveFilters : bool :=
  truthy_str (searchTerm f) || truthy_str (zoneFilter f)
  || truthy_str (stateFilter f) || truthy_str (cityFilter f)
  || truthy_str (storeFilter f) || truthy_str (formatFilter f)
  || truthy_str (brandFilter f)
  || truthy_ostr (fst (dateRangeFilter f))
  || truthy_ostr (snd (dateRangeFilter f))
  || truthy_bound (fst (quantityRangeFilter f))
  || truthy_bound (snd (quantityRangeFilter f)).

(** [activeFilters]. *)
Definition activeFilters : Obj.t JsVal :=
  let filters := [("limit", VNum (limit f));
                  ("offset", VNum ((page f - 1) * limit f))] in
  let filters := set_str filters "search_term" (Some (searchTerm f)) in
  let filters := set_str filters "zone" (Some (zoneFilter f)) in
  let filters := set_str filters "state" (Some (stateFilter f)) in
  let filters := set_str filters "city" (Some (cityFilter f)) in
  let filters := set_str filters "site_id" (Some (storeFilter f)) in
  let filters := set_str filters "format" (Some (formatFilter f)) in
  let filters := set_str filters "brand" (Some (brandFilter f)) in
  let filters := set_str filters "start_date" (fst (dateRangeFilter f)) in
  let filters := set_str filters "end_date" (snd (dateRangeFilter f)) in
  let filters := set_defined filters "min_predicted_qty" (fst (quantityRangeFilter f)) in
  let filters := set_defined filters "max_predicted_qty" (snd (quantityRangeFilter f)) in
  filters.

End Filters.

(** [params.k = filters.k] when [filters.k] is truthy. *)
Definition copy_if_truthy (filters params : Obj.t JsVal) (k : string) :=
  match Obj.get filters k with
  | Some v => set_if (truthy (Some v)) params k v
  | None => params
  end.

(** [params.k = filters.k] when [filters.k !== undefined]. *)
Definition copy_if_defined (filters params : Obj.t JsVal) (k : string) :=
  match Obj.get filters k with
  | Some v => Obj.set params k v
  | None => params
  end.

(** [forecastParams] of [useSmartFilteredForecastData]. *)
Definition forecastParams (filters : Obj.t JsVal) : Obj.t JsVal :=
  let params := [] in
  let params := copy_if_truthy filters params "search_term" in
  let params := copy_if_truthy filters params "zone" in
  let params := copy_if_truthy filters params "state" in
  let params := copy_if_truthy filters params "city" in
  let params := copy_if_truthy filters params "site_id" in
  let params := copy_if_truthy filters params "format" in
  let params := copy_if_truthy filters params "mh_brick" in
  let params := copy_if_truthy filters params "brand" in
  let params := copy_if_truthy filters params "start_date" in
  let params := copy_if_truthy filters params "end_date" in
  let params := copy_if_defined filters params "min_predicted_qty" in
  let params := copy_if_defined filters params "max_predicted_qty" in
  let params := copy_if_truthy filters params "limit" in
  let params := copy_if_defined filters params "offset" in
  params.

(** The query key of [useSmartFilteredForecastData(filters, enabled)]. *)
Definition smartFiltered_queryKey (filters : Obj.t JsVal) : QueryKey :=
  forecastKeys_list (forecastParams filters).

(** The parameter object [{ mh_brick, ...dateRange, limit, offset }]. *)
Definition brickParams (mh_brick : string)
    (dateRange : option string * option string) (limit offset : Z) :=
  let o := [("mh_brick", VStr mh_brick)] in
  let o := spread_dateRange o (fst dateRange) (snd dateRange) in
  let o := Obj.set o "limit" (VNum limit) in
  Obj.set o "offset" (VNum offset).

(* ================================================================== *)
(** * Query options, the service call and the retry loop *)
(* ================================================================== *)

(** A thrown [Error]; only its message survives the service layer. *)
Record Error := { message : string }.

(** The [retry] option of the query library: a boolean, a count, or a
    predicate on the failure count and the error. *)
Inductive RetryValue :=
| RetryBool (b : bool)
| RetryCount (n : Z)
| RetryFn (p : Z -> Error -> bool).

(** The [retryDelay] option: milliseconds, or a function. *)
Inductive RetryDelayValue :=
| DelayMs (ms : Z)
| DelayFn (g : Z -> Error -> Z).

Record QueryOptions := {
  queryKey : QueryKey;
  enabled : bool;
  staleTime : option Z;
  gcTime : option Z;
  refetchOnWindowFocus : option bool;
  refetchOnMount : option bool;
  refetchInterval : option Z;
  refetchOnReconnect : option bool;
  retry : option RetryValue;
  retryDelay : option RetryDelayValue
}.

(** [defaultOptions.queries] of the [queryClient] (QueryProvider). *)
Record QueryDefaults := {
  default_retry : RetryValue;
  default_retryDelay : RetryDelayValue;
  default_staleTime : Z;
  default_gcTime : Z;
  default_refetchOnWindowFocus : bool;
  default_refetchOnMount : bool;
  default_refetchOnReconnect : bool
}.

Definition queryClient_defaults : QueryDefaults :=
  {| default_retry := RetryCount 1;
     default_retryDelay := DelayMs 2000;
     default_staleTime := 15 * 60 * 1000;
     default_gcTime := 30 * 60 * 1000;
     default_refetchOnWindowFocus := false;
     default_refetchOnMount := false;
     default_refetchOnReconnect := false |}.

(** The options object [useForecastData(params, enabled)] hands to
    [useQuery]; [refetchInterval: false] is [None]. *)
Definition useForecastData_options (params : Obj.t JsVal) (enabled : bool)
    : QueryOptions :=
  {| queryKey := forecastKeys_list params;
     enabled := enabled;
     staleTime := Some (15 * 60 * 1000);
     gcTime := Some (30 * 60 * 1000);
     refetchOnWindowFocus := Some false;
     refetchOnMount := Some false;
     refetchInterval := None;
     refetchOnReconnect := Some false;
     retry := Some (RetryCount 1);
     retryDelay := Some (DelayMs 2000) |}.

(** What the transport answers to one request: a status with a body, or
    nothing at all (no connectivity). *)
Inductive Reply :=
| Reply_status (status : Z) (body : ForecastResponse)
| Reply_none.

(** The error the HTTP client rejects with. *)
Record AxiosError := {
  response_status : option Z;
  axios_message : string
}.

(** [apiClient.get]: a 2xx status resolves, anything else rejects. *)
Definition apiClient_get (r : Reply) : ForecastResponse + AxiosError :=
  match r with
  | Reply_status status body =>
      if (200 <=? status) && (status <? 300) then inl body
      else inr {| response_status := Some status;
                  axios_message := "Request failed with status code "
                                   ++ string_of_Z status |}
  | Reply_none =>
      inr {| response_status := None; axios_message := "Network Error" |}
  end.

(** [ForecastService.getForecastData]: every failure is caught and thrown
    again as a plain [Error] carrying a message. *)
Definition getForecastData (r : Reply) : ForecastResponse + Error :=
  match apiClient_get r with
  | inl body => inl body
  | inr error =>
      inr {| message := "Failed to fetch forecast data: "
                        ++ axios_message error |}
  end.

(** What a query run does, in order. *)
Inductive Event :=
| Fetch
| Wait (ms : Z).

(** The retry loop of the query library, as its documentation gives it: the
    query function runs; on a failure the query is tried again when [retry]
    is [true], or is a count the failure count has not reached, or is a
    predicate that accepts the failure count and the error; the wait before
    the next try is [retryDelay].  [fn i] is the outcome of the call made
    after [i] failures; [fuel] bounds the number of calls. *)
Fixpoint retryer {A : Type} (fuel : nat) (fn : Z -> A + Error)
    (retry : RetryValue) (retryDelay : RetryDelayValue) (failureCount : Z)
    : option (list Event * (A + Error)) :=
  match fuel with
  | O => None
  | S fuel' =>
      match fn failureCount with
      | inl a => Some ([Fetch], inl a)
      | inr error =>
          let shouldRetry :=
            match retry with
            | RetryBool b => b
            | RetryCount n => failureCount <? n
            | RetryFn p => p failureCount error
            end in
          if negb shouldRetry then Some ([Fetch], inr error)
          else
            let delay :=
              match retryDelay with
              | DelayMs ms => ms
              | DelayFn g => g failureCount error
              end in
            match retryer fuel' fn retry retryDelay (failureCount + 1) with
            | Some (events, r) => Some (Fetch :: Wait delay :: events, r)
            | None => None
            end
      end
  end.

(** One run of a forecast query under [options], the client's defaults
    filling what the options leave out.  [transport i] is the reply to the
    request made after [i] failures. *)
Definition runForecastQuery (fuel : nat) (defaults : QueryDefaults)
    (options : QueryOptions) (transport : Z -> Reply)
    : option (list Event * (ForecastResponse + Error)) :=
  let r := match retry options with Some r => r | None => default_retry defaults end in
  let d := match retryDelay options with Some d => d | None => default_retryDelay defaults end in
  retryer fuel (fun i => getForecastData (transport i)) r d 0.

(** The number of requests made in a run, and of these the retries. *)
Definition fetches (events : list Event) : nat :=
  List.length (filter (fun e => match e with Fetch => true | Wait _ => false end) events).

Definition retries (events : list Event) : nat := Nat.pred (fetches events).

Definition waits (events : list Event) : list Z :=
  flat_map (fun e => match e with Fetch => [] | Wait ms => [ms] end) events.

(* ================================================================== *)
(** * useForecastDataWithBrick: pagination info *)
(* ================================================================== *)

(** [data.total_pages]: [ForecastResponse] declares [data], [total_records],
    [page], [page_size] and [has_next] and no [total_pages], so the read
    gives [undefined]. *)
Definition read_total_pages (_ : ForecastResponse) : option Z := None.

Section UseForecastDataWithBrick.

Variable mh_brick_arg : string.
Variable dateRange_arg : option string * option string.
Variable limit_arg : Z.
Variable page_arg : Z.
Variable enabled_arg : bool.

(** [forecastQuery.data]: the response in the cache, if any. *)
Variable forecastQuery_data : option ForecastResponse.

(** [forecastQuery.data?.total_pages || 1]. *)
Definition totalPages : Z :=
  match forecastQuery_data with
  | Some r =>
      match read_total_pages r with
      | Some n => if truthy_Z n then n else 1
      | None => 1
      end
  | None => 1
  end.

Definition hasNextPage : bool := page_arg <? totalPages.

Definition hasPreviousPage : bool := page_arg >? 1.

(** [prefetchNextPage()]: the query keys it asks the client to prefetch. *)
Definition prefetchNextPage : list QueryKey :=
  if hasNextPage && enabled_arg then
    let nextOffset := page_arg * limit_arg in
    [forecastKeys_list (brickParams mh_brick_arg dateRange_arg limit_arg nextOffset)]
  else [].

End UseForecastDataWithBrick.

(* ================================================================== *)
(** * The grouping the specification words *)
(* ================================================================== *)

(** [mh_brick ?? "Unknown"] as the specification writes the group key: only
    a missing value is replaced. *)
Definition spec_brick (b : option string) : string :=
  match b with
  | Some s => s
  | None => "Unknown"
  end.

Definition spec_groupKey (r : ForecastRecord) : string * string :=
  (spec_brick (mh_brick r), site_id r).

(** The group key as the component computes its two parts. *)
Definition groupKey (r : ForecastRecord) : string * string :=
  (brick_or_unknown (mh_brick r), site_id r).

(* ================================================================== *)
(** * ForecastDataTable: the filter state and its handlers *)
(* ================================================================== *)

(** The state setters of the component ([setPage], [setLimit],
    [setZoneFilter], ...), each replacing one piece of state. *)
Definition setLimit (v : Z) (f : FilterState.t) : FilterState.t :=
  {| FilterState.dateRange := FilterState.dateRange f;
     FilterState.limit := v;
     FilterState.page := FilterState.page f;
     FilterState.zoneFilter := FilterState.zoneFilter f;
     FilterState.stateFilter := FilterState.stateFilter f;
     FilterState.cityFilter := FilterState.cityFilter f;
     FilterState.storeFilter := FilterState.storeFilter f;
     FilterState.formatFilter := FilterState.formatFilter f;
     FilterState.brandFilter := FilterState.brandFilter f;
     FilterState.searchTerm := FilterState.searchTerm f;
     FilterState.dateRangeFilter := FilterState.dateRangeFilter f;
     FilterState.quantityRangeFilter := FilterState.quantityRangeFilter f |}.

Definition setPage (v : Z) (f : FilterState.t) : FilterState.t :=
  {| FilterState.dateRange := FilterState.dateRange f;
     FilterState.limit := FilterState.limit f;
     FilterState.page := v;
     FilterState.zoneFilter := FilterState.zoneFilter f;
     FilterState.stateFilter := FilterState.stateFilter f;
     FilterState.cityFilter := FilterState.cityFilter f;
     FilterState.storeFilter := FilterState.storeFilter f;
     FilterState.formatFilter := FilterState.formatFilter f;
     FilterState.brandFilter := FilterState.brandFilter f;
     FilterState.searchTerm := FilterState.searchTerm f;
     FilterState.dateRangeFilter := FilterState.dateRangeFilter f;
     FilterState.quantityRangeFilter := FilterState.quantityRangeFilter f |}.

Definition setZoneFilter (v : string) (f : FilterState.t) : FilterState.t :=
  {| FilterState.dateRange := FilterState.dateRange f;
     FilterState.limit := FilterState.limit f;
     FilterState.page := FilterState.page f;
     FilterState.zoneFilter := v;
     FilterState.stateFilter := FilterState.stateFilter f;
     FilterState.cityFilter := FilterState.cityFilter f;
     FilterState.storeFilter := FilterState.storeFilter f;
     FilterState.formatFilter := FilterState.formatFilter f;
     FilterState.brandFilter := FilterState.brandFilter f;
     FilterState.searchTerm := FilterState.searchTerm f;
     FilterState.dateRangeFilter := FilterState.dateRangeFilter f;
     FilterState.quantityRangeFilter := FilterState.quantityRangeFilter f |}.

Definition setStateFilter (v : string) (f : FilterState.t) : FilterState.t :=
  {| FilterState.dateRange := FilterState.dateRange f;
     FilterState.limit := FilterState.limit f;
     FilterState.page := FilterState.page f;
     FilterState.zoneFilter := FilterState.zoneFilter f;
     FilterState.stateFilter := v;
     FilterState.cityFilter := FilterState.cityFilter f;
     FilterState.storeFilter := FilterState.storeFilter f;
     FilterState.formatFilter := FilterState.formatFilter f;
     FilterState.brandFilter := FilterState.brandFilter f;
     FilterState.searchTerm := FilterState.searchTerm f;
     FilterState.dateRangeFilter := FilterState.dateRangeFilter f;
     FilterState.quantityRangeFilter := FilterState.quantityRangeFilter f |}.

Definition setCityFilter (v : string) (f : FilterState.t) : FilterState.t :=
  {| FilterState.dateRange := FilterState.dateRange f;
     FilterState.limit := FilterState.limit f;
     FilterState.page := FilterState.page f;
     FilterState.zoneFilter := FilterState.zoneFilter f;
     FilterState.stateFilter := FilterState.stateFilter f;
     FilterState.cityFilter := v;
     FilterState.storeFilter := FilterState.storeFilter f;
     FilterState.formatFilter := FilterState.formatFilter f;
     FilterState.brandFilter := FilterState.brandFilter f;
     FilterState.searchTerm := FilterState.searchTerm f;
     FilterState.dateRangeFilter := FilterState.dateRangeFilter f;
     FilterState.quantityRangeFilter := FilterState.quantityRangeFilter f |}.

Definition setStoreFilter (v : string) (f : FilterState.t) : FilterState.t :=
  {| FilterState.dateRange := FilterState.dateRange f;
     FilterState.limit := FilterState.limit f;
     FilterState.page := FilterState.page f;
     FilterState.zoneFilter := FilterState.zoneFilter f;
     FilterState.stateFilter := FilterState.stateFilter f;
     FilterState.cityFilter := FilterState.cityFilter f;
     FilterState.storeFilter := v;
     FilterState.formatFilter := FilterState.formatFilter f;
     FilterState.brandFilter := FilterState.brandFilter f;
     FilterState.searchTerm := FilterState.searchTerm f;
     FilterState.dateRangeFilter := FilterState.dateRangeFilter f;
     FilterState.quantityRangeFilter := FilterState.quantityRangeFilter f |}.

Definition setFormatFilter (v : string) (f : FilterState.t) : FilterState.t :=
  {| FilterState.dateRange := FilterState.dateRange f;
     FilterState.limit := FilterState.limit f;
     FilterState.page := FilterState.page f;
     FilterState.zoneFilter := FilterState.zoneFilter f;
     FilterState.stateFilter := FilterState.stateFilter f;
     FilterState.cityFilter := FilterState.cityFilter f;
     FilterState.storeFilter := FilterState.storeFilter f;
     FilterState.formatFilter := v;
     FilterState.brandFilter := FilterState.brandFilter f;
     FilterState.searchTerm := FilterState.searchTerm f;
     FilterState.dateRangeFilter := FilterState.dateRangeFilter f;
     FilterState.quantityRangeFilter := FilterState.quantityRangeFilter f |}.

Definition setBrandFilter (v : string) (f : FilterState.t) : FilterState.t :=
  {| FilterState.dateRange := FilterState.dateRange f;
     FilterState.limit := FilterState.limit f;
     FilterState.page := FilterState.page f;
     FilterState.zoneFilter := FilterState.zoneFilter f;
     FilterState.stateFilter := FilterState.stateFilter f;
     FilterState.cityFilter := FilterState.cityFilter f;
     FilterState.storeFilter := FilterState.storeFilter f;
     FilterState.formatFilter := FilterState.formatFilter f;
     FilterState.brandFilter := v;
     FilterState.searchTerm := FilterState.searchTerm f;
     FilterState.dateRangeFilter := FilterState.dateRangeFilter f;
     FilterState.quantityRangeFilter := FilterState.quantityRangeFilter f |}.

Definition setSearchTerm (v : string) (f : FilterState.t) : FilterState.t :=
  {| FilterState.dateRange := FilterState.dateRange f;
     FilterState.limit := FilterState.limit f;
     FilterState.page := FilterState.page f;
     FilterState.zoneFilter := FilterState.zoneFilter f;
     FilterState.stateFilter := FilterState.stateFilter f;
     FilterState.cityFilter := FilterState.cityFilter f;
     FilterState.storeFilter := FilterState.storeFilter f;
     FilterState.formatFilter := FilterState.formatFilter f;
     FilterState.brandFilter := FilterState.brandFilter f;
     FilterState.searchTerm := v;
     FilterState.dateRangeFilter := FilterState.dateRangeFilter f;
     FilterState.quantityRangeFilter := FilterState.quantityRangeFilter f |}.

Definition setDateRangeFilter (v : option string * option string) (f : FilterState.t) : FilterState.t :=
  {| FilterState.dateRange := FilterState.dateRange f;
     FilterState.limit := FilterState.limit f;
     FilterState.page := FilterState.page f;
     FilterState.zoneFilter := FilterState.zoneFilter f;
     FilterState.stateFilter := FilterState.stateFilter f;
     FilterState.cityFilter := FilterState.cityFilter f;
     FilterState.storeFilter := FilterState.storeFilter f;
     FilterState.formatFilter := FilterState.formatFilter f;
     FilterState.brandFilter := FilterState.brandFilter f;
     FilterState.searchTerm := FilterState.searchTerm f;
     FilterState.dateRangeFilter := v;
     FilterState.quantityRangeFilter := FilterState.quantityRangeFilter f |}.

Definition setQuantityRangeFilter (v : option num * option num) (f : FilterState.t) : FilterState.t :=
  {| FilterState.dateRange := FilterState.dateRange f;
     FilterState.limit := FilterState.limit f;
     FilterState.page := FilterState.page f;
     FilterState.zoneFilter := FilterState.zoneFilter f;
     FilterState.stateFilter := FilterState.stateFilter f;
     FilterState.cityFilter := FilterState.cityFilter f;
     FilterState.storeFilter := FilterState.storeFilter f;
     FilterState.formatFilter := FilterState.formatFilter f;
     FilterState.brandFilter := FilterState.brandFilter f;
     FilterState.searchTerm := FilterState.searchTerm f;
     FilterState.dateRangeFilter := FilterState.dateRangeFilter f;
     FilterState.quantityRangeFilter := v |}.

(** [handlePageSizeChange] and [handlePageChange]. *)
Definition handlePageSizeChange (newSize : Z) (f : FilterState.t) :=
  setPage 1 (setLimit newSize f).

Definition handlePageChange (newPage : Z) (f : FilterState.t) :=
  setPage newPage f.

(** The [onChange] of the search box: the term alone is set. *)
Definition onSearchChange (value : string) (f : FilterState.t) :=
  setSearchTerm value f.

(** The [onChange] of the filter dropdowns: the filter is set and the page
    goes back to 1. *)
Definition onZoneChange (value : string) (f : FilterState.t) :=
  setPage 1 (setZoneFilter value f).

Definition onStateChange (value : string) (f : FilterState.t) :=
  setPage 1 (setStateFilter value f).

Definition onCityChange (value : string) (f : FilterState.t) :=
  setPage 1 (setCityFilter value f).

Definition onFormatChange (value : string) (f : FilterState.t) :=
  setPage 1 (setFormatFilter value f).

Definition onStoreChange (value : string) (f : FilterState.t) :=
  setPage 1 (setStoreFilter value f).

Definition onBrandChange (value : string) (f : FilterState.t) :=
  setPage 1 (setBrandFilter value f).

(** The [onClick] of "Clear All". *)
Definition clearAllFilters (f : FilterState.t) : FilterState.t :=
  setPage 1
    (setQuantityRangeFilter (None, None)
       (setDateRangeFilter (None, None)
          (setBrandFilter ""
             (setFormatFilter ""
                (setStoreFilter ""
                   (setCityFilter ""
                      (setStateFilter ""
                         (setZoneFilter "" (setSearchTerm "" f))))))))).

(** The state the component starts in (its [useState] initial values). *)
Definition initialFilters : FilterState.t :=
  {| FilterState.dateRange := (None, None);
     FilterState.limit := 50;
     FilterState.page := 1;
     FilterState.zoneFilter := "";
     FilterState.stateFilter := "";
     FilterState.cityFilter := "";
     FilterState.storeFilter := "";
     FilterState.formatFilter := "";
     FilterState.brandFilter := "";
     FilterState.searchTerm := "";
     FilterState.dateRangeFilter := (None, None);
     FilterState.quantityRangeFilter := (None, None) |}.

(** What a user can do with the controls the table renders.  The zone,
    state, city and format dropdowns are rendered disabled, and the panel of
    date range, quantity range and presets is rendered only in the advanced
    search mode, which nothing switches on. *)
Inductive Chip :=
| ChipSearch | ChipZone | ChipState | ChipCity | ChipStore
| ChipFormat | ChipBrand | ChipDate | ChipQty.

Inductive Action :=
| TypeSearch (value : string)
| PickStore (value : string)
| PickBrand (value : string)
| ClickClearAll
| ClickChip (chip : Chip)
| GoToPage (newPage : Z)
| PickPageSize (newSize : Z).

(** The [onClick] of the chip of an active filter; a chip is rendered only
    while its filter is set. *)
Definition clickChip (chip : Chip) (f : FilterState.t) : FilterState.t :=
  match chip with
  | ChipSearch =>
      if truthy_str (FilterState.searchTerm f) then setSearchTerm "" f else f
  | ChipZone =>
      if truthy_str (FilterState.zoneFilter f) then setZoneFilter "" f else f
  | ChipState =>
      if truthy_str (FilterState.stateFilter f) then setStateFilter "" f else f
  | ChipCity =>
      if truthy_str (FilterState.cityFilter f) then setCityFilter "" f else f
  | ChipStore =>
      if truthy_str (FilterState.storeFilter f) then setStoreFilter "" f else f
  | ChipFormat =>
      if truthy_str (FilterState.formatFilter f) then setFormatFilter "" f else f
  | ChipBrand =>
      if truthy_str (FilterState.brandFilter f) then setBrandFilter "" f else f
  | ChipDate =>
      if truthy_ostr (fst (FilterState.dateRangeFilter f))
         || truthy_ostr (snd (FilterState.dateRangeFilter f))
      then setDateRangeFilter (None, None) f else f
  | ChipQty =>
      if truthy_bound (fst (FilterState.quantityRangeFilter f))
         || truthy_bound (snd (FilterState.quantityRangeFilter f))
      then setQuantityRangeFilter (None, None) f else f
  end.

(** One action of the user: the handler of the control, when the control is
    there ("Clear All" shows while a filter is active).  The pagination
    control hands [handlePageChange] and [handlePageSizeChange] a number,
    and the handlers take any. *)
Definition act (f : FilterState.t) (a : Action) : FilterState.t :=
  match a with
  | TypeSearch value => onSearchChange value f
  | PickStore value => onStoreChange value f
  | PickBrand value => onBrandChange value f
  | ClickClearAll => if hasActiveFilters f then clearAllFilters f else f
  | ClickChip chip => clickChip chip f
  | GoToPage newPage => handlePageChange newPage f
  | PickPageSize newSize => handlePageSizeChange newSize f
  end.

Definition afterActions (actions : list Action) : FilterState.t :=
  fold_left act actions initialFilters.

(** What the controls on offer keep true of the state: the filters whose
    controls are disabled or never rendered stay unset. *)
Definition rendered_invariant (f : FilterState.t) : Prop :=
  FilterState.zoneFilter f = "" /\
  FilterState.stateFilter f = "" /\
  FilterState.cityFilter f = "" /\
  FilterState.formatFilter f = "" /\
  FilterState.dateRangeFilter f = (None, None) /\
  FilterState.quantityRangeFilter f = (None, None) /\
  FilterState.dateRange f = (None, None).

(** A saved preset: the [currentFilters] object of "Save Preset". *)
Record Preset := {
  preset_searchTerm : string;
  preset_zoneFilter : string;
  preset_stateFilter : string;
  preset_cityFilter : string;
  preset_storeFilter : string;
  preset_formatFilter : string;
  preset_brandFilter : string;
  preset_dateRangeFilter : option string * option string;
  preset_quantityRangeFilter : option num * option num;
  preset_searchFields : list string
}.

(** The state of the table the presets touch: the filters, the search
    fields and the saved presets, each with its name. *)
Record TableState := {
  filters : FilterState.t;
  searchFields : list string;
  savedFilters : list (string * Preset)
}.

Definition currentFilters (st : TableState) : Preset :=
  {| preset_searchTerm := FilterState.searchTerm (filters st);
     preset_zoneFilter := FilterState.zoneFilter (filters st);
     preset_stateFilter := FilterState.stateFilter (filters st);
     preset_cityFilter := FilterState.cityFilter (filters st);
     preset_storeFilter := FilterState.storeFilter (filters st);
     preset_formatFilter := FilterState.formatFilter (filters st);
     preset_brandFilter := FilterState.brandFilter (filters st);
     preset_dateRangeFilter := FilterState.dateRangeFilter (filters st);
     preset_quantityRangeFilter := FilterState.quantityRangeFilter (filters st);
     preset_searchFields := searchFields st |}.

(** The [onClick] of "Save Preset"; [name] is what [prompt] returned
    ([None] for a cancelled prompt). *)
Definition savePreset (name : option string) (st : TableState) : TableState :=
  match name with
  | Some n =>
      if truthy_str n then
        {| filters := filters st;
           searchFields := searchFields st;
           savedFilters := (savedFilters st ++ [(n, currentFilters st)])%list |}
      else st
  | None => st
  end.

(** [s || ''] on a string. *)
Definition str_or_empty (s : string) : string :=
  if truthy_str s then s else "".

(** The [onChange] of "Load Preset...": the first preset of that name, if
    any, is put back, and the page goes back to 1. *)
Definition loadPreset (value : string) (st : TableState) : TableState :=
  if truthy_str value then
    match find (fun p => (fst p =? value)%string) (savedFilters st) with
    | Some (_, preset) =>
        {| filters :=
             setPage 1
               (setQuantityRangeFilter (preset_quantityRangeFilter preset)
                  (setDateRangeFilter (preset_dateRangeFilter preset)
                     (setBrandFilter (str_or_empty (preset_brandFilter preset))
                        (setFormatFilter (str_or_empty (preset_formatFilter preset))
                           (setStoreFilter (str_or_empty (preset_storeFilter preset))
                              (setCityFilter (str_or_empty (preset_cityFilter preset))
                                 (setStateFilter (str_or_empty (preset_stateFilter preset))
                                    (setZoneFilter (str_or_empty (preset_zoneFilter preset))
                                       (setSearchTerm
                                          (str_or_empty (preset_searchTerm preset))
                                          (filters st))))))))));
           searchFields := preset_searchFields preset;
           savedFilters := savedFilters st |}
    | None => st
    end
  else st.




(* ================================================================== *)
(** * More hooks and service calls *)
(* ================================================================== *)

(** [hasRealFilters] of [useFilteredForecastData]: some key other than
    [limit] and [offset] holds something other than the empty string. *)
Definition hasRealFilters (filters : Obj.t JsVal) : bool :=
  existsb
    (fun key =>
       negb (key =? "limit")%string && negb (key =? "offset")%string
       && match Obj.get filters key with
          | Some (VStr s) => negb (s =? "")%string
          | Some (VNum _) => true
          | Some VNaN => true
          | None => false
          end)
    (Obj.keys filters).

(** The query key and the [enabled] flag of
    [useFilteredForecastData(filters, enabled)]. *)
Definition filtered_queryKey (filters : Obj.t JsVal) : QueryKey :=
  (forecastKeys_all ++ [KStr "filtered"; KObj filters])%list.

Definition filtered_enabled (filters : Obj.t JsVal) (enabled : bool) : bool :=
  enabled && hasRealFilters filters.

(** The response of the health endpoint. *)
Record HealthStatus := {
  health_status : string;
  health_message : string;
  total_records_available : Z
}.

Inductive HealthReply :=
| HealthReply_status (status : Z) (body : HealthStatus)
| HealthReply_none.

(** [ForecastService.checkHealth]. *)
Definition checkHealth (r : HealthReply) : HealthStatus + Error :=
  match r with
  | HealthReply_status status body =>
      if (200 <=? status) && (status <? 300) then inl body
      else inr {| message := "Health check failed: "
                             ++ "Request failed with status code "
                             ++ string_of_Z status |}
  | HealthReply_none =>
      inr {| message := "Health check failed: " ++ "Network Error" |}
  end.

(** The options of [useHealthCheck(enabled)]. *)
Definition useHealthCheck_options (enabled : bool) : QueryOptions :=
  {| queryKey := forecastKeys_health;
     enabled := enabled;
     staleTime := Some (30 * 1000);
     gcTime := Some (2 * 60 * 1000);
     refetchOnWindowFocus := Some false;
     refetchOnMount := Some false;
     refetchInterval := None;
     refetchOnReconnect := Some true;
     retry := Some (RetryCount 2);
     retryDelay := Some (DelayMs 1000) |}.

(** One run of the health query. *)
Definition runHealthCheck (fuel : nat) (defaults : QueryDefaults)
    (options : QueryOptions) (transport : Z -> HealthReply)
    : option (list Event * (HealthStatus + Error)) :=
  let r := match retry options with Some r => r | None => default_retry defaults end in
  let d := match retryDelay options with Some d => d | None => default_retryDelay defaults end in
  retryer fuel (fun i => checkHealth (transport i)) r d 0.

(** The events of a run that makes [k] failed requests, each followed by a
    wait, and then one more request. *)
Fixpoint retried (k : nat) (ms : Z) : list Event :=
  match k with
  | O => [Fetch]
  | S k' => Fetch :: Wait ms :: retried k' ms
  end.

(* ================================================================== *)
(** * The URL of the simple filter endpoint *)
(* ================================================================== *)

Inductive FilterType :=
| FT_zone | FT_state | FT_city | FT_site_id | FT_format
| FT_mh_brick | FT_brand | FT_mh_segment | FT_mh_family | FT_mh_class.

Definition filterType_name (t : FilterType) : string :=
  match t with
  | FT_zone => "zone" | FT_state => "state" | FT_city => "city"
  | FT_site_id => "site_id" | FT_format => "format"
  | FT_mh_brick => "mh_brick" | FT_brand => "brand"
  | FT_mh_segment => "mh_segment" | FT_mh_family => "mh_family"
  | FT_mh_class => "mh_class"
  end.

(** A JavaScript string as [encodeURIComponent] reads it: its UTF-16 code
    units, each from 0 to 65535. *)
Definition code_units (s : list Z) : Prop :=
  Forall (fun u => 0 <= u < 65536) s.

(** The code units [encodeURIComponent] leaves as they are: letters,
    digits and [- _ . ! ~ * ' ( )]. *)
Definition uriUnreserved (u : Z) : bool :=
  (65 <=? u) && (u <=? 90) || (97 <=? u) && (u <=? 122)
  || (48 <=? u) && (u <=? 57)
  || existsb (Z.eqb u) [45; 95; 46; 33; 126; 42; 39; 40; 41].

(** The character of a code unit below 256. *)
Definition unitChar (u : Z) : ascii := ascii_of_N (Z.to_N u).

Definition hexDigit (n : Z) : ascii :=
  unitChar (if n <? 10 then 48 + n else 55 + n).

(** [%XX] for an octet, before [rest]. *)
Definition pctByte (b : Z) (rest : string) : string :=
  String "%" (String (hexDigit (b / 16)) (String (hexDigit (b mod 16)) rest)).

Definition pctOctets (octets : list Z) (rest : string) : string :=
  fold_right pctByte rest octets.

(** The octets of the UTF-8 encoding of a code point. *)
Definition utf8 (cp : Z) : list Z :=
  if cp <? 128 then [cp]
  else if cp <? 2048 then [192 + cp / 64; 128 + cp mod 64]
  else if cp <? 65536
       then [224 + cp / 4096; 128 + (cp / 64) mod 64; 128 + cp mod 64]
  else [240 + cp / 262144; 128 + (cp / 4096) mod 64;
        128 + (cp / 64) mod 64; 128 + cp mod 64].

Definition isLeadSurrogate (u : Z) : bool := (55296 <=? u) && (u <=? 56319).
Definition isTrailSurrogate (u : Z) : bool := (56320 <=? u) && (u <=? 57343).

(** The code point of a surrogate pair. *)
Definition surrogatePair (lead trail : Z) : Z :=
  (lead - 55296) * 1024 + (trail - 56320) + 65536.

(** The built-in [encodeURIComponent]: an unreserved code unit stays; any
    other code point -- one code unit, or a surrogate pair -- becomes the
    [%XX] escapes of its UTF-8 octets; a lone surrogate throws a
    [URIError] ([None]). *)
Fixpoint encodeURIComponent (s : list Z) : option string :=
  match s with
  | [] => Some ""
  | u :: rest =>
      if uriUnreserved u
      then option_map (String (unitChar u)) (encodeURIComponent rest)
      else if isLeadSurrogate u then
        match rest with
        | l :: rest' =>
            if isTrailSurrogate l
            then option_map (pctOctets (utf8 (surrogatePair u l)))
                   (encodeURIComponent rest')
            else None
        | [] => None
        end
      else if isTrailSurrogate u then None
      else option_map (pctOctets (utf8 u)) (encodeURIComponent rest)
  end.

(** [String.prototype.isWellFormed]: no lone surrogate. *)
Fixpoint isWellFormed (s : list Z) : bool :=
  match s with
  | [] => true
  | u :: rest =>
      if isLeadSurrogate u then
        match rest with
        | l :: rest' => isTrailSurrogate l && isWellFormed rest'
        | [] => false
        end
      else negb (isTrailSurrogate u) && isWellFormed rest
  end.

(** [params.toString()] of a [URLSearchParams] whose values are numbers in
    decimal, which need no escaping. *)
Fixpoint searchParams_toString (params : list (string * string)) : string :=
  match params with
  | [] => ""
  | [(k, v)] => k ++ "=" ++ v
  | (k, v) :: rest => k ++ "=" ++ v ++ "&" ++ searchParams_toString rest
  end.

(** The URL [getSimpleFilteredForecastData(filterType, value, options)]
    hands to [apiClient.get]; [options] is [(limit, offset)], each possibly
    missing.  [None] when [encodeURIComponent] throws: no request is made
    then. *)
Definition simpleFilterUrl (filterType : FilterType) (value : list Z)
    (options : option Z * option Z) : option string :=
  let params := [] in
  let params :=
    if truthy_onum (fst options)
    then (params ++ [("limit", string_of_Z (match fst options with Some l => l | None => 0 end))])%list
    else params in
  let params :=
    if truthy_onum (snd options)
    then (params ++ [("offset", string_of_Z (match snd options with Some o => o | None => 0 end))])%list
    else params in
  let queryString :=
    if truthy_str (searchParams_toString params)
    then "?" ++ searchParams_toString params else "" in
  option_map
    (fun encoded =>
       "/forecast/chunked-filter/" ++ filterType_name filterType ++ "/"
       ++ encoded ++ queryString)
    (encodeURIComponent value).

(** Reading one encoded code point back from the front of a string. *)
Definition hexValue (c : ascii) : option Z :=
  let n := Z.of_N (N_of_ascii c) in
  if (48 <=? n) && (n <=? 57) then Some (n - 48)
  else if (65 <=? n) && (n <=? 70) then Some (n - 55)
  else None.

Definition readByte (s : string) : option (Z * string) :=
  match s with
  | String p (String h (String l rest)) =>
      if Ascii.eqb p "%" then
        match hexValue h, hexValue l with
        | Some a, Some b => Some (16 * a + b, rest)
        | _, _ => None
        end
      else None
  | _ => None
  end.

(** The code units of a code point. *)
Definition unitsOf (cp : Z) : list Z :=
  if cp <? 65536 then [cp]
  else [55296 + (cp - 65536) / 1024; 56320 + (cp - 65536) mod 1024].

Definition decodeHead (s : string) : option (list Z * string) :=
  match s with
  | EmptyString => None
  | String c rest =>
      if Ascii.eqb c "%" then
        match readByte s with
        | Some (b1, r1) =>
            if b1 <? 128 then Some ([b1], r1)
            else
              match readByte r1 with
              | Some (b2, r2) =>
                  if b1 <? 224
                  then Some ([(b1 - 192) * 64 + (b2 - 128)], r2)
                  else
                    match readByte r2 with
                    | Some (b3, r3) =>
                        if b1 <? 240
                        then Some ([(b1 - 224) * 4096 + (b2 - 128) * 64
                                    + (b3 - 128)], r3)
                        else
                          match readByte r3 with
                          | Some (b4, r4) =>
                              Some (unitsOf ((b1 - 240) * 262144
                                             + (b2 - 128) * 4096
                                             + (b3 - 128) * 64 + (b4 - 128)),
                                    r4)
                          | None => None
                          end
                    | None => None
                    end
              | None => None
              end
        | None => None
        end
      else Some ([Z.of_N (N_of_ascii c)], rest)
  end.

(** A character that is safe in one path segment of a URL: unreserved, or
    part of a [%XX] escape. *)
Definition segmentSafe (c : ascii) : bool :=
  uriUnreserved (Z.of_N (N_of_ascii c)) || Ascii.eqb c "%".

Fixpoint all_chars (p : ascii -> bool) (s : string) : bool :=
  match s with
  | EmptyString => true
  | String c s' => p c && all_chars p s'
  end.

(* ================================================================== *)
(** * The queries of the table and the query cache *)
(* ================================================================== *)

(** The key of [useForecastMetadata]. *)
Definition forecastKeys_metadata : QueryKey :=
  (forecastKeys_all ++ [KStr "metadata"])%list.

(** The options of the other hooks the table calls. *)
Definition useForecastSummary_options (params : Obj.t JsVal) (enabled : bool)
    : QueryOptions :=
  {| queryKey := forecastKeys_summary params;
     enabled := enabled;
     staleTime := Some (20 * 60 * 1000);
     gcTime := Some (60 * 60 * 1000);
     refetchOnWindowFocus := Some false;
     refetchOnMount := Some false;
     refetchInterval := None;
     refetchOnReconnect := Some false;
     retry := Some (RetryCount 1);
     retryDelay := None |}.

Definition uniqueValues_options (column : string) (enabled : bool)
    : QueryOptions :=
  {| queryKey := forecastKeys_uniqueValues column;
     enabled := enabled;
     staleTime := Some (60 * 60 * 1000);
     gcTime := Some (2 * 60 * 60 * 1000);
     refetchOnWindowFocus := Some false;
     refetchOnMount := Some false;
     refetchInterval := None;
     refetchOnReconnect := Some false;
     retry := Some (RetryCount 1);
     retryDelay := None |}.

Definition useUniqueBricks_options := uniqueValues_options "mh_brick".
Definition useUniqueBrands_options := uniqueValues_options "brand".
Definition useUniqueSites_options := uniqueValues_options "site_id".

Definition useForecastMetadata_options (enabled : bool) : QueryOptions :=
  {| queryKey := forecastKeys_metadata;
     enabled := enabled;
     staleTime := Some (60 * 60 * 1000);
     gcTime := Some (2 * 60 * 60 * 1000);
     refetchOnWindowFocus := Some false;
     refetchOnMount := Some false;
     refetchInterval := None;
     refetchOnReconnect := Some false;
     retry := Some (RetryCount 1);
     retryDelay := None |}.

Definition useSmartFilteredForecastData_options (filters : Obj.t JsVal)
    (enabled : bool) : QueryOptions :=
  {| queryKey := smartFiltered_queryKey filters;
     enabled := enabled;
     staleTime := Some (15 * 60 * 1000);
     gcTime := Some (30 * 60 * 1000);
     refetchOnWindowFocus := Some false;
     refetchOnMount := Some false;
     refetchInterval := None;
     refetchOnReconnect := Some false;
     retry := Some (RetryCount 1);
     retryDelay := Some (DelayMs 2000) |}.

(** The queries one render of the table mounts, in the order of its hook
    calls: the metadata, the brands and the sites; the filtered query,
    enabled while a filter is active; and the three queries of
    [useForecastDataWithBrick('', dateRange, limit, page, !hasActiveFilters)]. *)
Definition tableQueries (f : FilterState.t) : list QueryOptions :=
  [ useForecastMetadata_options true;
    useUniqueBrands_options true;
    useUniqueSites_options true;
    useSmartFilteredForecastData_options (activeFilters f) (hasActiveFilters f);
    useForecastData_options
      (brickParams "" (FilterState.dateRange f) (FilterState.limit f)
         ((FilterState.page f - 1) * FilterState.limit f))
      (negb (hasActiveFilters f));
    useForecastSummary_options
      (spread_dateRange [("mh_brick", VStr "")]
         (fst (FilterState.dateRange f)) (snd (FilterState.dateRange f)))
      (negb (hasActiveFilters f));
    useUniqueBricks_options (negb (hasActiveFilters f)) ].

(** The query keys behind one render of the table for a filter state. *)
Definition tableQueryKeys (f : FilterState.t) : list QueryKey :=
  map queryKey (tableQueries f).

(** ** The query hash

    The query library files a query under the hash of its key:
    [JSON.stringify] of the key, with the properties of every object in
    sorted order. *)

Definition hexLower (n : Z) : ascii :=
  unitChar (if n <? 10 then 48 + n else 87 + n).

(** One character of a string under [JSON.stringify], before [rest]. *)
Definition jsonChar (c : ascii) (rest : string) : string :=
  let n := Z.of_N (N_of_ascii c) in
  if n =? 8 then String "092" (String "b" rest)
  else if n =? 9 then String "092" (String "t" rest)
  else if n =? 10 then String "092" (String "n" rest)
  else if n =? 12 then String "092" (String "f" rest)
  else if n =? 13 then String "092" (String "r" rest)
  else if n =? 34 then String "092" (String "034" rest)
  else if n =? 92 then String "092" (String "092" rest)
  else if n <? 32
       then String "092" (String "u" (String "0" (String "0"
              (String (hexLower (n / 16)) (String (hexLower (n mod 16)) rest)))))
  else String c rest.

Fixpoint jsonChars (s : string) (rest : string) : string :=
  match s with
  | EmptyString => rest
  | String c s' => jsonChar c (jsonChars s' rest)
  end.

Definition jsonString (s : string) (rest : string) : string :=
  String "034" (jsonChars s (String "034" rest)).

Definition jsonValue (v : JsVal) (rest : string) : string :=
  match v with
  | VStr s => jsonString s rest
  | VNum z => string_of_Z z ++ rest
  | VNaN => "null" ++ rest
  end.

(** [Object.keys(val).sort()]: the entries of an object by key. *)
Fixpoint insertByKey (kv : string * JsVal) (l : list (string * JsVal))
    : list (string * JsVal) :=
  match l with
  | [] => [kv]
  | kv' :: l' =>
      if (fst kv <=? fst kv')%string then kv :: l
      else kv' :: insertByKey kv l'
  end.

Definition sortedByKey (o : Obj.t JsVal) : list (string * JsVal) :=
  fold_right insertByKey [] o.

Fixpoint jsonMembers (l : list (string * JsVal)) (rest : string) : string :=
  match l with
  | [] => rest
  | (k, v) :: l' =>
      jsonString k (String ":" (jsonValue v
        match l' with
        | [] => rest
        | _ :: _ => String "," (jsonMembers l' rest)
        end))
  end.

Definition jsonPart (part : KeyPart) (rest : string) : string :=
  match part with
  | KStr s => jsonString s rest
  | KObj o => String "{" (jsonMembers (sortedByKey o) (String "}" rest))
  end.

Fixpoint jsonParts (key : QueryKey) (rest : string) : string :=
  match key with
  | [] => rest
  | part :: key' =>
      jsonPart part
        match key' with
        | [] => rest
        | _ :: _ => String "," (jsonParts key' rest)
        end
  end.

(** [hashKey(queryKey)]. *)
Definition hashKey (key : QueryKey) : string :=
  String "[" (jsonParts key "]").

(** ** The cache

    What the library keeps under a hash, as far as requests go: a request
    is in flight, or data arrived at some time. *)
Inductive QueryState :=
| Fetching
| Success (dataUpdatedAt : Z).

Definition QueryCache := Obj.t QueryState.

Definition staleTime_of (o : QueryOptions) : Z :=
  match staleTime o with
  | Some t => t
  | None => default_staleTime queryClient_defaults
  end.

(** One query observer at a render, at time [now]: the cache and the
    requests started so far, before and after.  A disabled query starts no
    request.  An enabled query starts one when the cache holds nothing
    under its hash; it joins the request in flight when there is one; it
    takes data that is fresh, younger than its [staleTime]; stale data is
    requested again. *)
Definition observe (now : Z) (st : QueryCache * list QueryKey)
    (o : QueryOptions) : QueryCache * list QueryKey :=
  let hash := hashKey (queryKey o) in
  let request :=
    (Obj.set (fst st) hash Fetching, (snd st ++ [queryKey o])%list) in
  if enabled o then
    match Obj.get (fst st) hash with
    | None => request
    | Some Fetching => st
    | Some (Success dataUpdatedAt) =>
        if now <? dataUpdatedAt + staleTime_of o then st else request
    end
  else st.

(** One render of the table with filter state [f]: the cache after it and
    the keys of the requests it started. *)
Definition renderTable (now : Z) (cache : QueryCache) (f : FilterState.t)
    : QueryCache * list QueryKey :=
  fold_left (observe now) (tableQueries f) (cache, []).

(** The responses of all requests in flight arrive at time [t]. *)
Definition arrive (t : Z) (cache : QueryCache) : QueryCache :=
  map (fun e => (fst e, match snd e with
                        | Fetching => Success t
                        | Success u => Success u
                        end)) cache.

(** An enabled query that needs no request: one is in flight under its
    hash, or the data there is fresh. *)
Definition served (now : Z) (cache : QueryCache) (o : QueryOptions) : Prop :=
  match Obj.get cache (hashKey (queryKey o)) with
  | Some Fetching => True
  | Some (Success dataUpdatedAt) => now < dataUpdatedAt + staleTime_of o
  | None => False
  end.

(* ================================================================== *)
(** * usePerformanceMonitor *)
(* ================================================================== *)

Section PerformanceMonitor.

(** Times are doubles; the hook subtracts, adds and divides them, and what
    follows holds whatever these operations give. *)
Variable Millis : Type.
Variable t_zero : Millis.
Variable t_sub t_add : Millis -> Millis -> Millis.
Variable t_div_count : Millis -> nat -> Millis.

Record PerformanceMetrics := {
  loadingTime : Millis;
  lastLoadTime : Millis;
  averageLoadTime : Millis;
  loadCount : nat
}.

(** The hook's state: the metrics and the two refs. *)
Record MonitorState := {
  metrics : PerformanceMetrics;
  loadStartTime : option Millis;
  loadTimes : list Millis
}.

Definition monitor_initial : MonitorState :=
  {| metrics := {| loadingTime := t_zero; lastLoadTime := t_zero;
                   averageLoadTime := t_zero; loadCount := 0 |};
     loadStartTime := None;
     loadTimes := [] |}.

(** One run of the effect, with the value of [isLoading] and the reading of
    [performance.now()]. *)
Definition monitor_effect (st : MonitorState) (isLoading : bool) (now : Millis)
    : MonitorState :=
  match isLoading, loadStartTime st with
  | true, None =>
      {| metrics := metrics st; loadStartTime := Some now;
         loadTimes := loadTimes st |}
  | false, Some start =>
      let loadTime := t_sub now start in
      let pushed := (loadTimes st ++ [loadTime])%list in
      let kept := if (10 <? List.length pushed)%nat then tl pushed else pushed in
      let averageLoadTime :=
        t_div_count (fold_left t_add kept t_zero) (List.length kept) in
      {| metrics := {| loadingTime := loadTime; lastLoadTime := loadTime;
                       averageLoadTime := averageLoadTime;
                       loadCount := S (loadCount (metrics st)) |};
         loadStartTime := None;
         loadTimes := kept |}
  | _, _ => st
  end.

(** The effect run over a sequence of renders. *)
Definition monitor_run (events : list (bool * Millis)) : MonitorState :=
  fold_left (fun st e => monitor_effect st (fst e) (snd e)) events
    monitor_initial.

End PerformanceMonitor.

(* ================================================================== *)
(** * A host for concrete runs *)
(* ================================================================== *)

Module Host.

Import JsDate.

Definition digit (c : ascii) : option Z :=
  let n := Z.of_N (N_of_ascii c) in
  if (48 <=? n) && (n <=? 57) then Some (n - 48) else None.

Fixpoint digits (cs : list ascii) (acc : Z) : option Z :=
  match cs with
  | [] => Some acc
  | c :: cs' =>
      match digit c with
      | Some d => digits cs' (10 * acc + d)
      | None => None
      end
  end.

(** Days of the year before the 1-based month [m]. *)
Definition daysBeforeMonth (leap : bool) (m : Z) : Z :=
  let l := if leap then 1 else 0 in
  nth (Z.to_nat (m - 1))
      [0; 31; 59 + l; 90 + l; 120 + l; 151 + l; 181 + l; 212 + l;
       243 + l; 273 + l; 304 + l; 334 + l; 365 + l] 0.

(** A [Date.parse] for the runs below: it reads the ISO date-only form
    [YYYY-MM-DD] of a day that exists, which every host reads as midnight
    UTC of that day, and answers [NaN] to anything else.  (A host may read
    more strings than these; the properties are stated for any
    [Date.parse].) *)
Definition isoDateParse (s : string) : num :=
  match list_ascii_of_string s with
  | [y1; y2; y3; y4; s1; m1; m2; s2; d1; d2] =>
      if (Ascii.eqb s1 "-" && Ascii.eqb s2 "-")%bool then
        match digits [y1; y2; y3; y4] 0, digits [m1; m2] 0, digits [d1; d2] 0 with
        | Some y, Some m, Some d =>
            let leap := InLeapYear y in
            if ((1 <=? m) && (m <=? 12) && (1 <=? d)
                && (d <=? daysBeforeMonth leap (m + 1) - daysBeforeMonth leap m))%bool
            then Some ((DayFromYear y + daysBeforeMonth leap m + d - 1) * msPerDay)
            else None
        | _, _, _ => None
        end
      else None
  | _ => None
  end.

(** A record with the four fields the pivot reads; the rest are empty. *)
Definition mkRecord (brick : option string) (site : string) (wk : string)
    (qty : Z) : ForecastRecord :=
  {| forecast_datetime := ""; forecast_run_id := ""; site_id := site;
     brand := None; mh_segment := None; mh_family := None; mh_class := None;
     mh_brick := brick; product_id := None; forecast_week := wk;
     actual_qty := None; predicted_qty := qty; model_used := None;
     qty_group := None; forecast_week_number := None;
     training_data_max_date := None; forecast_horizon := None;
     created_at := None |}.

Definition mkResponse (records : list ForecastRecord) : ForecastResponse :=
  {| data := records; total_records := Z.of_nat (List.length records);
     page := 1; page_size := 50; has_next := false |}.

(** 6 March 2024, 12:00 UTC: week 10 of its year, in a zone at UTC. *)
Definition noon_6_Mar_2024 : Z := 1709726400000.

(** Records of brick A at site S1: two in the week of 6 March 2024, one
    eight weeks before, one with a week that is no date. *)
Definition a_now_10 := mkRecord (Some "A") "S1" "2024-03-06" 10.
Definition a_now_20 := mkRecord (Some "A") "S1" "2024-03-07" 20.
Definition a_old_5 := mkRecord (Some "A") "S1" "2024-01-10" 5.
Definition a_bad_7 := mkRecord (Some "A") "S1" "not-a-date" 7.

(** Records at site S1 in the week of 6 March 2024 whose brick is the empty
    string, and one whose brick is [null]. *)
Definition blank_5 := mkRecord (Some "") "S1" "2024-03-06" 5.
Definition blank_10 := mkRecord (Some "") "S1" "2024-03-06" 10.
Definition null_20 := mkRecord None "S1" "2024-03-06" 20.



(** The row [a_now_10] alone makes on page 1. *)
Definition row_a_10 : Row :=
  {| row_mh_brick := "A"; row_site_id := "S1";
     row_weeks := [("Week 6", 0); ("Week 7", 0); ("Week 8", 0);
                   ("Week 9", 0); ("Week 10", 10)];
     row_pageId := "1-A-S1" |}.

(** The one row the three records without a brick make on page 1. *)
Definition row_unknown_20 : Row :=
  {| row_mh_brick := "Unknown"; row_site_id := "S1";
     row_weeks := [("Week 6", 0); ("Week 7", 0); ("Week 8", 0);
                   ("Week 9", 0); ("Week 10", 20)];
     row_pageId := "1-Unknown-S1" |}.

(** [a_now_10] again, with a brand. *)
Definition a_now_10_branded : ForecastRecord :=
  {| forecast_datetime := "2024-03-01T00:00:00"; forecast_run_id := "run-1";
     site_id := "S1"; brand := Some "Acme"; mh_segment := None;
     mh_family := None; mh_class := None; mh_brick := Some "A";
     product_id := None; forecast_week := "2024-03-06"; actual_qty := Some 3;
     predicted_qty := 10; model_used := None; qty_group := None;
     forecast_week_number := None; training_data_max_date := None;
     forecast_horizon := None; created_at := None |}.

(** A transport that answers every request with the same status. *)
Definition always (status : Z) : Z -> Reply :=
  fun _ => Reply_status status (mkResponse []).

(** Two filter states written down separately, field by field alike. *)
Definition filters_a : FilterState.t :=
  {| FilterState.dateRange := (None, None);
     FilterState.limit := 50;
     FilterState.page := 2;
     FilterState.zoneFilter := "North";
     FilterState.stateFilter := "";
     FilterState.cityFilter := "";
     FilterState.storeFilter := "S1";
     FilterState.formatFilter := "";
     FilterState.brandFilter := "Acme";
     FilterState.searchTerm := "";
     FilterState.dateRangeFilter := (Some "2024-01-01", None);
     FilterState.quantityRangeFilter := (Some (Some 0), None) |}.

(** 3 January 2024, 12:00 UTC: week 1 of its year, so the window starts at
    week -3.  A record of the day before, and the row it makes on page 1. *)
Definition noon_3_Jan_2024 : Z := 1704283200000.

Definition a_jan_7 := mkRecord (Some "A") "S1" "2024-01-02" 7.

Definition row_a_jan_7 : Row :=
  {| row_mh_brick := "A"; row_site_id := "S1";
     row_weeks := [("Week -3", 0); ("Week -2", 0); ("Week -1", 0);
                   ("Week 0", 0); ("Week 1", 7)];
     row_pageId := "1-A-S1" |}.

Definition filters_b : FilterState.t :=
  {| FilterState.dateRange := (None, None);
     FilterState.limit := 25 + 25;
     FilterState.page := 1 + 1;
     FilterState.zoneFilter := "Nor" ++ "th";
     FilterState.stateFilter := "";
     FilterState.cityFilter := "";
     FilterState.storeFilter := "S" ++ "1";
     FilterState.formatFilter := "";
     FilterState.brandFilter := "Acme";
     FilterState.searchTerm := "";
     FilterState.dateRangeFilter := (Some "2024-01-01", None);
     FilterState.quantityRangeFilter := (Some (Some 0), None) |}.

(** Two filter values as code units: "a/b c", and "a/" followed by
    U+1F600, which is a surrogate pair. *)
Definition value_a_slash_b_c : list Z := [97; 47; 98; 32; 99].
Definition value_with_pair : list Z := [97; 47; 55357; 56832].

(** A health endpoint that cannot be reached. *)
Definition offline : Z -> HealthReply := fun _ => HealthReply_none.

(** A table with filters set and no preset saved. *)
Definition table_a : TableState :=
  {| filters := filters_a; searchFields := ["mh_brick"; "site_id"];
     savedFilters := [] |}.

(** Two renders of the monitored component: loading at 100 ms, loaded at
    350 ms. *)
Definition one_load : list (bool * Z) := [(true, 100); (false, 350)].

End Host.

(* ================================================================== *)
(** * Notions the properties are stated with *)
(* ================================================================== *)

Section PivotNotions.

Variable localTZA : Z.
Variable Date_parse : string -> num.

(** The week number the pivot computes for a record. *)
Definition recordWeek (r : ForecastRecord) : num :=
  getWeekNumber localTZA (newDate_str Date_parse (forecast_week r)).

(** The week number of the reference date and the target window. *)
Definition currentWeek (now : Z) : num :=
  getWeekNumber localTZA (Some now).

Definition window (now : Z) : list num := last5Weeks_of (currentWeek now).

(** A record survives when its week number is in the window. *)
Definition inWindow (now : Z) (r : ForecastRecord) : bool :=
  set_has (window now) (recordWeek r).

(** The cell of a row for a week. *)
Definition cell (row : Row) (wk : num) : option Z :=
  Obj.get (row_weeks row) (weekLabel wk).

(** The fields of a record the pivot reads. *)
Definition pivotView (r : ForecastRecord) :=
  (forecast_week r, mh_brick r, site_id r, predicted_qty r).

End PivotNotions.

(** The row a record starts when its key is new, and a row after a record
    has written its cell (the two halves of the loop body). *)
Definition freshRow (pg : Z) (W : list num) (r : ForecastRecord) : Row :=
  {| row_mh_brick := brick_or_unknown (mh_brick r);
     row_site_id := site_id r;
     row_weeks := initialWeeks W;
     row_pageId := pageId pg (rowKey r) |}.

Definition writeRow (row : Row) (label : string) (qty : Z) : Row :=
  {| row_mh_brick := row_mh_brick row;
     row_site_id := row_site_id row;
     row_weeks := Obj.set (row_weeks row) label (or_zero qty);
     row_pageId := row_pageId row |}.

Definition rowOr (o : option Row) (d : Row) : Row :=
  match o with Some row => row | None => d end.

(** The shape of the map the loop keeps: keys are distinct, and a row
    stored under a key carries it in its [_pageId] and is made of its two
    fields. *)
Definition rowsMap_ok (pg : Z) (M : Obj.t Row) : Prop :=
  NoDup (Obj.keys M) /\
  forall k row, In (k, row) M ->
    row_pageId row = pageId pg k /\
    k = (row_mh_brick row ++ "-" ++ row_site_id row)%string.

(** A row, and a map of rows, moved to another page: only [_pageId]
    changes. *)
Definition withPageId (pg : Z) (k : string) (row : Row) : Row :=
  {| row_mh_brick := row_mh_brick row;
     row_site_id := row_site_id row;
     row_weeks := row_weeks row;
     row_pageId := pageId pg k |}.

Definition repage (pg : Z) (M : Obj.t Row) : Obj.t Row :=
  map (fun kr => (fst kr, withPageId pg (fst kr) (snd kr))) M.

(** The position, among the output rows, of the row a record is written
    into: the row stored under the record's key, which carries that key in
    its [_pageId]. *)
Fixpoint rowIndex (pg : Z) (rs : list Row) (r : ForecastRecord) : option nat :=
  match rs with
  | [] => None
  | row :: rs' =>
      if (row_pageId row =? pageId pg (rowKey r))%string then Some O
      else option_map S (rowIndex pg rs' r)
  end.

(** A string without the separator ["-"]. *)
Fixpoint hyphen_free (s : string) : bool :=
  match s with
  | EmptyString => true
  | String c s' => negb (Ascii.eqb c "-") && hyphen_free s'
  end.

(** A row without its [_pageId]. *)
Definition rowContent (row : Row) :=
  (row_mh_brick row, row_site_id row, row_weeks row).

(* ================================================================== *)
(** * Objects and Maps: lookup after update *)
(* ================================================================== *)

Section ObjFacts.

Context {V : Type}.
Implicit Types (o : Obj.t V) (k : string) (v : V).

Lemma get_set_same o k v : Obj.get (Obj.set o k v) k = Some v.
Proof.
  induction o as [|[k' v'] o IH]; simpl.
  - now rewrite String.eqb_refl.
  - destruct (k' =? k)%string eqn:E; simpl; rewrite E; auto.
Qed.

Lemma get_set_other o k k' v :
  k <> k' -> Obj.get (Obj.set o k v) k' = Obj.get o k'.
Proof.
  intros Hne. induction o as [|[k0 v0] o IH]; simpl.
  - destruct (String.eqb_spec k k'); congruence.
  - destruct (String.eqb_spec k0 k); simpl.
    + subst k0. destruct (String.eqb_spec k k'); congruence.
    + now rewrite IH.
Qed.

Lemma set_set o k v v' : Obj.set (Obj.set o k v) k v' = Obj.set o k v'.
Proof.
  induction o as [|[k0 v0] o IH]; simpl.
  - now rewrite String.eqb_refl.
  - destruct (k0 =? k)%string eqn:E; simpl; rewrite E; congruence.
Qed.

Lemma get_In o k v : Obj.get o k = Some v -> In (k, v) o.
Proof.
  induction o as [|[k0 v0] o IH]; simpl; [discriminate|].
  destruct (String.eqb_spec k0 k).
  - intros [= ->]. left. congruence.
  - intros H. right. auto.
Qed.

Lemma get_None_keys o k : Obj.get o k = None -> ~ In k (Obj.keys o).
Proof.
  induction o as [|[k0 v0] o IH]; simpl; [tauto|].
  destruct (String.eqb_spec k0 k); [discriminate|].
  intros H [Heq|Hin]; [congruence|]. now apply IH.
Qed.

Lemma In_get o k v :
  NoDup (Obj.keys o) -> In (k, v) o -> Obj.get o k = Some v.
Proof.
  induction o as [|[k0 v0] o IH]; simpl; [tauto|].
  intros Hnd [Heq|Hin].
  - injection Heq as -> ->. now rewrite String.eqb_refl.
  - inversion Hnd as [|? ? Hnotin Hnd']; subst.
    destruct (String.eqb_spec k0 k) as [->|Hne]; [|auto].
    exfalso. apply Hnotin. change (In (fst (k, v)) (map fst o)).
    now apply in_map.
Qed.

Lemma keys_set o k v :
  Obj.keys (Obj.set o k v) =
  if Obj.has o k then Obj.keys o else (Obj.keys o ++ [k])%list.
Proof.
  unfold Obj.has, Obj.keys.
  induction o as [|[k0 v0] o IH]; simpl; [reflexivity|].
  destruct (String.eqb_spec k0 k); simpl.
  - congruence.
  - rewrite IH. now destruct (Obj.get o k).
Qed.

Lemma NoDup_keys_set o k v :
  NoDup (Obj.keys o) -> NoDup (Obj.keys (Obj.set o k v)).
Proof.
  intros Hnd. rewrite keys_set. unfold Obj.has.
  destruct (Obj.get o k) eqn:E; [assumption|].
  apply NoDup_app; [assumption|repeat constructor; simpl; tauto|].
  intros x Hx [<-|[]]. now apply get_None_keys in E.
Qed.


(** Every entry of an updated object is the new one or an old one. *)
Lemma In_set o k v k' v' :
  In (k', v') (Obj.set o k v) -> (k' = k /\ v' = v) \/ In (k', v') o.
Proof.
  induction o as [|[k0 v0] o IH]; simpl.
  - intros [[= <- <-]|[]]. now left.
  - destruct (String.eqb_spec k0 k); simpl.
    + intros [[= <- <-]|H]; [left|right]; auto.
    + intros [H|H]; [now right; left|].
      destruct (IH H); [now left|right; now right].
Qed.

End ObjFacts.

(* ================================================================== *)
(** * Template literals: labels and keys determine their parts *)
(* ================================================================== *)

Lemma to_int_proper z : Z.to_int z <> Decimal.Pos Decimal.Nil /\ Z.to_int z <> Decimal.Neg Decimal.Nil.
Proof.
  destruct z as [|p|p]; simpl; split; try discriminate;
    intros [= H]; now apply DecimalPos.Unsigned.to_uint_nonnil in H.
Qed.

Lemma string_of_Z_parse z :
  NilZero.int_of_string (string_of_Z z) = Some (Z.to_int z).
Proof.
  unfold string_of_Z. destruct (to_int_proper z). now apply NilZero.isi.
Qed.

Lemma string_of_Z_inj a b : string_of_Z a = string_of_Z b -> a = b.
Proof.
  intros H. apply DecimalZ.to_int_inj.
  assert (E : Some (Z.to_int a) = Some (Z.to_int b))
    by (rewrite <- !string_of_Z_parse; now rewrite H).
  now injection E.
Qed.

Lemma num_to_string_inj a b : num_to_string a = num_to_string b -> a = b.
Proof.
  destruct a as [x|], b as [y|]; simpl; intros H.
  - f_equal. now apply string_of_Z_inj.
  - pose proof (string_of_Z_parse x) as P. rewrite H in P. discriminate.
  - pose proof (string_of_Z_parse y) as P. rewrite <- H in P. discriminate.
  - reflexivity.
Qed.

Lemma append_cancel_l (s a b : string) : (s ++ a = s ++ b)%string -> a = b.
Proof.
  induction s as [|c s IH]; simpl; [auto|]. intros [= H]. auto.
Qed.

Lemma weekLabel_inj a b : weekLabel a = weekLabel b -> a = b.
Proof.
  unfold weekLabel. intros H. apply append_cancel_l in H.
  now apply num_to_string_inj.
Qed.

Lemma pageId_inj pg k k' : pageId pg k = pageId pg k' -> k = k'.
Proof.
  unfold pageId. intros H. apply append_cancel_l in H. now injection H.
Qed.

(** A key whose first part has no ["-"] splits in one way only. *)
Lemma hyphen_split (b1 b2 s1 s2 : string) :
  hyphen_free b1 = true -> hyphen_free b2 = true ->
  (b1 ++ "-" ++ s1 = b2 ++ "-" ++ s2)%string -> b1 = b2 /\ s1 = s2.
Proof.
  revert b2. induction b1 as [|c b1 IH]; intros [|c2 b2]; simpl.
  - intros _ _ [= H]. auto.
  - intros _ H2 [= Hc _]. subst c2. discriminate.
  - intros H1 _ [= Hc _]. subst c. discriminate.
  - intros H1 H2 [= Hc H].
    apply andb_prop in H1 as [_ H1]. apply andb_prop in H2 as [_ H2].
    destruct (IH b2 H1 H2 H). split; congruence.
Qed.

Lemma sameValueZero_spec a b : sameValueZero a b = true <-> a = b.
Proof.
  destruct a as [x|], b as [y|]; simpl; split; try congruence.
  - intros H. apply Z.eqb_eq in H. congruence.
  - intros [= ->]. apply Z.eqb_refl.
Qed.

Lemma set_has_spec s w : set_has s w = true <-> In w s.
Proof.
  unfold set_has. rewrite existsb_exists. split.
  - intros (x & Hin & H). apply sameValueZero_spec in H. now subst.
  - intros H. exists w. split; [assumption|]. now apply sameValueZero_spec.
Qed.

Lemma or_zero_id x : or_zero x = x.
Proof.
  unfold or_zero, truthy_Z. destruct (Z.eqb_spec x 0); simpl; congruence.
Qed.

(* ================================================================== *)
(** * The loop over the records *)
(* ================================================================== *)

Section PivotFacts.

Variable localTZA : Z.
Variable Date_parse : string -> num.
Variable pg : Z.
Variable W : list num.

#[local] Abbreviation step := (pivotStep localTZA Date_parse pg W).
#[local] Abbreviation build := (buildRowsMap localTZA Date_parse pg W).
#[local] Abbreviation wk := (recordWeek localTZA Date_parse).
#[local] Abbreviation surv := (fun r => set_has W (wk r)).

Lemma step_skip M r : surv r = false -> step M r = M.
Proof.
  unfold pivotStep, recordWeek. intros H. cbv zeta. now rewrite H.
Qed.

(** A surviving record makes one write under its key. *)
Lemma step_surv M r :
  surv r = true ->
  step M r =
  Obj.set M (rowKey r)
    (writeRow (rowOr (Obj.get M (rowKey r)) (freshRow pg W r))
       (weekLabel (wk r)) (predicted_qty r)).
Proof.
  unfold pivotStep, recordWeek. intros H. cbv zeta. rewrite H. simpl negb.
  cbv iota. unfold Obj.has.
  destruct (Obj.get M (rowKey r)) as [row|] eqn:E; simpl negb; cbv iota.
  - rewrite E. reflexivity.
  - rewrite get_set_same, set_set. reflexivity.
Qed.

Lemma build_snoc l r : build (l ++ [r]) = step (build l) r.
Proof. unfold buildRowsMap. now rewrite fold_left_app. Qed.

(** Records outside the window leave no trace in the map. *)
Lemma build_filter l : build l = build (filter surv l).
Proof.
  unfold buildRowsMap. generalize (@nil (string * Row)) as M.
  induction l as [|r l IH]; intros M; simpl; [reflexivity|].
  destruct (set_has W (wk r)) eqn:E; simpl.
  - apply IH.
  - rewrite step_skip by assumption. apply IH.
Qed.

(** The map reads the records through [pivotView] only. *)
Lemma build_view l l' :
  map pivotView l = map pivotView l' -> build l = build l'.
Proof.
  unfold buildRowsMap. generalize (@nil (string * Row)) as M.
  revert l'. induction l as [|r l IH]; intros [|r' l'] M; simpl;
    try discriminate; [reflexivity|].
  intros [= Hw Hb Hs Hq Hl].
  assert (E : step M r = step M r').
  { unfold pivotStep, rowKey. now rewrite Hw, Hb, Hs, Hq. }
  rewrite E. now apply IH.
Qed.

(** ** Shape of the map *)

Lemma rowsMap_ok_step M r : rowsMap_ok pg M -> rowsMap_ok pg (step M r).
Proof.
  intros [Hnd Hrows].
  destruct (set_has W (wk r)) eqn:E; [|now rewrite step_skip].
  rewrite step_surv by assumption. split.
  - now apply NoDup_keys_set.
  - intros k row Hin. apply In_set in Hin as [[-> ->]|Hin]; [|auto].
    destruct (Obj.get M (rowKey r)) as [row0|] eqn:G; simpl.
    + apply get_In in G. apply (Hrows _ _ G).
    + split; reflexivity.
Qed.

Lemma rowsMap_ok_build l : rowsMap_ok pg (build l).
Proof.
  induction l as [|r l IH] using rev_ind.
  - split; [constructor|intros ? ? []].
  - rewrite build_snoc. now apply rowsMap_ok_step.
Qed.

(** ** Reads after a step *)

Lemma get_step_other M r k :
  k <> rowKey r -> Obj.get (step M r) k = Obj.get M k.
Proof.
  intros Hne. destruct (set_has W (wk r)) eqn:E.
  - rewrite step_surv by assumption. apply get_set_other. congruence.
  - now rewrite step_skip.
Qed.

Lemma get_step_same M r :
  surv r = true ->
  Obj.get (step M r) (rowKey r) =
  Some (writeRow (rowOr (Obj.get M (rowKey r)) (freshRow pg W r))
          (weekLabel (wk r)) (predicted_qty r)).
Proof.
  intros E. rewrite step_surv by assumption. apply get_set_same.
Qed.

(** A cell keeps its value while no later surviving record of the same key
    writes the same label; the row keeps its two fields throughout. *)
Lemma keep_cell l : forall M k lb v row,
  Obj.get M k = Some row ->
  Obj.get (row_weeks row) lb = Some v ->
  (forall r, In r l -> surv r = true -> rowKey r = k ->
             weekLabel (wk r) <> lb) ->
  exists row',
    Obj.get (fold_left step l M) k = Some row' /\
    Obj.get (row_weeks row') lb = Some v /\
    row_mh_brick row' = row_mh_brick row /\
    row_site_id row' = row_site_id row.
Proof.
  induction l as [|r l IH]; intros M k lb v row HM Hc Hl; simpl.
  - exists row. auto.
  - assert (Hl' : forall r', In r' l -> surv r' = true -> rowKey r' = k ->
                             weekLabel (wk r') <> lb)
      by (intros; apply Hl; simpl; auto).
    destruct (set_has W (wk r)) eqn:E.
    + destruct (string_dec (rowKey r) k) as [Hk|Hk].
      * subst k.
        destruct (IH (step M r) (rowKey r) lb v
                    (writeRow row (weekLabel (wk r)) (predicted_qty r)))
          as (row' & G & C & B & S); auto.
        -- rewrite get_step_same by assumption. now rewrite HM.
        -- simpl. rewrite get_set_other; [assumption|].
           apply Hl; simpl; auto.
        -- exists row'. auto.
      * apply IH with (row := row); auto.
        rewrite get_step_other; congruence.
    + rewrite step_skip by assumption. now apply IH with (row := row).
Qed.

(** The last surviving record of a key and week decides the cell. *)
Lemma last_write before r after :
  surv r = true ->
  (forall r', In r' after -> surv r' = true -> rowKey r' = rowKey r ->
              wk r' <> wk r) ->
  exists row,
    Obj.get (build (before ++ r :: after)) (rowKey r) = Some row /\
    Obj.get (row_weeks row) (weekLabel (wk r)) = Some (predicted_qty r).
Proof.
  intros E Hafter. unfold buildRowsMap.
  rewrite fold_left_app. simpl.
  set (M := fold_left step before []).
  destruct (keep_cell after (step M r) (rowKey r) (weekLabel (wk r))
              (predicted_qty r)
              (writeRow (rowOr (Obj.get M (rowKey r)) (freshRow pg W r))
                 (weekLabel (wk r)) (predicted_qty r)))
    as (row' & G & C & _).
  - now apply get_step_same.
  - simpl. now rewrite get_set_same, or_zero_id.
  - intros r' Hin Hs Hk Hlab. apply weekLabel_inj in Hlab.
    now apply (Hafter r').
  - exists row'. auto.
Qed.

(** Every surviving record has a row under its key. *)
Lemma build_has l r :
  In r l -> surv r = true -> exists row, Obj.get (build l) (rowKey r) = Some row.
Proof.
  induction l as [|x l IH] using rev_ind; [intros []|].
  intros Hin E. rewrite build_snoc.
  apply in_app_or in Hin as [Hin|[->|[]]].
  - destruct (IH Hin E) as (row & G).
    destruct (set_has W (wk x)) eqn:Ex.
    + destruct (string_dec (rowKey r) (rowKey x)) as [Hk|Hk].
      * rewrite Hk, get_step_same by assumption. eauto.
      * rewrite get_step_other by assumption. eauto.
    + rewrite step_skip by assumption. eauto.
  - rewrite get_step_same by assumption. eauto.
Qed.

(** Folding writes of a value that depends on the label only. *)
Lemma fold_set_get_in (g : string -> Z) ws : forall o0 lb,
  In lb (map weekLabel ws) ->
  Obj.get (fold_left (fun o w => Obj.set o (weekLabel w) (g (weekLabel w)))
             ws o0) lb = Some (g lb).
Proof.
  induction ws as [|w ws IH] using rev_ind; intros o0 lb; [intros []|].
  rewrite map_app, fold_left_app. simpl. intros Hin.
  destruct (string_dec (weekLabel w) lb) as [<-|Hne].
  - apply get_set_same.
  - rewrite get_set_other by assumption. apply IH.
    apply in_app_or in Hin as [H|[H|[]]]; [assumption|contradiction].
Qed.

Lemma fold_set_get_out (g : string -> Z) ws : forall o0 lb,
  ~ In lb (map weekLabel ws) ->
  Obj.get (fold_left (fun o w => Obj.set o (weekLabel w) (g (weekLabel w)))
             ws o0) lb = Obj.get o0 lb.
Proof.
  induction ws as [|w ws IH]; intros o0 lb Hout; simpl; [reflexivity|].
  rewrite IH by (simpl in Hout; tauto).
  apply get_set_other. simpl in Hout. tauto.
Qed.


Lemma initialWeeks_zero lb v : Obj.get (initialWeeks W) lb = Some v -> v = 0.
Proof.
  unfold initialWeeks.
  destruct (in_dec string_dec lb (map weekLabel W)) as [Hin|Hout].
  - rewrite (fold_set_get_in (fun _ => 0)) by assumption. congruence.
  - rewrite (fold_set_get_out (fun _ => 0)) by assumption. discriminate.
Qed.

(** Where the content of a row comes from: its two fields from a surviving
    record of its key, each cell from such a record of that week, or 0. *)
Lemma build_prov l : forall k row,
  Obj.get (build l) k = Some row ->
  (exists r, In r l /\ surv r = true /\ rowKey r = k /\
             row_mh_brick row = brick_or_unknown (mh_brick r) /\
             row_site_id row = site_id r) /\
  (forall lb v, Obj.get (row_weeks row) lb = Some v ->
     v = 0 \/
     exists r, In r l /\ surv r = true /\ rowKey r = k /\
               weekLabel (wk r) = lb /\ v = predicted_qty r).
Proof.
  induction l as [|x l IH] using rev_ind; intros k row; [discriminate|].
  rewrite build_snoc.
  assert (Hweak : forall P : ForecastRecord -> Prop,
             (exists r, In r l /\ P r) -> exists r, In r (l ++ [x]) /\ P r).
  { intros P (r & Hin & HP). exists r. split; [apply in_or_app; now left|auto]. }
  assert (Hold : forall row0, Obj.get (build l) k = Some row0 ->
    (exists r, In r (l ++ [x]) /\ surv r = true /\ rowKey r = k /\
               row_mh_brick row0 = brick_or_unknown (mh_brick r) /\
               row_site_id row0 = site_id r) /\
    (forall lb v, Obj.get (row_weeks row0) lb = Some v ->
       v = 0 \/
       exists r, In r (l ++ [x]) /\ surv r = true /\ rowKey r = k /\
                 weekLabel (wk r) = lb /\ v = predicted_qty r)).
  { intros row0 G. destruct (IH _ _ G) as [F C]. split.
    - now apply Hweak in F.
    - intros lb v Hc. destruct (C lb v Hc) as [->|H]; [now left|right].
      now apply Hweak in H. }
  destruct (set_has W (wk x)) eqn:Ex; [|rewrite step_skip; auto].
  destruct (string_dec k (rowKey x)) as [->|Hk];
    [|rewrite get_step_other; auto].
  assert (Hx : In x (l ++ [x])) by (apply in_or_app; right; simpl; auto).
  rewrite get_step_same by assumption. intros [= <-].
  destruct (Obj.get (build l) (rowKey x)) as [row0|] eqn:G; simpl.
  - destruct (Hold row0 eq_refl) as [F C]. split; [assumption|].
    intros lb v.
    destruct (string_dec (weekLabel (wk x)) lb) as [<-|Hne].
    + rewrite get_set_same, or_zero_id. intros [= <-]. right.
      exists x. auto.
    + rewrite get_set_other by assumption. apply C.
  - split; [exists x; auto|].
    intros lb v.
    destruct (string_dec (weekLabel (wk x)) lb) as [<-|Hne].
    + rewrite get_set_same, or_zero_id. intros [= <-]. right.
      exists x. auto.
    + rewrite get_set_other by assumption. intros H.
      left. now apply initialWeeks_zero in H.
Qed.

End PivotFacts.

(* ================================================================== *)
(** * The calendar *)
(* ================================================================== *)

Section Calendar.

Import JsDate.

(** [YearFromDay d] is the year whose days include [d]. *)
Lemma YearFromDay_spec d :
  DayFromYear (YearFromDay d) <= d < DayFromYear (YearFromDay d + 1).
Proof.
  unfold YearFromDay, DayFromYear. cbv zeta.
  Z.div_mod_to_equations. lia.
Qed.

Lemma DayFromYear_next y : DayFromYear (y + 1) <= DayFromYear y + 366.
Proof. unfold DayFromYear. Z.div_mod_to_equations. lia. Qed.

Lemma DayFromYear_mono y y' : y <= y' -> DayFromYear y <= DayFromYear y'.
Proof. unfold DayFromYear. intros H. Z.div_mod_to_equations. lia. Qed.

(** Every clock reading since the epoch, in a zone within a day of UTC,
    has a week number. *)
Lemma currentWeek_defined localTZA now :
  0 <= now <= maxTime -> Z.abs localTZA <= msPerDay ->
  currentWeek localTZA now <> NaN.
Proof.
  intros Hnow Htz. unfold currentWeek, getWeekNumber, getFullYear, getTime.
  simpl option_map. cbv zeta.
  set (y := YearFromTime (LocalTime localTZA now)).
  assert (Hd : -1 <= Day (LocalTime localTZA now)).
  { unfold Day, LocalTime, msPerDay in *. Z.div_mod_to_equations. lia. }
  assert (Hdt : Day (LocalTime localTZA now) * msPerDay <= now + localTZA).
  { unfold Day, LocalTime, msPerDay in *. Z.div_mod_to_equations. lia. }
  pose proof (YearFromDay_spec (Day (LocalTime localTZA now))) as [Hlo Hhi].
  fold (YearFromTime (LocalTime localTZA now)) in Hlo, Hhi. fold y in Hlo, Hhi.
  pose proof (DayFromYear_next y) as Hnext.
  assert (Hy : 1969 <= y).
  { destruct (Z_lt_le_dec y 1969) as [Hlt|]; [|assumption].
    pose proof (DayFromYear_mono (y + 1) 1969 ltac:(lia)) as Hm.
    change (DayFromYear 1969) with (-365) in Hm. lia. }
  unfold newDate_y0d.
  replace ((0 <=? y) && (y <=? 99))%bool with false
    by (symmetry; apply andb_false_iff; right; apply Z.leb_gt; lia).
  unfold timeClip, UTC.
  replace (Z.abs ((DayFromYear y + 1 - 1) * msPerDay - localTZA) <=? maxTime)
    with true.
  - simpl. discriminate.
  - symmetry. apply Z.leb_le. unfold msPerDay, maxTime in *. lia.
Qed.

End Calendar.

(* ================================================================== *)
(** * Properties of the pivot *)
(* ================================================================== *)

Section PivotProperties.

Variable localTZA : Z.
Variable Date_parse : string -> num.

#[local] Abbreviation pivot := (pivotData localTZA Date_parse).
#[local] Abbreviation rowsMapOf now pg resp :=
  (buildRowsMap localTZA Date_parse pg (window localTZA now) (data resp)).

Lemma pivot_unfold now0 now pg resp :
  pivot now0 now pg (Some resp) =
  {| rows := map (completeRow (window localTZA now))
               (Obj.values (rowsMapOf now pg resp));
     weeks := map (fun weekNum =>
                     {| week := weekLabel weekNum;
                        dateRange :=
                          getWeekDateRange localTZA weekNum
                            (JsDate.getFullYear localTZA (Some now0)) |})
                (window localTZA now) |}.
Proof.
  cbv beta iota zeta delta [pivotData option_map window currentWeek].
  reflexivity.
Qed.

Lemma pivot_rows now0 now pg resp :
  rows (pivot now0 now pg (Some resp)) =
  map (completeRow (window localTZA now)) (Obj.values (rowsMapOf now pg resp)).
Proof. now rewrite pivot_unfold. Qed.

Lemma pivot_weeks now0 now pg resp :
  weeks (pivot now0 now pg (Some resp)) =
  map (fun weekNum =>
         {| week := weekLabel weekNum;
            dateRange := getWeekDateRange localTZA weekNum
                           (JsDate.getFullYear localTZA (Some now0)) |})
      (window localTZA now).
Proof. now rewrite pivot_unfold. Qed.

(** The output depends on the response through the map of its records. *)
Lemma pivot_congr now0 now pg resp resp' :
  rowsMapOf now pg resp = rowsMapOf now pg resp' ->
  pivot now0 now pg (Some resp) = pivot now0 now pg (Some resp').
Proof.
  intros H. rewrite !pivot_unfold. now rewrite H.
Qed.

Lemma window_length now : List.length (window localTZA now) = 5%nat.
Proof. unfold window, last5Weeks_of. now rewrite length_map. Qed.


(** Dropping records outside the window does not change the output. *)
Lemma pivot_drop now0 now pg resp resp' before r after :
  inWindow localTZA Date_parse now r = false ->
  data resp = (before ++ r :: after)%list ->
  data resp' = (before ++ after)%list ->
  pivot now0 now pg (Some resp) = pivot now0 now pg (Some resp').
Proof.
  intros E H H'. apply pivot_congr. rewrite H, H'.
  rewrite build_filter. symmetry. rewrite build_filter.
  rewrite !filter_app. cbn [filter].
  change (set_has (window localTZA now) (recordWeek localTZA Date_parse r))
    with (inWindow localTZA Date_parse now r).
  now rewrite E.
Qed.

(** An output row comes from an entry of the map. *)
Lemma rows_from_map now0 now pg resp row :
  In row (rows (pivot now0 now pg (Some resp))) ->
  exists k row0,
    Obj.get (rowsMapOf now pg resp) k = Some row0 /\
    row = completeRow (window localTZA now) row0 /\
    row_pageId row = pageId pg k /\
    k = (row_mh_brick row ++ "-" ++ row_site_id row)%string.
Proof.
  rewrite pivot_rows. unfold Obj.values. rewrite map_map.
  intros Hin. apply in_map_iff in Hin as ([k row0] & <- & Hin).
  destruct (rowsMap_ok_build localTZA Date_parse pg (window localTZA now)
              (data resp)) as [Hnd Hrows].
  exists k, row0. destruct (Hrows _ _ Hin). simpl.
  repeat split; auto. now apply In_get.
Qed.

(** And every entry of the map gives an output row. *)
Lemma rows_of_map now0 now pg resp k row0 :
  Obj.get (rowsMapOf now pg resp) k = Some row0 ->
  In (completeRow (window localTZA now) row0)
     (rows (pivot now0 now pg (Some resp))).
Proof.
  intros G. rewrite pivot_rows. apply in_map. apply get_In in G.
  unfold Obj.values. change row0 with (snd (k, row0)). now apply in_map.
Qed.

(** A cell of a completed row, for a week of the window. *)
Lemma complete_cell W row0 wk0 :
  In wk0 W ->
  cell (completeRow W row0) wk0 =
  Some (get_or_zero (row_weeks row0) (weekLabel wk0)).
Proof.
  intros Hin. unfold cell, completeRow. simpl.
  apply (fold_set_get_in (get_or_zero (row_weeks row0))).
  now apply in_map.
Qed.


(** The code's membership test says the week number lies in
    [currentWeek - 4, currentWeek]. *)
Lemma inWindow_interval now cw r :
  currentWeek localTZA now = Some cw ->
  inWindow localTZA Date_parse now r = true <->
  exists w, recordWeek localTZA Date_parse r = Some w /\ cw - 4 <= w <= cw.
Proof.
  intros Hcw. unfold inWindow, window. rewrite Hcw, set_has_spec.
  cbv beta iota delta [last5Weeks_of map num_sub In].
  destruct (recordWeek localTZA Date_parse r) as [w|]; split.
  - intros H. exists w. split; [reflexivity|].
    repeat (destruct H as [H|H]; [injection H; lia|]). contradiction.
  - intros (w' & [= <-] & Hr).
    assert (Hc : w = cw - 4 \/ w = cw - 3 \/ w = cw - 2 \/ w = cw - 1
                 \/ w = cw - 0) by lia.
    repeat (destruct Hc as [Hc|Hc]; [subst w; tauto|]). subst w. tauto.
  - intros H. repeat (destruct H as [H|H]; [discriminate|]). contradiction.
  - intros (w' & [=] & _).
Qed.

(** ** Rows and the records written into them *)

Lemma rowIndex_key pg rs r r' :
  rowKey r = rowKey r' -> rowIndex pg rs r = rowIndex pg rs r'.
Proof.
  intros H. induction rs as [|row rs IH]; simpl; [reflexivity|].
  now rewrite H, IH.
Qed.

Lemma rowIndex_nth pg rs r : forall i,
  rowIndex pg rs r = Some i ->
  exists row, nth_error rs i = Some row /\
              row_pageId row = pageId pg (rowKey r).
Proof.
  induction rs as [|row rs IH]; simpl; intros i; [discriminate|].
  destruct (String.eqb_spec (row_pageId row) (pageId pg (rowKey r))).
  - intros [= <-]. exists row. auto.
  - destruct (rowIndex pg rs r) as [j|]; simpl; [|discriminate].
    intros [= <-]. simpl. now apply IH.
Qed.

Lemma rowIndex_some pg rs r row :
  In row rs -> row_pageId row = pageId pg (rowKey r) ->
  exists i, rowIndex pg rs r = Some i.
Proof.
  induction rs as [|row' rs IH]; simpl; [intros []|].
  intros Hin Hid.
  destruct (String.eqb_spec (row_pageId row') (pageId pg (rowKey r)));
    [eauto|].
  destruct Hin as [->|Hin]; [contradiction|].
  destruct (IH Hin Hid) as (i & ->). simpl. eauto.
Qed.

(** ** Moving to another page *)

Lemma get_repage pg' (M : Obj.t Row) k :
  Obj.get (repage pg' M) k = option_map (withPageId pg' k) (Obj.get M k).
Proof.
  induction M as [|[k0 row0] M IH]; simpl; [reflexivity|].
  destruct (String.eqb_spec k0 k); [subst; reflexivity|apply IH].
Qed.

Lemma set_repage pg' (M : Obj.t Row) k row :
  Obj.set (repage pg' M) k (withPageId pg' k row) = repage pg' (Obj.set M k row).
Proof.
  induction M as [|[k0 row0] M IH]; simpl; [reflexivity|].
  destruct (String.eqb_spec k0 k); simpl; [subst; reflexivity|].
  now rewrite IH.
Qed.

Lemma build_repage pg pg' W l :
  buildRowsMap localTZA Date_parse pg' W l =
  repage pg' (buildRowsMap localTZA Date_parse pg W l).
Proof.
  induction l as [|r l IH] using rev_ind; [reflexivity|].
  rewrite !build_snoc, IH.
  destruct (set_has W (recordWeek localTZA Date_parse r)) eqn:E.
  - rewrite !step_surv by assumption. rewrite get_repage, <- set_repage.
    f_equal.
    now destruct (Obj.get (buildRowsMap localTZA Date_parse pg W l) (rowKey r)).
  - now rewrite !step_skip.
Qed.

Lemma rowContent_repage pg' W (M : Obj.t Row) :
  map rowContent (map (completeRow W) (Obj.values (repage pg' M))) =
  map rowContent (map (completeRow W) (Obj.values M)).
Proof.
  unfold Obj.values, repage. rewrite !map_map. apply map_ext.
  now intros [k row].
Qed.


Lemma NoDup_map_inj {A B : Type} (f : A -> B) (l : list A) :
  (forall a b, f a = f b -> a = b) -> NoDup l -> NoDup (map f l).
Proof.
  intros Hinj Hnd. induction Hnd as [|x l Hx Hnd IH]; simpl; constructor; auto.
  intros Hin. apply in_map_iff in Hin as (y & Hy & Hin).
  apply Hinj in Hy. now subst y.
Qed.

(** No two output rows carry the same key, nor the same two labels. *)
Lemma rows_pageId_NoDup now0 now pg resp :
  NoDup (map row_pageId (rows (pivot now0 now pg (Some resp)))).
Proof.
  destruct (rowsMap_ok_build localTZA Date_parse pg (window localTZA now)
              (data resp)) as [Hnd Hrows].
  rewrite pivot_rows. unfold Obj.values. rewrite !map_map.
  assert (E : map (fun x : string * Row =>
                     row_pageId (completeRow (window localTZA now) (snd x)))
                  (rowsMapOf now pg resp)
              = map (pageId pg) (Obj.keys (rowsMapOf now pg resp))).
  { unfold Obj.keys. rewrite map_map. apply map_ext_in.
    intros [k row] Hin. simpl. destruct (Hrows _ _ Hin) as [Hid _]. exact Hid. }
  rewrite E. apply NoDup_map_inj; [|exact Hnd].
  intros a b. apply pageId_inj.
Qed.

Lemma rows_labels_NoDup now0 now pg resp :
  NoDup (map (fun row => (row_mh_brick row, row_site_id row))
           (rows (pivot now0 now pg (Some resp)))).
Proof.
  apply (NoDup_map_inv
           (fun lb : string * string => pageId pg (fst lb ++ "-" ++ snd lb))).
  rewrite map_map.
  rewrite (map_ext_in _ row_pageId); [apply rows_pageId_NoDup|].
  intros row Hin. cbn [fst snd].
  destruct (rows_from_map _ _ _ _ _ Hin) as (k & _ & _ & _ & Hid & Hk).
  rewrite Hid, Hk. reflexivity.
Qed.

(** The last element of a list with a property that some element has. *)
Lemma last_such {A : Type} (P : A -> Prop) (l : list A) :
  (forall x, P x \/ ~ P x) ->
  (exists x, In x l /\ P x) ->
  exists before x after,
    l = (before ++ x :: after)%list /\ P x /\
    forall y, In y after -> ~ P y.
Proof.
  intros Hdec. induction l as [|a l IH]; [intros (x & [] & _)|].
  intros (x & Hin & Hx).
  assert (Hl : (exists y, In y l /\ P y) \/ ~ (exists y, In y l /\ P y)).
  { clear -Hdec. induction l as [|b l IHl]; [right; intros (y & [] & _)|].
    destruct (Hdec b) as [Hb|Hb]; [left; exists b; simpl; auto|].
    destruct IHl as [(y & Hy & HP)|Hno]; [left; exists y; simpl; auto|].
    right. intros (y & [<-|Hy] & HP); [auto|]. apply Hno. eauto. }
  destruct Hl as [Hsome|Hnone].
  - destruct (IH Hsome) as (before & y & after & -> & Hy & Hafter).
    exists (a :: before), y, after. auto.
  - destruct Hin as [->|Hin]; [|exfalso; apply Hnone; eauto].
    exists [], x, l. repeat split; auto.
    intros y Hy HP. apply Hnone. eauto.
Qed.

(** A surviving record's row: the row under its key holds, in the cell of
    the record's week, the quantity of a surviving record of that key and
    week. *)
Lemma row_of_record now0 now pg resp r :
  In r (data resp) -> inWindow localTZA Date_parse now r = true ->
  exists i row,
    rowIndex pg (rows (pivot now0 now pg (Some resp))) r = Some i /\
    nth_error (rows (pivot now0 now pg (Some resp))) i = Some row /\
    row_pageId row = pageId pg (rowKey r) /\
    exists r', In r' (data resp) /\
               inWindow localTZA Date_parse now r' = true /\
               rowKey r' = rowKey r /\
               recordWeek localTZA Date_parse r'
               = recordWeek localTZA Date_parse r /\
               cell row (recordWeek localTZA Date_parse r)
               = Some (predicted_qty r').
Proof.
  intros Hin Hs.
  set (P := fun x : ForecastRecord =>
              inWindow localTZA Date_parse now x = true /\
              rowKey x = rowKey r /\
              recordWeek localTZA Date_parse x
              = recordWeek localTZA Date_parse r).
  assert (Hdec : forall x, P x \/ ~ P x).
  { intros x. unfold P.
    destruct (inWindow localTZA Date_parse now x); [|right; intros (H & _); discriminate].
    destruct (string_dec (rowKey x) (rowKey r)) as [Hk|Hk];
      [|right; intros (_ & H & _); contradiction].
    destruct (sameValueZero (recordWeek localTZA Date_parse x)
                (recordWeek localTZA Date_parse r)) eqn:E.
    - apply sameValueZero_spec in E. left. auto.
    - right. intros (_ & _ & H). apply sameValueZero_spec in H. congruence. }
  destruct (last_such P (data resp) Hdec) as (before & r' & after & Hd & HP & Hafter).
  { exists r. unfold P. auto. }
  destruct HP as (Hs' & Hk' & Hw').
  destruct (last_write localTZA Date_parse pg (window localTZA now)
              before r' after Hs') as (row0 & G & C).
  { intros y Hy Hsy Hky Hwy. apply (Hafter y Hy). unfold P.
    repeat split; [assumption|congruence|congruence]. }
  rewrite <- Hd, Hk' in G. rewrite Hw' in C.
  assert (Hrow : In (completeRow (window localTZA now) row0)
                    (rows (pivot now0 now pg (Some resp))))
    by (apply rows_of_map with (k := rowKey r); exact G).
  assert (Hid : row_pageId (completeRow (window localTZA now) row0)
                = pageId pg (rowKey r)).
  { destruct (rowsMap_ok_build localTZA Date_parse pg (window localTZA now)
                (data resp)) as [_ Hrows].
    apply get_In in G. destruct (Hrows _ _ G) as [H _]. exact H. }
  destruct (rowIndex_some pg _ r _ Hrow Hid) as (i & Hi).
  destruct (rowIndex_nth _ _ _ _ Hi) as (row & Hn & Hidr).
  exists i, row. repeat split; auto.
  exists r'. repeat split; auto.
  - rewrite Hd. apply in_or_app. right. now left.
  - assert (E : row = completeRow (window localTZA now) row0).
    { apply nth_error_In in Hn.
      destruct (rows_from_map _ _ _ _ _ Hn) as (k & row1 & G1 & -> & Hid1 & _).
      rewrite Hidr in Hid1. apply pageId_inj in Hid1. subst k.
      rewrite G in G1. now injection G1 as <-. }
    rewrite E, complete_cell by (apply set_has_spec; exact Hs).
    unfold get_or_zero. rewrite C. f_equal. apply or_zero_id.
Qed.

End PivotProperties.

(* ================================================================== *)
(** * The pivot: what the specification states *)
(* ================================================================== *)

Section PivotSpecification.

Variable localTZA : Z.
Variable Date_parse : string -> num.

#[local] Abbreviation pivot := (pivotData localTZA Date_parse).
#[local] Abbreviation weekOf := (recordWeek localTZA Date_parse).
#[local] Abbreviation survives := (inWindow localTZA Date_parse).

(** C1 (window exclusion).  Let [cw] be the week number of the reference
    date.  A record whose computed week number is not in [cw - 4, cw] (or is
    no number at all) contributes to no cell of any output row: the pivot of
    the records with it is the pivot of the records without it. *)
Theorem window_exclusion now0 now pg cw resp resp' before r after :
  currentWeek localTZA now = Some cw ->
  (forall w, weekOf r = Some w -> ~ (cw - 4 <= w <= cw)) ->
  data resp = (before ++ r :: after)%list ->
  data resp' = (before ++ after)%list ->
  pivot now0 now pg (Some resp) = pivot now0 now pg (Some resp').
Proof.
  intros Hcw Hout Hd Hd'.
  apply pivot_drop with (before := before) (r := r) (after := after); auto.
  destruct (survives now r) eqn:E; [exfalso|reflexivity].
  apply (inWindow_interval _ _ _ cw r Hcw) in E as (w & Hw & Hr).
  exact (Hout w Hw Hr).
Qed.


(** C6 (empty input).  For a response with no records the pivot has no
    rows, and its [weeks] array still has its 5 descriptors, one per week
    label of the window. *)
Theorem empty_input now0 now pg resp :
  data resp = [] ->
  rows (pivot now0 now pg (Some resp)) = [] /\
  List.length (weeks (pivot now0 now pg (Some resp))) = 5%nat /\
  map week (weeks (pivot now0 now pg (Some resp))) =
  map weekLabel (window localTZA now).
Proof.
  intros Hd. rewrite pivot_rows, pivot_weeks, Hd. split; [|split].
  - reflexivity.
  - rewrite length_map. apply window_length.
  - rewrite map_map. apply map_ext. reflexivity.
Qed.

(** C7 (malformed week).  When the reference date has a week number, a
    record whose [forecast_week] does not parse to a valid date is left
    out -- the pivot is that of the other records -- and the result is
    complete: the 5 week descriptors are there. *)
Theorem malformed_week_skipped now0 now pg resp resp' before r after :
  currentWeek localTZA now <> NaN ->
  newDate_str Date_parse (forecast_week r) = None ->
  data resp = (before ++ r :: after)%list ->
  data resp' = (before ++ after)%list ->
  pivot now0 now pg (Some resp) = pivot now0 now pg (Some resp') /\
  List.length (weeks (pivot now0 now pg (Some resp))) = 5%nat.
Proof.
  intros Hcw Hbad Hd Hd'. split.
  - apply pivot_drop with (before := before) (r := r) (after := after); auto.
    destruct (currentWeek localTZA now) as [cw|] eqn:E;
      [|exfalso; now apply Hcw].
    destruct (survives now r) eqn:S; [exfalso|reflexivity].
    apply (inWindow_interval _ _ _ cw r E) in S as (w & Hw & _).
    unfold recordWeek in Hw. rewrite Hbad in Hw. discriminate Hw.
  - rewrite pivot_weeks, length_map. apply window_length.
Qed.

(** C3 (last record wins).  Take a surviving record [r] that is the last
    of its group -- [(mh_brick || 'Unknown', site_id)] -- and week in the
    input order, in an input where no surviving record of another group
    concatenates to the same row key.  Then the pivot has a row for that
    group, and in every row of that group the cell of [r]'s week is
    [r]'s [predicted_qty]: earlier records of the group and week are
    overwritten, not added. *)
Theorem last_record_wins now0 now pg resp before r after :
  data resp = (before ++ r :: after)%list ->
  survives now r = true ->
  (forall r', In r' after -> survives now r' = true ->
              groupKey r' = groupKey r -> weekOf r' <> weekOf r) ->
  (forall r', In r' (data resp) -> survives now r' = true ->
              rowKey r' = rowKey r -> groupKey r' = groupKey r) ->
  (exists row, In row (rows (pivot now0 now pg (Some resp))) /\
               (row_mh_brick row, row_site_id row) = groupKey r) /\
  (forall row, In row (rows (pivot now0 now pg (Some resp))) ->
               (row_mh_brick row, row_site_id row) = groupKey r ->
               cell row (weekOf r) = Some (predicted_qty r)).
Proof.
  intros Hd Hs Hlast Hsep.
  assert (Hin_after : forall r', In r' after -> In r' (data resp)).
  { intros r' H. rewrite Hd. apply in_or_app. right. now right. }
  destruct (last_write localTZA Date_parse pg (window localTZA now)
              before r after Hs) as (row0 & G & C).
  { intros r' Hin Hs' Hk. apply Hlast; auto. }
  rewrite <- Hd in G.
  assert (Hwin : In (weekOf r) (window localTZA now))
    by (apply set_has_spec; exact Hs).
  assert (Hcell : cell (completeRow (window localTZA now) row0) (weekOf r)
                  = Some (predicted_qty r)).
  { rewrite complete_cell by assumption. unfold get_or_zero.
    rewrite C. f_equal. apply or_zero_id. }
  split.
  - exists (completeRow (window localTZA now) row0). split.
    + apply rows_of_map with (k := rowKey r). exact G.
    + destruct (build_prov _ _ _ _ _ _ _ G) as [(r0 & Hr0 & Hs0 & Hk0 & Hb & Hsite) _].
      simpl. rewrite Hb, Hsite. apply (Hsep r0 Hr0 Hs0 Hk0).
  - intros row Hin Hpair.
    destruct (rows_from_map _ _ _ _ _ _ _ Hin) as (k & row1 & G1 & -> & _ & Hk).
    assert (Hkr : k = rowKey r).
    { rewrite Hk. unfold rowKey.
      pose proof (f_equal fst Hpair) as Hb.
      pose proof (f_equal snd Hpair) as Hsite.
      cbn [fst snd groupKey] in Hb, Hsite. rewrite Hb, Hsite. reflexivity. }
    rewrite Hkr, G in G1. injection G1 as <-. exact Hcell.
Qed.

(** C4 (grouping).  A surviving record of the input is written into one
    row of the output: the row under its key, which holds in the cell of the
    record's week the quantity of a surviving record of that key and week.
    Two surviving records that agree on [mh_brick || 'Unknown'] and on
    [site_id] are written into the same row; and when two are written into
    the same row and neither [mh_brick || 'Unknown'] contains ["-"], they
    agree on both.  No two rows of the output carry the same key, nor the
    same [mh_brick] and [site_id]: a group never has two rows. *)
Theorem same_group_same_row now0 now pg resp r1 r2 :
  In r1 (data resp) -> In r2 (data resp) ->
  survives now r1 = true -> survives now r2 = true ->
  (exists i row,
     rowIndex pg (rows (pivot now0 now pg (Some resp))) r1 = Some i /\
     nth_error (rows (pivot now0 now pg (Some resp))) i = Some row /\
     row_pageId row = pageId pg (rowKey r1) /\
     exists r', In r' (data resp) /\ survives now r' = true /\
                rowKey r' = rowKey r1 /\ weekOf r' = weekOf r1 /\
                cell row (weekOf r1) = Some (predicted_qty r')) /\
  (groupKey r1 = groupKey r2 ->
   rowIndex pg (rows (pivot now0 now pg (Some resp))) r1 =
   rowIndex pg (rows (pivot now0 now pg (Some resp))) r2) /\
  (hyphen_free (brick_or_unknown (mh_brick r1)) = true ->
   hyphen_free (brick_or_unknown (mh_brick r2)) = true ->
   rowIndex pg (rows (pivot now0 now pg (Some resp))) r1 =
   rowIndex pg (rows (pivot now0 now pg (Some resp))) r2 ->
   groupKey r1 = groupKey r2) /\
  NoDup (map row_pageId (rows (pivot now0 now pg (Some resp)))) /\
  NoDup (map (fun row => (row_mh_brick row, row_site_id row))
           (rows (pivot now0 now pg (Some resp)))).
Proof.
  intros H1 H2 S1 S2.
  pose proof (row_of_record localTZA Date_parse now0 now pg resp r1 H1 S1)
    as Hrow.
  split; [exact Hrow|split; [|split; [|split]]].
  - intros Hg. apply rowIndex_key. unfold rowKey.
    pose proof (f_equal fst Hg) as Hb. pose proof (f_equal snd Hg) as Hsite.
    cbn [fst snd groupKey] in Hb, Hsite. rewrite Hb, Hsite. reflexivity.
  - intros F1 F2 Heq. destruct Hrow as (i & row0 & Hi & _).
    destruct (rowIndex_nth _ _ _ _ Hi) as (row & Hn & Hid).
    rewrite Heq in Hi.
    destruct (rowIndex_nth _ _ _ _ Hi) as (row' & Hn' & Hid').
    rewrite Hn in Hn'. injection Hn' as <-.
    rewrite Hid in Hid'. apply pageId_inj in Hid'.
    unfold rowKey in Hid'.
    destruct (hyphen_split _ _ _ _ F1 F2 Hid') as [Hb Hsite].
    unfold groupKey. now rewrite Hb, Hsite.
  - apply rows_pageId_NoDup.
  - apply rows_labels_NoDup.
Qed.

(** C8 (determinism).  The pivot is a function of the records, the two
    clock readings and the page, and of the records it reads four fields
    only: responses whose records agree on [forecast_week], [mh_brick],
    [site_id] and [predicted_qty] give the same output.  The page shows in
    [_pageId] alone: on another page the week descriptors and the content of
    the rows are the same. *)
Theorem pivot_deterministic now0 now pg pg' resp resp' :
  map pivotView (data resp) = map pivotView (data resp') ->
  pivot now0 now pg (Some resp) = pivot now0 now pg (Some resp') /\
  weeks (pivot now0 now pg (Some resp)) =
  weeks (pivot now0 now pg' (Some resp')) /\
  map rowContent (rows (pivot now0 now pg (Some resp))) =
  map rowContent (rows (pivot now0 now pg' (Some resp'))).
Proof.
  intros Hv.
  assert (E : forall p,
    buildRowsMap localTZA Date_parse p (window localTZA now) (data resp) =
    buildRowsMap localTZA Date_parse p (window localTZA now) (data resp'))
    by (intros p; now apply build_view).
  split; [|split].
  - apply pivot_congr. apply E.
  - rewrite !pivot_weeks. reflexivity.
  - rewrite !pivot_rows, <- E.
    rewrite (build_repage localTZA Date_parse pg pg').
    symmetry. apply rowContent_repage.
Qed.

End PivotSpecification.

(* ================================================================== *)
(** * The pivot on concrete inputs *)
(* ================================================================== *)

Section PivotRuns.

Import Host.

#[local] Abbreviation run pg records :=
  (pivotData 0 isoDateParse noon_6_Mar_2024 noon_6_Mar_2024 pg
     (Some (mkResponse records))).

Lemma week_of_noon : currentWeek 0 noon_6_Mar_2024 = Some 10.
Proof. vm_compute. reflexivity. Qed.

(** The hypothesis on the clock holds of a real reading. *)
Lemma week_of_noon_defined : currentWeek 0 noon_6_Mar_2024 <> NaN.
Proof.
  apply currentWeek_defined; unfold JsDate.maxTime, JsDate.msPerDay,
    noon_6_Mar_2024; lia.
Qed.

(** The scenario of the specification: one record of brick A at site S1 in
    the current week gives one row, zero in the four weeks before. *)
Example one_record_one_row : rows (run 1 [a_now_10]) = [row_a_10].
Proof. vm_compute. reflexivity. Qed.

Example week_descriptors :
  weeks (run 1 []) =
  [ {| week := "Week 6"; dateRange := "5 Feb-11 Feb" |};
    {| week := "Week 7"; dateRange := "12 Feb-18 Feb" |};
    {| week := "Week 8"; dateRange := "19 Feb-25 Feb" |};
    {| week := "Week 9"; dateRange := "26 Feb-3 Mar" |};
    {| week := "Week 10"; dateRange := "4 Mar-10 Mar" |} ].
Proof. vm_compute. reflexivity. Qed.

(** A record eight weeks old leaves the pivot as it is without it. *)
Lemma window_exclusion_witness :
  run 1 [a_now_10; a_old_5; a_now_20] = run 1 [a_now_10; a_now_20].
Proof.
  apply (window_exclusion 0 isoDateParse noon_6_Mar_2024 noon_6_Mar_2024 1 10
           (mkResponse [a_now_10; a_old_5; a_now_20])
           (mkResponse [a_now_10; a_now_20])
           [a_now_10] a_old_5 [a_now_20]).
  - vm_compute. reflexivity.
  - intros w H. vm_compute in H. injection H as <-. lia.
  - reflexivity.
  - reflexivity.
Defined.


Lemma empty_input_witness :
  rows (run 1 []) = [] /\ List.length (weeks (run 1 [])) = 5%nat.
Proof.
  destruct (empty_input 0 isoDateParse noon_6_Mar_2024 noon_6_Mar_2024 1
              (mkResponse []) eq_refl) as (Hrows & Hlen & _).
  split; assumption.
Defined.

Lemma malformed_week_skipped_witness :
  newDate_str isoDateParse (forecast_week a_bad_7) = None /\
  run 1 [a_now_10; a_bad_7; a_now_20] = run 1 [a_now_10; a_now_20].
Proof.
  assert (Hbad : newDate_str isoDateParse (forecast_week a_bad_7) = None)
    by (vm_compute; reflexivity).
  split; [exact Hbad|].
  apply (malformed_week_skipped 0 isoDateParse noon_6_Mar_2024
           noon_6_Mar_2024 1
           (mkResponse [a_now_10; a_bad_7; a_now_20])
           (mkResponse [a_now_10; a_now_20])
           [a_now_10] a_bad_7 [a_now_20]).
  - intros H. vm_compute in H. discriminate H.
  - exact Hbad.
  - reflexivity.
  - reflexivity.
Defined.

(** Of two records of one group and week the later one fills the cell. *)
Lemma last_record_wins_witness :
  (exists row, In row (rows (run 1 [a_now_10; a_now_20])) /\
               (row_mh_brick row, row_site_id row) = ("A", "S1")) /\
  (forall row, In row (rows (run 1 [a_now_10; a_now_20])) ->
     (row_mh_brick row, row_site_id row) = ("A", "S1") ->
     cell row (Some 10) = Some 20).
Proof.
  apply (last_record_wins 0 isoDateParse noon_6_Mar_2024 noon_6_Mar_2024 1
           (mkResponse [a_now_10; a_now_20]) [a_now_10] a_now_20 []).
  - reflexivity.
  - vm_compute. reflexivity.
  - intros r' [].
  - intros r' [<-|[<-|[]]] _ _; reflexivity.
Defined.

Lemma same_group_same_row_witness :
  rowIndex 1 (rows (run 1 [a_now_10; null_20; a_now_20])) a_now_10 =
  rowIndex 1 (rows (run 1 [a_now_10; null_20; a_now_20])) a_now_20.
Proof.
  destruct (same_group_same_row 0 isoDateParse noon_6_Mar_2024
              noon_6_Mar_2024 1
              (mkResponse [a_now_10; null_20; a_now_20]) a_now_10 a_now_20)
    as (_ & Hsame & _).
  - simpl. tauto.
  - simpl. tauto.
  - vm_compute. reflexivity.
  - vm_compute. reflexivity.
  - apply Hsame. reflexivity.
Defined.

Lemma pivot_deterministic_witness :
  run 1 [a_now_10] = run 1 [a_now_10_branded] /\
  map rowContent (rows (run 1 [a_now_10])) =
  map rowContent (rows (run 2 [a_now_10_branded])).
Proof.
  destruct (pivot_deterministic 0 isoDateParse noon_6_Mar_2024
              noon_6_Mar_2024 1 2 (mkResponse [a_now_10])
              (mkResponse [a_now_10_branded]) eq_refl) as (H1 & _ & H3).
  split; assumption.
Defined.

(** The brick [""] and the brick [null] are different groups as the
    specification keys them, yet both are written into the row
    ['Unknown'].  So the last record of the group [("", "S1")] for week 10,
    [blank_10], does not decide the cell: the one row of the output holds
    the quantity of [null_20]. *)
Lemma last_record_wins_fails_on_spec_groups :
  spec_groupKey blank_5 = spec_groupKey blank_10 /\
  spec_groupKey null_20 <> spec_groupKey blank_10 /\
  map (recordWeek 0 isoDateParse) [blank_5; blank_10; null_20]
  = [Some 10; Some 10; Some 10] /\
  map (inWindow 0 isoDateParse noon_6_Mar_2024) [blank_5; blank_10; null_20]
  = [true; true; true] /\
  rows (run 1 [blank_5; blank_10; null_20]) = [row_unknown_20] /\
  rowIndex 1 (rows (run 1 [blank_5; blank_10; null_20])) blank_10
  = Some 0%nat /\
  cell row_unknown_20 (Some 10) = Some 20 /\
  cell row_unknown_20 (Some 10) <> Some (predicted_qty blank_10).
Proof.
  split; [reflexivity|].
  split; [vm_compute; discriminate|].
  do 5 (split; [vm_compute; reflexivity|]).
  vm_compute. discriminate.
Qed.


(** Records that differ on [mh_brick ?? "Unknown"] and are written into the
    same row. *)
Lemma distinct_spec_groups_share_a_row :
  spec_groupKey blank_5 <> spec_groupKey null_20 /\
  map (inWindow 0 isoDateParse noon_6_Mar_2024) [blank_5; null_20]
  = [true; true] /\
  rowIndex 1 (rows (run 1 [blank_5; null_20])) blank_5 = Some 0%nat /\
  rowIndex 1 (rows (run 1 [blank_5; null_20])) null_20 = Some 0%nat /\
  List.length (rows (run 1 [blank_5; null_20])) = 1%nat.
Proof.
  split; [vm_compute; discriminate|].
  do 3 (split; [vm_compute; reflexivity|]).
  vm_compute. reflexivity.
Qed.

(** The same records at the same reference date on another page give other
    rows. *)
Lemma pivot_depends_on_page :
  run 1 [a_now_10] <> run 2 [a_now_10].
Proof.
  vm_compute. discriminate.
Qed.

End PivotRuns.

(* ================================================================== *)
(** * The query layer: what the specification states *)
(* ================================================================== *)

Lemma retryer_count_one {A : Type} (fn : Z -> A + Error) ms fuel :
  (2 <= fuel)%nat ->
  retryer fuel fn (RetryCount 1) (DelayMs ms) 0 =
  match fn 0 with
  | inl a => Some ([Fetch], inl a)
  | inr _ => Some ([Fetch; Wait ms; Fetch], fn 1)
  end.
Proof.
  intros Hfuel. destruct fuel as [|[|fuel]]; [lia|lia|].
  cbn [retryer]. destruct (fn 0) as [a|e]; [reflexivity|].
  change (0 <? 1) with true. cbn [negb]. change (0 + 1) with 1.
  destruct (fn 1) as [a|e']; [reflexivity|].
  change (1 <? 1) with false. reflexivity.
Qed.

(** What the HTTP client makes of a reply. *)
Lemma apiClient_get_ok status body :
  200 <= status < 300 -> apiClient_get (Reply_status status body) = inl body.
Proof.
  intros H. unfold apiClient_get.
  replace ((200 <=? status) && (status <? 300))%bool with true; [reflexivity|].
  symmetry. apply andb_true_intro. split; [apply Z.leb_le|apply Z.ltb_lt]; lia.
Qed.

Lemma apiClient_get_fails status body :
  ~ (200 <= status < 300) ->
  exists error, apiClient_get (Reply_status status body) = inr error /\
                response_status error = Some status.
Proof.
  intros H. unfold apiClient_get.
  replace ((200 <=? status) && (status <? 300))%bool with false;
    [eexists; split; reflexivity|].
  symmetry. apply andb_false_iff.
  destruct (Z_lt_le_dec status 200);
    [left; apply Z.leb_gt|right; apply Z.ltb_ge]; lia.
Qed.

(** C5 (retry policy).  A forecast query makes at most two requests, and
    every wait between them is 2000 ms.  A first request answered with a
    2xx status is not retried; a first request answered with any other
    status -- 5xx and 4xx alike -- or with no reply at all is retried once,
    after 2000 ms. *)
Theorem retry_once_after_any_failure fuel params enabled transport :
  (2 <= fuel)%nat ->
  exists events result,
    runForecastQuery fuel queryClient_defaults
      (useForecastData_options params enabled) transport
    = Some (events, result) /\
    (fetches events <= 2)%nat /\
    (forall ms, In ms (waits events) -> ms = 2000) /\
    (forall status body,
       transport 0 = Reply_status status body -> 200 <= status < 300 ->
       retries events = 0%nat) /\
    (forall status body,
       transport 0 = Reply_status status body -> ~ (200 <= status < 300) ->
       retries events = 1%nat /\ waits events = [2000]) /\
    (transport 0 = Reply_none ->
     retries events = 1%nat /\ waits events = [2000]).
Proof.
  intros Hfuel. unfold runForecastQuery.
  cbn [retry retryDelay useForecastData_options].
  rewrite retryer_count_one by assumption.
  unfold getForecastData at 1.
  destruct (apiClient_get (transport 0)) as [body|error] eqn:E.
  - exists [Fetch], (inl body).
    split; [reflexivity|]. split; [cbn; lia|].
    split; [intros ms []|]. split; [reflexivity|]. split.
    + intros status body' Ht Hs. rewrite Ht in E.
      destruct (apiClient_get_fails status body' Hs) as (e & He & _).
      rewrite He in E. discriminate E.
    + intros Ht. rewrite Ht in E. discriminate E.
  - exists [Fetch; Wait 2000; Fetch], (getForecastData (transport 1)).
    split; [reflexivity|]. split; [cbn; lia|].
    split; [intros ms [<-|[]]; reflexivity|]. split.
    + intros status body Ht Hs. rewrite Ht, apiClient_get_ok in E by assumption.
      discriminate E.
    + split; [intros; split; reflexivity|intros; split; reflexivity].
Qed.

(** ** The query cache *)

Lemma fieldwise_eq_eq (f1 f2 : FilterState.t) :
  FilterState.fieldwise_eq f1 f2 -> f1 = f2.
Proof.
  destruct f1 as [[d1 d2] l p z s c st fo b se [r1 r2] [q1 q2]].
  destruct f2 as [[d1' d2'] l' p' z' s' c' st' fo' b' se' [r1' r2'] [q1' q2']].
  unfold FilterState.fieldwise_eq. cbn [FilterState.dateRange FilterState.limit
    FilterState.page FilterState.zoneFilter FilterState.stateFilter
    FilterState.cityFilter FilterState.storeFilter FilterState.formatFilter
    FilterState.brandFilter FilterState.searchTerm FilterState.dateRangeFilter
    FilterState.quantityRangeFilter fst snd].
  intros (-> & -> & -> & -> & -> & -> & -> & -> & -> & -> & -> & -> & -> & -> & ->).
  reflexivity.
Qed.

Section QueryCacheFacts.

Variable now : Z.

#[local] Abbreviation hashOf o := (hashKey (queryKey o)).

Implicit Types (st : QueryCache * list QueryKey).

Lemma observe_disabled st o : enabled o = false -> observe now st o = st.
Proof. intros H. unfold observe. now rewrite H. Qed.

(** A query that is served starts no request. *)
Lemma observe_served st o : served now (fst st) o -> observe now st o = st.
Proof.
  unfold served, observe. cbv zeta.
  destruct (enabled o); [|reflexivity].
  destruct (Obj.get (fst st) (hashOf o)) as [[|t]|]; [reflexivity| |intros []].
  intros H. apply Z.ltb_lt in H. now rewrite H.
Qed.

(** After its turn an enabled query is served. *)
Lemma observe_serves st o :
  enabled o = true -> served now (fst (observe now st o)) o.
Proof.
  intros He. unfold observe. cbv zeta. rewrite He.
  destruct (Obj.get (fst st) (hashOf o)) as [[|t]|] eqn:G.
  - unfold served. now rewrite G.
  - destruct (Z.ltb_spec now (t + staleTime_of o)).
    + unfold served. now rewrite G.
    + unfold served. cbn [fst]. now rewrite get_set_same.
  - unfold served. cbn [fst]. now rewrite get_set_same.
Qed.

(** What another query does leaves a served query served. *)
Lemma served_observe st o o' :
  served now (fst st) o -> served now (fst (observe now st o')) o.
Proof.
  intros H. unfold observe. cbv zeta.
  assert (Hreq : served now (Obj.set (fst st) (hashOf o') Fetching) o).
  { unfold served.
    destruct (string_dec (hashOf o') (hashOf o)) as [E|E].
    - rewrite E, get_set_same. exact I.
    - rewrite get_set_other by assumption. exact H. }
  destruct (enabled o'); [|exact H].
  destruct (Obj.get (fst st) (hashOf o')) as [[|t]|]; [exact H| |exact Hreq].
  destruct (now <? t + staleTime_of o'); [exact H|exact Hreq].
Qed.

Lemma served_fold l : forall st o,
  served now (fst st) o -> served now (fst (fold_left (observe now) l st)) o.
Proof.
  induction l as [|o' l IH]; intros st o H; [exact H|].
  cbn [fold_left]. apply IH. now apply served_observe.
Qed.

(** After a render every enabled query is served. *)
Lemma fold_serves l : forall st o,
  In o l -> enabled o = true ->
  served now (fst (fold_left (observe now) l st)) o.
Proof.
  induction l as [|o' l IH]; intros st o [].
  - subst o'. intros He. cbn [fold_left]. apply served_fold.
    now apply observe_serves.
  - intros He. cbn [fold_left]. now apply IH.
Qed.

(** A render whose enabled queries are all served starts no request and
    leaves the cache as it is. *)
Lemma fold_noop l : forall st,
  (forall o, In o l -> enabled o = true -> served now (fst st) o) ->
  fold_left (observe now) l st = st.
Proof.
  induction l as [|o l IH]; intros st H; [reflexivity|].
  cbn [fold_left].
  assert (E : observe now st o = st).
  { destruct (enabled o) eqn:He.
    - apply observe_served. apply H; [now left|assumption].
    - now apply observe_disabled. }
  rewrite E. apply IH. intros o' Hin. apply H. now right.
Qed.

(** Enabled queries of different hashes, none of them in the cache, are
    each requested, in order. *)
Lemma fold_requests l : forall st,
  NoDup (map (fun o => hashOf o) (filter enabled l)) ->
  (forall o, In o l -> enabled o = true ->
             Obj.get (fst st) (hashOf o) = None) ->
  snd (fold_left (observe now) l st)
  = (snd st ++ map queryKey (filter enabled l))%list.
Proof.
  induction l as [|o l IH]; intros st Hnd Hnone.
  - cbn. now rewrite app_nil_r.
  - cbn [fold_left filter] in *.
    destruct (enabled o) eqn:He.
    + cbn [map] in *. inversion Hnd as [|h hs Hnotin Hnd']; subst.
      assert (E : observe now st o
                  = (Obj.set (fst st) (hashOf o) Fetching,
                     (snd st ++ [queryKey o])%list)).
      { unfold observe. cbv zeta. rewrite He.
        now rewrite (Hnone o (or_introl eq_refl) He). }
      rewrite E, IH; [cbn [snd]; now rewrite <- app_assoc|assumption|].
      intros o' Hin He'. cbn [fst].
      rewrite get_set_other; [apply Hnone; [now right|assumption]|].
      intros Heq. apply Hnotin. rewrite Heq.
      apply (in_map (fun o => hashOf o)). apply filter_In. auto.
    + rewrite observe_disabled by assumption. apply IH; [assumption|].
      intros o' Hin. apply Hnone. now right.
Qed.

(** From a cache of requests in flight a render leaves requests in flight
    only. *)
Lemma fold_fetching l : forall st,
  (forall h s, Obj.get (fst st) h = Some s -> s = Fetching) ->
  forall h s, Obj.get (fst (fold_left (observe now) l st)) h = Some s ->
              s = Fetching.
Proof.
  induction l as [|o l IH]; intros st H; [exact H|].
  cbn [fold_left]. apply IH. intros h s.
  assert (Hreq : Obj.get (Obj.set (fst st) (hashOf o) Fetching) h = Some s ->
                 s = Fetching).
  { destruct (string_dec (hashOf o) h) as [<-|E].
    - rewrite get_set_same. congruence.
    - rewrite get_set_other by assumption. apply H. }
  unfold observe. cbv zeta.
  destruct (enabled o); [|apply H].
  destruct (Obj.get (fst st) (hashOf o)) as [[|t]|]; [apply H| |exact Hreq].
  destruct (now <? t + staleTime_of o); [apply H|exact Hreq].
Qed.

End QueryCacheFacts.

Lemma get_arrive t (cache : QueryCache) h :
  Obj.get (arrive t cache) h
  = option_map (fun s => match s with
                         | Fetching => Success t
                         | Success u => Success u
                         end) (Obj.get cache h).
Proof.
  induction cache as [|[k s] cache IH]; [reflexivity|].
  cbn [arrive map Obj.get fst snd]. destruct (String.eqb k h); [reflexivity|].
  exact IH.
Qed.

(** ** The queries of the table *)

Lemma tableQueries_staleTime f o :
  In o (tableQueries f) -> 15 * 60 * 1000 <= staleTime_of o.
Proof.
  unfold tableQueries. cbn [In].
  intros H. repeat (destruct H as [<-|H]; [cbv; discriminate|]).
  contradiction.
Qed.

Lemma tableQueries_enabled f :
  map queryKey (filter enabled (tableQueries f))
  = ([forecastKeys_metadata; forecastKeys_uniqueValues "brand";
      forecastKeys_uniqueValues "site_id"]
     ++ (if hasActiveFilters f
         then [smartFiltered_queryKey (activeFilters f)]
         else [forecastKeys_list
                 (brickParams "" (FilterState.dateRange f)
                    (FilterState.limit f)
                    ((FilterState.page f - 1) * FilterState.limit f));
               forecastKeys_summary
                 (spread_dateRange [("mh_brick", VStr "")]
                    (fst (FilterState.dateRange f))
                    (snd (FilterState.dateRange f)));
               forecastKeys_uniqueValues "mh_brick"]))%list.
Proof.
  unfold tableQueries. cbn [filter enabled useForecastMetadata_options
    useUniqueBrands_options useUniqueSites_options useUniqueBricks_options
    uniqueValues_options useSmartFilteredForecastData_options
    useForecastData_options useForecastSummary_options].
  destruct (hasActiveFilters f); reflexivity.
Qed.

(** The hash of a key tells its kind at one place: the first letter of the
    second part. *)
Lemma hash_kind_list params :
  String.get 13 (hashKey (forecastKeys_list params)) = Some "l"%char.
Proof. reflexivity. Qed.

Lemma hash_kind_summary params :
  String.get 13 (hashKey (forecastKeys_summary params)) = Some "s"%char.
Proof. reflexivity. Qed.

Lemma hash_kind_metadata :
  String.get 13 (hashKey forecastKeys_metadata) = Some "m"%char.
Proof. reflexivity. Qed.

Lemma hash_kind_uniqueValues column :
  String.get 13 (hashKey (forecastKeys_uniqueValues column)) = Some "u"%char.
Proof. reflexivity. Qed.

Lemma hash_uniqueValues_differ :
  hashKey (forecastKeys_uniqueValues "brand")
  <> hashKey (forecastKeys_uniqueValues "site_id") /\
  hashKey (forecastKeys_uniqueValues "brand")
  <> hashKey (forecastKeys_uniqueValues "mh_brick") /\
  hashKey (forecastKeys_uniqueValues "site_id")
  <> hashKey (forecastKeys_uniqueValues "mh_brick").
Proof. repeat split; intros H; vm_compute in H; discriminate H. Qed.

Ltac hash_clash H :=
  first
    [ apply (f_equal (String.get 13)) in H;
      rewrite ?hash_kind_list, ?hash_kind_summary, ?hash_kind_metadata,
        ?hash_kind_uniqueValues in H;
      discriminate H
    | destruct hash_uniqueValues_differ as (D1 & D2 & D3);
      first [ exact (D1 H) | exact (D2 H) | exact (D3 H)
            | exact (D1 (eq_sym H)) | exact (D2 (eq_sym H))
            | exact (D3 (eq_sym H)) ] ].

(** The enabled queries of one render have different hashes. *)
Lemma tableQueries_hashes_NoDup f :
  NoDup (map hashKey (map queryKey (filter enabled (tableQueries f)))).
Proof.
  rewrite tableQueries_enabled.
  destruct (hasActiveFilters f); cbn [app map];
    unfold smartFiltered_queryKey;
    repeat (constructor;
            [cbn [In]; intros H;
             repeat (destruct H as [H|H]; [hash_clash H|]); exact H|]);
    constructor.
Qed.

(** C9 (cache key equality).  Filter states that are equal field by field
    give the same query keys and the same query hashes, so the same cache
    entries, and cause no second request: a render with the second state
    right after a render with the first starts no request and leaves the
    cache as it is, whatever the cache held; and after the first render of
    the application, which requests each of its enabled queries once, a
    render with the second state starts none while the data is younger than
    15 minutes. *)
Theorem equal_filters_equal_keys (f1 f2 : FilterState.t) :
  FilterState.fieldwise_eq f1 f2 ->
  tableQueryKeys f1 = tableQueryKeys f2 /\
  hasActiveFilters f1 = hasActiveFilters f2 /\
  map (fun o => hashKey (queryKey o)) (tableQueries f1)
  = map (fun o => hashKey (queryKey o)) (tableQueries f2) /\
  (forall now cache,
     renderTable now (fst (renderTable now cache f1)) f2
     = (fst (renderTable now cache f1), [])) /\
  (forall now,
     snd (renderTable now [] f1)
     = ([forecastKeys_metadata; forecastKeys_uniqueValues "brand";
         forecastKeys_uniqueValues "site_id"]
        ++ (if hasActiveFilters f1
            then [smartFiltered_queryKey (activeFilters f1)]
            else [forecastKeys_list
                    (brickParams "" (FilterState.dateRange f1)
                       (FilterState.limit f1)
                       ((FilterState.page f1 - 1) * FilterState.limit f1));
                  forecastKeys_summary
                    (spread_dateRange [("mh_brick", VStr "")]
                       (fst (FilterState.dateRange f1))
                       (snd (FilterState.dateRange f1)));
                  forecastKeys_uniqueValues "mh_brick"]))%list) /\
  (forall now arrived later,
     now <= arrived <= later -> later < arrived + 15 * 60 * 1000 ->
     snd (renderTable later (arrive arrived (fst (renderTable now [] f1))) f2)
     = []).
Proof.
  intros H. apply fieldwise_eq_eq in H. subst f2.
  split; [reflexivity|]. split; [reflexivity|]. split; [reflexivity|].
  split; [|split].
  - intros now cache. unfold renderTable at 1. apply fold_noop.
    intros o Hin He. cbn [fst]. unfold renderTable.
    now apply fold_serves.
  - intros now. unfold renderTable.
    rewrite fold_requests.
    + cbn [snd app]. apply tableQueries_enabled.
    + rewrite <- map_map. apply tableQueries_hashes_NoDup.
    + reflexivity.
  - intros now arrived later Ht Hfresh.
    set (c1 := fst (renderTable now [] f1)).
    assert (Hs : forall o, In o (tableQueries f1) -> enabled o = true ->
                           served now c1 o)
      by (intros o Hin He; unfold c1, renderTable; now apply fold_serves).
    assert (Hf : forall h s, Obj.get c1 h = Some s -> s = Fetching)
      by (unfold c1, renderTable; apply fold_fetching; discriminate).
    unfold renderTable. rewrite fold_noop; [reflexivity|].
    intros o Hin He. cbn [fst]. specialize (Hs o Hin He).
    unfold served in *. rewrite get_arrive.
    destruct (Obj.get c1 (hashKey (queryKey o))) as [s|] eqn:G;
      [|contradiction].
    rewrite (Hf _ s G). cbn [option_map].
    pose proof (tableQueries_staleTime f1 o Hin). lia.
Qed.

(** C10 (pagination info).  Whatever response is in the cache, from page 1
    on [useForecastDataWithBrick] reports one page in total and no next
    page, and [prefetchNextPage] asks for nothing. *)
Theorem no_next_page mh_brick dateRange limit page enabled
    (response : ForecastResponse) :
  1 <= page ->
  totalPages (Some response) = 1 /\
  hasNextPage page (Some response) = false /\
  prefetchNextPage mh_brick dateRange limit page enabled (Some response) = [].
Proof.
  intros Hpage.
  assert (Ht : totalPages (Some response) = 1) by reflexivity.
  assert (Hn : hasNextPage page (Some response) = false)
    by (unfold hasNextPage; rewrite Ht; apply Z.ltb_ge; exact Hpage).
  repeat split; auto.
  unfold prefetchNextPage. now rewrite Hn.
Qed.

Section QueryLayerRuns.

Import Host.

Lemma retry_once_after_any_failure_witness :
  exists events result,
    runForecastQuery 2 queryClient_defaults
      (useForecastData_options [] true) (always 500) = Some (events, result)
    /\ retries events = 1%nat /\ waits events = [2000].
Proof.
  destruct (retry_once_after_any_failure 2 [] true (always 500) (le_n 2))
    as (events & result & Hrun & _ & _ & _ & Hfail & _).
  exists events, result. split; [exact Hrun|].
  apply (Hfail 500 (mkResponse [])); [reflexivity|lia].
Defined.

(** Requests answered 404 and 422 are made a second time. *)
Lemma not_found_is_retried :
  runForecastQuery 2 queryClient_defaults
    (useForecastData_options [] true) (always 404)
  = Some ([Fetch; Wait 2000; Fetch],
          inr {| message := "Failed to fetch forecast data: Request failed with status code 404" |})
  /\ runForecastQuery 2 queryClient_defaults
       (useForecastData_options [] true) (always 422)
  = Some ([Fetch; Wait 2000; Fetch],
          inr {| message := "Failed to fetch forecast data: Request failed with status code 422" |})
  /\ retries [Fetch; Wait 2000; Fetch] = 1%nat.
Proof.
  repeat split; vm_compute; reflexivity.
Qed.

Lemma equal_filters_equal_keys_witness :
  FilterState.fieldwise_eq filters_a filters_b /\
  tableQueryKeys filters_a = tableQueryKeys filters_b /\
  snd (renderTable 600000
         (arrive 1000 (fst (renderTable 0 [] filters_a))) filters_b) = [].
Proof.
  assert (H : FilterState.fieldwise_eq filters_a filters_b)
    by (repeat split; reflexivity).
  split; [exact H|].
  destruct (equal_filters_equal_keys filters_a filters_b H)
    as (Hk & _ & _ & _ & _ & Hlater).
  split; [exact Hk|].
  apply Hlater; lia.
Defined.

Lemma no_next_page_witness :
  hasNextPage 3 (Some (mkResponse [a_now_10])) = false /\
  prefetchNextPage "" (None, None) 50 3 true (Some (mkResponse [a_now_10])) = [].
Proof.
  destruct (no_next_page "" (None, None) 50 3 true (mkResponse [a_now_10]))
    as (_ & Hn & Hp).
  - lia.
  - split; assumption.
Defined.

End QueryLayerRuns.

(* ================================================================== *)
(** * More on the pivot: the grid as the table renders it *)
(* ================================================================== *)

Section PivotGrid.

Variable localTZA : Z.
Variable Date_parse : string -> num.

#[local] Abbreviation pivot := (pivotData localTZA Date_parse).
#[local] Abbreviation weekOf := (recordWeek localTZA Date_parse).
#[local] Abbreviation survives := (inWindow localTZA Date_parse).
#[local] Abbreviation rowsMapOf now pg resp :=
  (buildRowsMap localTZA Date_parse pg (window localTZA now) (data resp)).

Lemma pivot_none now0 now pg :
  pivot now0 now pg None = {| rows := []; weeks := [] |}.
Proof. reflexivity. Qed.

Lemma complete_get W row0 wk :
  In wk W ->
  Obj.get (row_weeks (completeRow W row0)) (weekLabel wk) =
  Some (get_or_zero (row_weeks row0) (weekLabel wk)).
Proof. exact (complete_cell W row0 wk). Qed.

(** X1.  The grid is rectangular: whatever response is in hand, every row
    of the pivot has a cell under the label of every week descriptor, so
    the table body never falls back on its ['0'] for a missing cell. *)
Theorem every_header_has_a_cell now0 now pg currentData row w :
  In row (rows (pivot now0 now pg currentData)) ->
  In w (weeks (pivot now0 now pg currentData)) ->
  exists v, Obj.get (row_weeks row) (week w) = Some v.
Proof.
  destruct currentData as [resp|]; [|rewrite pivot_none; intros []].
  intros Hrow Hw.
  destruct (rows_from_map _ _ _ _ _ _ _ Hrow) as (k & row0 & _ & -> & _).
  rewrite pivot_weeks in Hw. apply in_map_iff in Hw as (wk & Hweq & Hwk).
  subst w. cbn [week].
  exists (get_or_zero (row_weeks row0) (weekLabel wk)).
  apply complete_get. exact Hwk.
Qed.

Lemma filter_none {A : Type} (p : A -> bool) (l : list A) :
  (forall x, In x l -> p x = false) -> filter p l = [].
Proof.
  induction l as [|x l IH]; intros H; simpl; [reflexivity|].
  rewrite (H x) by (now left). apply IH. intros y Hy. apply H. now right.
Qed.

(** X2.  The table shows its empty state -- the pivot has no rows --
    exactly when no record of the response falls in the window. *)
Theorem no_rows_iff_no_survivor now0 now pg resp :
  rows (pivotData localTZA Date_parse now0 now pg (Some resp)) = [] <->
  forall r, In r (data resp) -> inWindow localTZA Date_parse now r = false.
Proof.
  split.
  - intros Hrows r Hin. destruct (survives now r) eqn:E; [exfalso|reflexivity].
    destruct (build_has localTZA Date_parse pg (window localTZA now)
                (data resp) r Hin E) as (row0 & G).
    pose proof (rows_of_map localTZA Date_parse now0 now pg resp _ _ G) as H.
    rewrite Hrows in H. exact H.
  - intros Hnone. rewrite pivot_rows, build_filter.
    rewrite (filter_none _ (data resp)); [reflexivity|].
    intros r Hin. exact (Hnone r Hin).
Qed.

Lemma length_step pg W (M : Obj.t Row) r :
  (List.length (pivotStep localTZA Date_parse pg W M r)
   <= List.length M
      + (if set_has W (recordWeek localTZA Date_parse r) then 1 else 0))%nat.
Proof.
  destruct (set_has W (recordWeek localTZA Date_parse r)) eqn:E.
  - rewrite step_surv by assumption.
    pose proof (keys_set M (rowKey r)
                  (writeRow (rowOr (Obj.get M (rowKey r)) (freshRow pg W r))
                     (weekLabel (recordWeek localTZA Date_parse r))
                     (predicted_qty r))) as Hk.
    apply (f_equal (@List.length string)) in Hk.
    unfold Obj.keys in Hk. rewrite length_map in Hk. rewrite Hk.
    destruct (Obj.has M (rowKey r)).
    + rewrite length_map. lia.
    + rewrite length_app, length_map. simpl. lia.
  - rewrite step_skip by assumption. lia.
Qed.

Lemma length_build pg W l :
  (List.length (buildRowsMap localTZA Date_parse pg W l)
   <= List.length
        (filter (fun r => set_has W (recordWeek localTZA Date_parse r)) l))%nat.
Proof.
  induction l as [|r l IH] using rev_ind; [simpl; lia|].
  rewrite build_snoc, filter_app, length_app.
  pose proof (length_step pg W (buildRowsMap localTZA Date_parse pg W l) r) as Hs.
  simpl filter.
  destruct (set_has W (recordWeek localTZA Date_parse r)); simpl in *; lia.
Qed.

(** X3.  One row per key: the rows of the pivot have pairwise different
    [_pageId]s; a key has a row exactly when some surviving record has that
    key; and there are never more rows than surviving records. *)
Theorem one_row_per_key now0 now pg resp :
  NoDup (map row_pageId (rows (pivot now0 now pg (Some resp)))) /\
  (forall k,
     (exists row, In row (rows (pivot now0 now pg (Some resp))) /\
                  row_pageId row = pageId pg k) <->
     (exists r, In r (data resp) /\ survives now r = true /\ rowKey r = k)) /\
  (List.length (rows (pivot now0 now pg (Some resp)))
   <= List.length (filter (survives now) (data resp)))%nat.
Proof.
  destruct (rowsMap_ok_build localTZA Date_parse pg (window localTZA now)
              (data resp)) as [Hnd Hrows].
  split; [|split].
  - apply rows_pageId_NoDup.
  - intros k. split.
    + intros (row & Hin & Hid).
      destruct (rows_from_map _ _ _ _ _ _ _ Hin) as (k' & row0 & G & _ & Hid' & _).
      rewrite Hid in Hid'. apply pageId_inj in Hid'. subst k'.
      destruct (build_prov _ _ _ _ _ _ _ G) as [(r & Hr & Hs & Hk & _) _].
      exists r. auto.
    + intros (r & Hr & Hs & <-).
      destruct (build_has localTZA Date_parse pg (window localTZA now)
                  (data resp) r Hr Hs) as (row0 & G).
      exists (completeRow (window localTZA now) row0). split.
      * apply rows_of_map with (k := rowKey r). exact G.
      * apply get_In in G. destruct (Hrows _ _ G) as [Hid _]. exact Hid.
  - rewrite pivot_rows. unfold Obj.values. rewrite !length_map.
    apply length_build.
Qed.

Lemma cell_provenance now0 now pg resp row wk v :
  In row (rows (pivot now0 now pg (Some resp))) ->
  In wk (window localTZA now) ->
  cell row wk = Some v ->
  v = 0 \/
  exists r, In r (data resp) /\ survives now r = true /\
            pageId pg (rowKey r) = row_pageId row /\
            weekOf r = wk /\ predicted_qty r = v.
Proof.
  intros Hin Hwk Hc.
  destruct (rows_from_map _ _ _ _ _ _ _ Hin) as (k & row0 & G & -> & Hid & _).
  rewrite complete_cell in Hc by assumption. injection Hc as <-.
  unfold get_or_zero.
  destruct (Obj.get (row_weeks row0) (weekLabel wk)) as [v|] eqn:C;
    [|now left].
  rewrite or_zero_id.
  destruct (build_prov _ _ _ _ _ _ _ G) as [_ Hprov].
  destruct (Hprov _ _ C) as [->|(r & Hr & Hs & Hk & Hlab & ->)]; [now left|].
  right. exists r. repeat split; auto.
  - rewrite Hk, Hid. reflexivity.
  - apply weekLabel_inj. exact Hlab.
Qed.

(** X4.  The pivot invents no quantity: a cell of an output row, for a week
    of the window, holds 0 or the [predicted_qty] of a surviving record
    written into that row for that week. *)
Theorem cells_hold_input_quantities now0 now pg resp row wk v :
  In row (rows (pivot now0 now pg (Some resp))) ->
  In wk (window localTZA now) ->
  cell row wk = Some v ->
  v = 0 \/
  exists r, In r (data resp) /\ survives now r = true /\
            pageId pg (rowKey r) = row_pageId row /\
            weekOf r = wk /\ predicted_qty r = v.
Proof. apply cell_provenance. Qed.

(** The two fields of a row are those of the first surviving record of its
    key. *)
Lemma build_first pg W l : forall k row,
  Obj.get (buildRowsMap localTZA Date_parse pg W l) k = Some row ->
  exists before r after,
    l = (before ++ r :: after)%list /\
    set_has W (weekOf r) = true /\ rowKey r = k /\
    (forall r', In r' before -> set_has W (weekOf r') = true ->
                rowKey r' <> k) /\
    row_mh_brick row = brick_or_unknown (mh_brick r) /\
    row_site_id row = site_id r.
Proof.
  induction l as [|x l IH] using rev_ind; intros k row; [discriminate|].
  rewrite build_snoc.
  assert (Hold : forall row0,
    Obj.get (buildRowsMap localTZA Date_parse pg W l) k = Some row0 ->
    exists before r after,
      (l ++ [x])%list = (before ++ r :: after)%list /\
      set_has W (weekOf r) = true /\ rowKey r = k /\
      (forall r', In r' before -> set_has W (weekOf r') = true ->
                  rowKey r' <> k) /\
      row_mh_brick row0 = brick_or_unknown (mh_brick r) /\
      row_site_id row0 = site_id r).
  { intros row0 G.
    destruct (IH _ _ G) as (before & r & after & -> & Hs & Hk & Hb & F).
    exists before, r, (after ++ [x])%list.
    rewrite <- app_assoc. simpl. auto. }
  destruct (set_has W (weekOf x)) eqn:Ex; [|rewrite step_skip; auto].
  destruct (string_dec k (rowKey x)) as [->|Hk];
    [|rewrite get_step_other; auto].
  rewrite get_step_same by assumption. intros [= <-].
  destruct (Obj.get (buildRowsMap localTZA Date_parse pg W l) (rowKey x))
    as [row0|] eqn:G; simpl.
  - apply (Hold row0 eq_refl).
  - exists l, x, []. repeat split; auto.
    intros r' Hin Hs Hk.
    destruct (build_has localTZA Date_parse pg W l r' Hin Hs) as (row' & G').
    rewrite Hk, G in G'. discriminate G'.
Qed.

Lemma brick_or_unknown_nonempty b : brick_or_unknown b <> "".
Proof.
  unfold brick_or_unknown, truthy_str.
  destruct b as [s|]; [|discriminate].
  destruct (String.eqb_spec s ""); simpl; [discriminate|assumption].
Qed.

(** X5.  Every row is labelled by the first surviving record of its key:
    the input splits at a surviving record before which no surviving record
    has the row's key, and the row's [mh_brick] and [site_id] are that
    record's [mh_brick || 'Unknown'] and [site_id].  The [mh_brick] of a row
    is never the empty string. *)
Theorem row_labelled_by_first_record now0 now pg resp row :
  In row (rows (pivot now0 now pg (Some resp))) ->
  (exists before r after,
     data resp = (before ++ r :: after)%list /\
     survives now r = true /\
     pageId pg (rowKey r) = row_pageId row /\
     (forall r', In r' before -> survives now r' = true ->
                 rowKey r' <> rowKey r) /\
     (row_mh_brick row, row_site_id row) = groupKey r) /\
  row_mh_brick row <> "".
Proof.
  intros Hin.
  destruct (rows_from_map _ _ _ _ _ _ _ Hin) as (k & row0 & G & -> & Hid & _).
  destruct (build_first _ _ _ _ _ G)
    as (before & r & after & Hd & Hs & Hk & Hb & Hbrick & Hsite).
  assert (Hpair : (row_mh_brick (completeRow (window localTZA now) row0),
                   row_site_id (completeRow (window localTZA now) row0))
                  = groupKey r).
  { unfold groupKey. cbn [completeRow row_mh_brick row_site_id].
    rewrite Hbrick, Hsite. reflexivity. }
  split.
  - exists before, r, after. repeat split; auto.
    + rewrite Hk, Hid. reflexivity.
    + intros r' Hr' Hs'. rewrite Hk. apply (Hb r' Hr' Hs').
  - cbn [completeRow row_mh_brick]. rewrite Hbrick.
    apply brick_or_unknown_nonempty.
Qed.

End PivotGrid.

(* ================================================================== *)
(** * The filter state: what is sent and what the handlers do *)
(* ================================================================== *)

Lemma get_set_if o c k v k' :
  Obj.get (set_if c o k v) k' =
  if (c && (k =? k')%string)%bool then Some v else Obj.get o k'.
Proof.
  unfold set_if. destruct c; simpl; [|reflexivity].
  destruct (String.eqb_spec k k') as [->|Hne].
  - apply get_set_same.
  - now apply get_set_other.
Qed.

Lemma get_set_str o k s k' :
  Obj.get (set_str o k s) k' =
  if (truthy_ostr s && (k =? k')%string)%bool
  then option_map VStr s else Obj.get o k'.
Proof.
  unfold set_str, truthy_ostr. destruct s as [x|]; [|reflexivity].
  apply get_set_if.
Qed.

Lemma get_set_defined o k n k' :
  Obj.get (set_defined o k n) k' =
  match n with
  | Some x => if (k =? k')%string then Some (num_val x) else Obj.get o k'
  | None => Obj.get o k'
  end.
Proof.
  unfold set_defined. destruct n as [x|]; [|reflexivity].
  destruct (String.eqb_spec k k') as [->|Hne].
  - apply get_set_same.
  - now apply get_set_other.
Qed.

Lemma get_copy_if_truthy filters params k k' :
  Obj.get (copy_if_truthy filters params k) k' =
  if (truthy (Obj.get filters k) && (k =? k')%string)%bool
  then Obj.get filters k else Obj.get params k'.
Proof.
  unfold copy_if_truthy. destruct (Obj.get filters k) as [v|]; [|reflexivity].
  apply get_set_if.
Qed.

Lemma get_copy_if_defined filters params k k' :
  Obj.get (copy_if_defined filters params k) k' =
  match Obj.get filters k with
  | Some v => if (k =? k')%string then Some v else Obj.get params k'
  | None => Obj.get params k'
  end.
Proof.
  unfold copy_if_defined. destruct (Obj.get filters k) as [v|]; [|reflexivity].
  destruct (String.eqb_spec k k') as [->|Hne].
  - apply get_set_same.
  - now apply get_set_other.
Qed.

(** What [activeFilters] holds under each key. *)
Lemma get_activeFilters f k :
  Obj.get (activeFilters f) k =
  if (k =? "limit")%string then Some (VNum (FilterState.limit f))
  else if (k =? "offset")%string
       then Some (VNum ((FilterState.page f - 1) * FilterState.limit f))
  else if (k =? "search_term")%string
       then (if truthy_str (FilterState.searchTerm f)
             then Some (VStr (FilterState.searchTerm f)) else None)
  else if (k =? "zone")%string
       then (if truthy_str (FilterState.zoneFilter f)
             then Some (VStr (FilterState.zoneFilter f)) else None)
  else if (k =? "state")%string
       then (if truthy_str (FilterState.stateFilter f)
             then Some (VStr (FilterState.stateFilter f)) else None)
  else if (k =? "city")%string
       then (if truthy_str (FilterState.cityFilter f)
             then Some (VStr (FilterState.cityFilter f)) else None)
  else if (k =? "site_id")%string
       then (if truthy_str (FilterState.storeFilter f)
             then Some (VStr (FilterState.storeFilter f)) else None)
  else if (k =? "format")%string
       then (if truthy_str (FilterState.formatFilter f)
             then Some (VStr (FilterState.formatFilter f)) else None)
  else if (k =? "brand")%string
       then (if truthy_str (FilterState.brandFilter f)
             then Some (VStr (FilterState.brandFilter f)) else None)
  else if (k =? "start_date")%string
       then (if truthy_ostr (fst (FilterState.dateRangeFilter f))
             then option_map VStr (fst (FilterState.dateRangeFilter f)) else None)
  else if (k =? "end_date")%string
       then (if truthy_ostr (snd (FilterState.dateRangeFilter f))
             then option_map VStr (snd (FilterState.dateRangeFilter f)) else None)
  else if (k =? "min_predicted_qty")%string
       then option_map num_val (fst (FilterState.quantityRangeFilter f))
  else if (k =? "max_predicted_qty")%string
       then option_map num_val (snd (FilterState.quantityRangeFilter f))
  else None.
Proof.
  unfold activeFilters. cbv zeta.
  rewrite !get_set_defined, !get_set_str.
  cbn [truthy_ostr option_map Obj.get].
  repeat match goal with
  | |- context [(k =? ?a)%string] => rewrite (String.eqb_sym k a)
  end.
  destruct (fst (FilterState.quantityRangeFilter f)) as [mn|],
           (snd (FilterState.quantityRangeFilter f)) as [mx|];
    cbn [option_map];
    repeat match goal with
    | |- context [(?a =? k)%string] =>
        destruct (String.eqb_spec a k) as [<-|?];
        [solve [cbn; rewrite ?andb_false_r, ?andb_true_r; cbn;
                repeat match goal with
                | |- context [if ?b then _ else _] => destruct b; cbn
                end; reflexivity]|]
    end;
    rewrite ?andb_false_r; reflexivity.
Qed.

Ltac calc_eqb :=
  repeat match goal with
  | |- context [String.eqb ?a ?b] =>
      tryif is_var b then fail else
        (let r := eval vm_compute in (String.eqb a b) in
         change (String.eqb a b) with r)
  end;
  cbv beta iota.

Ltac settle_key :=
  calc_eqb;
  rewrite ?andb_false_r, ?andb_true_r;
  cbv beta iota;
  repeat match goal with
  | |- context [truthy_str ?s] =>
      destruct (truthy_str s) eqn:?; cbn [truthy truthy_ostr option_map]
  | |- context [truthy_ostr ?s] =>
      destruct s; cbn [truthy truthy_ostr option_map]
  | |- context [truthy_Z ?s] =>
      unfold truthy_Z; destruct (Z.eqb_spec s 0); cbn [negb truthy andb]
  | |- context [(?s =? 0)%Z] =>
      destruct (Z.eqb_spec s 0); cbn [negb truthy andb]
  end;
  repeat match goal with H : truthy_str _ = _ |- _ => rewrite H end;
  cbn [truthy andb negb]; try reflexivity; try congruence.

Ltac by_key :=
  repeat match goal with
  | |- context [String.eqb ?a ?k] =>
      is_var k;
      destruct (String.eqb_spec a k) as [<-|?]; [solve [settle_key]|]
  end.

Lemma get_forecastParams_active f k :
  Obj.get (forecastParams (activeFilters f)) k =
  if ((k =? "limit")%string && (FilterState.limit f =? 0))%bool then None
  else Obj.get (activeFilters f) k.
Proof.
  unfold forecastParams. cbv zeta.
  repeat (rewrite get_copy_if_defined || rewrite get_copy_if_truthy).
  rewrite !get_activeFilters.
  cbn [Obj.get].
  repeat match goal with
  | |- context [String.eqb k ?a] => rewrite (String.eqb_sym k a)
  end.
  calc_eqb.
  destruct (fst (FilterState.quantityRangeFilter f)) as [mn|],
           (snd (FilterState.quantityRangeFilter f)) as [mx|];
    cbn [option_map]; by_key; rewrite ?andb_false_r; cbv beta iota;
    reflexivity.
Qed.

(** X6.  The smart hook forwards the active filters as they are: under
    every key the parameters it sends hold what [activeFilters] holds,
    except that a [limit] of 0 is left out. *)
Theorem smart_params_forward_filters f k :
  Obj.get (forecastParams (activeFilters f)) k =
  if ((k =? "limit")%string && (FilterState.limit f =? 0))%bool then None
  else Obj.get (activeFilters f) k.
Proof. apply get_forecastParams_active. Qed.

Lemma get_forecastParams_brick f :
  Obj.get (forecastParams (activeFilters f)) "mh_brick" = None.
Proof. rewrite get_forecastParams_active, get_activeFilters. reflexivity. Qed.

Lemma truthy_str_nonempty s : truthy_str s = true -> s <> "".
Proof.
  unfold truthy_str. destruct (String.eqb_spec s ""); simpl; congruence.
Qed.

Lemma activeFilters_no_empty f k s :
  Obj.get (activeFilters f) k = Some (VStr s) -> s <> "".
Proof.
  rewrite get_activeFilters.
  repeat match goal with
  | |- context [String.eqb k ?a] => destruct (String.eqb_spec k a)
  end;
  try discriminate;
  repeat match goal with
  | |- context [truthy_str ?x] => destruct (truthy_str x) eqn:?
  | |- context [truthy_ostr ?x] => destruct x eqn:?; cbn [truthy_ostr option_map]
  end;
  try discriminate;
  try (intros [= <-]; now apply truthy_str_nonempty).
  - destruct (fst (FilterState.quantityRangeFilter f)) as [[x|]|];
      discriminate.
  - destruct (snd (FilterState.quantityRangeFilter f)) as [[x|]|];
      discriminate.
Qed.

(** X7.  No empty filter is sent: the parameters of the smart hook never
    hold the empty string, and never hold [mh_brick]. *)
Theorem smart_params_hold_no_empty_string f :
  (forall k s, Obj.get (forecastParams (activeFilters f)) k = Some (VStr s) ->
               s <> "") /\
  Obj.get (forecastParams (activeFilters f)) "mh_brick" = None.
Proof.
  split.
  - intros k s. rewrite get_forecastParams_active.
    destruct ((k =? "limit")%string && (FilterState.limit f =? 0))%bool;
      [discriminate|].
    apply activeFilters_no_empty.
  - apply get_forecastParams_brick.
Qed.

Lemma get_Some_keys {V : Type} (o : Obj.t V) k v :
  Obj.get o k = Some v -> In k (Obj.keys o).
Proof.
  intros H. apply get_In in H. unfold Obj.keys.
  change k with (fst (k, v)). now apply in_map.
Qed.




Lemma hasRealFilters_intro filters key :
  key <> "limit" -> key <> "offset" ->
  (exists v, Obj.get filters key = Some v /\ v <> VStr "") ->
  hasRealFilters filters = true.
Proof.
  intros Hl Ho (v & G & Hv). unfold hasRealFilters.
  apply existsb_exists. exists key. split; [now apply get_Some_keys with v|].
  rewrite G.
  destruct (String.eqb_spec key "limit"); [contradiction|].
  destruct (String.eqb_spec key "offset"); [contradiction|].
  destruct v as [s|z|]; [|reflexivity|reflexivity]. simpl.
  destruct (String.eqb_spec s ""); [subst; contradiction|reflexivity].
Qed.

Lemma hasActiveFilters_cases f :
  hasActiveFilters f = true ->
  truthy_str (FilterState.searchTerm f) = true \/
  truthy_str (FilterState.zoneFilter f) = true \/
  truthy_str (FilterState.stateFilter f) = true \/
  truthy_str (FilterState.cityFilter f) = true \/
  truthy_str (FilterState.storeFilter f) = true \/
  truthy_str (FilterState.formatFilter f) = true \/
  truthy_str (FilterState.brandFilter f) = true \/
  truthy_ostr (fst (FilterState.dateRangeFilter f)) = true \/
  truthy_ostr (snd (FilterState.dateRangeFilter f)) = true \/
  truthy_bound (fst (FilterState.quantityRangeFilter f)) = true \/
  truthy_bound (snd (FilterState.quantityRangeFilter f)) = true.
Proof.
  unfold hasActiveFilters. intros H.
  repeat (apply orb_prop in H; destruct H as [H|H]; [|tauto]). tauto.
Qed.

Lemma hasActiveFilters_intro f :
  truthy_str (FilterState.searchTerm f) = true \/
  truthy_str (FilterState.zoneFilter f) = true \/
  truthy_str (FilterState.stateFilter f) = true \/
  truthy_str (FilterState.cityFilter f) = true \/
  truthy_str (FilterState.storeFilter f) = true \/
  truthy_str (FilterState.formatFilter f) = true \/
  truthy_str (FilterState.brandFilter f) = true \/
  truthy_ostr (fst (FilterState.dateRangeFilter f)) = true \/
  truthy_ostr (snd (FilterState.dateRangeFilter f)) = true \/
  truthy_bound (fst (FilterState.quantityRangeFilter f)) = true \/
  truthy_bound (snd (FilterState.quantityRangeFilter f)) = true ->
  hasActiveFilters f = true.
Proof.
  unfold hasActiveFilters. intros H.
  repeat (destruct H as [H|H]; [rewrite H, ?orb_true_r; reflexivity|]).
  rewrite H, ?orb_true_r. reflexivity.
Qed.

(** X9.  The two tests for "a filter is set" agree but for a quantity bound
    that is 0 or [NaN]: [hasRealFilters], which gates the POST filter query,
    holds of [activeFilters] exactly when the table's [hasActiveFilters]
    holds or a quantity bound is set to 0 or to [NaN]. *)
Theorem real_filters_iff_active f :
  hasRealFilters (activeFilters f) = true <->
  hasActiveFilters f = true \/
  fst (FilterState.quantityRangeFilter f) = Some (Some 0) \/
  fst (FilterState.quantityRangeFilter f) = Some NaN \/
  snd (FilterState.quantityRangeFilter f) = Some (Some 0) \/
  snd (FilterState.quantityRangeFilter f) = Some NaN.
Proof.
  split.
  - unfold hasRealFilters. intros H. apply existsb_exists in H as (key & _ & H).
    apply andb_prop in H as [H Hv]. apply andb_prop in H as [Hl Ho].
    rewrite get_activeFilters in Hv.
    destruct (String.eqb_spec key "limit"); [discriminate|].
    destruct (String.eqb_spec key "offset"); [discriminate|].
    repeat match type of Hv with
    | context [String.eqb key ?a] => destruct (String.eqb_spec key a)
    end;
    try discriminate;
    try (left; apply hasActiveFilters_intro;
         match type of Hv with
         | context [truthy_str ?x] =>
             destruct (truthy_str x) eqn:E; [tauto|discriminate]
         | context [truthy_ostr ?x] =>
             destruct (truthy_ostr x) eqn:E; [tauto|discriminate]
         end).
    + destruct (fst (FilterState.quantityRangeFilter f)) as [[x|]|] eqn:E;
        [|tauto|discriminate].
      destruct (Z.eq_dec x 0) as [->|Hx]; [tauto|].
      left. apply hasActiveFilters_intro. rewrite E. simpl. unfold truthy_Z.
      destruct (Z.eqb_spec x 0); [contradiction|]. simpl. tauto.
    + destruct (snd (FilterState.quantityRangeFilter f)) as [[x|]|] eqn:E;
        [|tauto|discriminate].
      destruct (Z.eq_dec x 0) as [->|Hx]; [tauto|].
      left. apply hasActiveFilters_intro. rewrite E. simpl. unfold truthy_Z.
      destruct (Z.eqb_spec x 0); [contradiction|]. simpl. tauto.
  - assert (Hstr : forall key x,
              key <> "limit" -> key <> "offset" ->
              Obj.get (activeFilters f) key
              = (if truthy_str x then Some (VStr x) else None) ->
              truthy_str x = true -> hasRealFilters (activeFilters f) = true).
    { intros key x Hl Ho G T. rewrite T in G.
      apply hasRealFilters_intro with key; auto.
      exists (VStr x). split; [assumption|].
      intros [= ->]. discriminate T. }
    assert (Hnum : forall key x,
              key <> "limit" -> key <> "offset" ->
              Obj.get (activeFilters f) key = Some (num_val x) ->
              hasRealFilters (activeFilters f) = true).
    { intros key x Hl Ho G. apply hasRealFilters_intro with key; auto.
      exists (num_val x). split; [assumption|destruct x; discriminate]. }
    assert (Hmin : forall x,
              fst (FilterState.quantityRangeFilter f) = Some x ->
              hasRealFilters (activeFilters f) = true).
    { intros x E. apply (Hnum "min_predicted_qty" x); try discriminate.
      rewrite get_activeFilters, E. reflexivity. }
    assert (Hmax : forall x,
              snd (FilterState.quantityRangeFilter f) = Some x ->
              hasRealFilters (activeFilters f) = true).
    { intros x E. apply (Hnum "max_predicted_qty" x); try discriminate.
      rewrite get_activeFilters, E. reflexivity. }
    intros [H|[H|[H|[H|H]]]]; eauto.
    apply hasActiveFilters_cases in H.
    destruct H as [H|[H|[H|[H|[H|[H|[H|[H|[H|[H|H]]]]]]]]]].
    + apply (Hstr "search_term" _ ltac:(discriminate) ltac:(discriminate)
               (get_activeFilters f "search_term") H).
    + apply (Hstr "zone" _ ltac:(discriminate) ltac:(discriminate)
               (get_activeFilters f "zone") H).
    + apply (Hstr "state" _ ltac:(discriminate) ltac:(discriminate)
               (get_activeFilters f "state") H).
    + apply (Hstr "city" _ ltac:(discriminate) ltac:(discriminate)
               (get_activeFilters f "city") H).
    + apply (Hstr "site_id" _ ltac:(discriminate) ltac:(discriminate)
               (get_activeFilters f "site_id") H).
    + apply (Hstr "format" _ ltac:(discriminate) ltac:(discriminate)
               (get_activeFilters f "format") H).
    + apply (Hstr "brand" _ ltac:(discriminate) ltac:(discriminate)
               (get_activeFilters f "brand") H).
    + destruct (fst (FilterState.dateRangeFilter f)) as [x|] eqn:E;
        [|discriminate].
      apply (Hstr "start_date" x); try discriminate; auto.
      rewrite get_activeFilters, E. simpl. simpl in H. rewrite H. reflexivity.
    + destruct (snd (FilterState.dateRangeFilter f)) as [x|] eqn:E;
        [|discriminate].
      apply (Hstr "end_date" x); try discriminate; auto.
      rewrite get_activeFilters, E. simpl. simpl in H. rewrite H. reflexivity.
    + destruct (fst (FilterState.quantityRangeFilter f)) as [x|] eqn:E;
        [eauto|discriminate].
    + destruct (snd (FilterState.quantityRangeFilter f)) as [x|] eqn:E;
        [eauto|discriminate].
Qed.

(** X10.  "Clear All" leaves no filter active: afterwards
    [hasActiveFilters] is false and the request holds the page size and
    offset 0 and nothing else; the page size is kept. *)
Theorem clear_all_clears f :
  hasActiveFilters (clearAllFilters f) = false /\
  activeFilters (clearAllFilters f)
  = [("limit", VNum (FilterState.limit f)); ("offset", VNum 0)] /\
  forecastParams (activeFilters (clearAllFilters f))
  = ((if FilterState.limit f =? 0 then []
      else [("limit", VNum (FilterState.limit f))]) ++ [("offset", VNum 0)])%list.
Proof.
  destruct f as [d l p z s c st fo b se r q].
  assert (E : activeFilters
                (clearAllFilters
                   (FilterState.Build_t d l p z s c st fo b se r q))
              = [("limit", VNum l); ("offset", VNum 0)]) by reflexivity.
  split; [reflexivity|split; [exact E|]].
  rewrite E. unfold forecastParams, copy_if_truthy, copy_if_defined.
  cbn [Obj.get String.eqb Ascii.eqb Bool.eqb FilterState.limit].
  unfold set_if, truthy, truthy_Z.
  destruct (l =? 0); reflexivity.
Qed.

Lemma rendered_invariant_act f a :
  rendered_invariant f -> rendered_invariant (act f a).
Proof.
  destruct f as [d l p z s c st fo b se r q].
  unfold rendered_invariant.
  cbn [FilterState.zoneFilter FilterState.stateFilter FilterState.cityFilter
       FilterState.formatFilter FilterState.dateRangeFilter
       FilterState.quantityRangeFilter FilterState.dateRange].
  intros (-> & -> & -> & -> & -> & -> & ->).
  destruct a as [v|v|v| |chip|np|ns]; cbn.
  - repeat split; auto.
  - repeat split; auto.
  - repeat split; auto.
  - destruct (hasActiveFilters _); cbn; repeat split; auto.
  - destruct chip; cbn;
      repeat match goal with
      | |- context [if ?x then _ else _] => destruct x; cbn
      end; repeat split; auto.
  - repeat split; auto.
  - repeat split; auto.
Qed.

Lemma rendered_invariant_reachable actions :
  rendered_invariant (afterActions actions).
Proof.
  unfold afterActions.
  induction actions as [|a actions IH] using rev_ind.
  - unfold rendered_invariant, initialFilters. cbn.
    repeat split; auto.
  - rewrite fold_left_app. apply rendered_invariant_act. exact IH.
Qed.

(** X11.  Whatever the user does with the controls the table renders --
    the search box, the store and brand dropdowns, "Clear All", the chips
    and the pagination, with any page number and page size -- the zone,
    state, city and format filters and the date and quantity ranges stay
    unset; so the request holds at most [limit], [offset], [search_term],
    [site_id] and [brand]. *)
Theorem only_three_filters_reachable actions :
  rendered_invariant (afterActions actions) /\
  (forall k v,
     Obj.get (activeFilters (afterActions actions)) k = Some v ->
     In k ["limit"; "offset"; "search_term"; "site_id"; "brand"]).
Proof.
  pose proof (rendered_invariant_reachable actions) as Hinv.
  split; [exact Hinv|].
  destruct Hinv as (Hz & Hs & Hc & Hf & Hd & Hq & _).
  intros k v. rewrite get_activeFilters, Hz, Hs, Hc, Hf, Hd, Hq.
  cbn [fst snd truthy_str truthy_ostr option_map String.eqb negb].
  repeat match goal with
  | |- context [String.eqb k ?a] =>
      destruct (String.eqb_spec k a) as [->|?];
      [cbn [In]; first [discriminate|intros; tauto]|]
  end.
  discriminate.
Qed.

(** X12.  Picking a store changes the request in two places only: [site_id]
    becomes the store picked (or goes, for the empty choice) and [offset]
    goes back to 0.  Typing in the search box leaves [offset] where it
    was. *)
Theorem store_change_restarts f value :
  (forall k,
     Obj.get (activeFilters (onStoreChange value f)) k =
     if (k =? "site_id")%string
     then (if truthy_str value then Some (VStr value) else None)
     else if (k =? "offset")%string then Some (VNum 0)
     else Obj.get (activeFilters f) k) /\
  Obj.get (activeFilters (onSearchChange value f)) "offset" =
  Obj.get (activeFilters f) "offset".
Proof.
  split.
  - intros k. rewrite !get_activeFilters.
    destruct f as [d l p z s c st fo b se r q]. cbn.
    repeat match goal with
    | |- context [String.eqb k ?a] =>
        destruct (String.eqb_spec k a) as [->|?]; [try discriminate; reflexivity|]
    end.
    reflexivity.
  - rewrite !get_activeFilters. reflexivity.
Qed.

Lemma str_or_empty_id s : str_or_empty s = s.
Proof.
  unfold str_or_empty, truthy_str.
  destruct (String.eqb_spec s ""); simpl; congruence.
Qed.

Lemma find_app_fresh {A : Type} (p : A -> bool) (l : list A) x :
  (forall y, In y l -> p y = false) -> p x = true ->
  find p (l ++ [x]) = Some x.
Proof.
  intros Hl Hx. induction l as [|y l IH]; simpl.
  - now rewrite Hx.
  - rewrite (Hl y) by (now left). apply IH. intros z Hz. apply Hl. now right.
Qed.

Lemma find_app_taken {A : Type} (p : A -> bool) (l l' : list A) y :
  find p l = Some y -> find p (l ++ l') = Some y.
Proof.
  induction l as [|x l IH]; simpl; [discriminate|].
  destruct (p x); auto.
Qed.

(** X13.  Presets: a preset saved under a name no saved preset has is what
    loading that name puts back later -- the nine filters and the search
    fields as they were when it was saved, with the page at 1 and the page
    size untouched.  A preset saved under a name already taken is never
    loaded: loading the name gives the older preset. *)
Theorem preset_round_trip st st' name :
  truthy_str name = true ->
  savedFilters st' = savedFilters (savePreset (Some name) st) ->
  ((forall p, In p (savedFilters st) -> fst p <> name) ->
   currentFilters (loadPreset name st') = currentFilters st /\
   FilterState.page (filters (loadPreset name st')) = 1 /\
   FilterState.limit (filters (loadPreset name st'))
   = FilterState.limit (filters st')) /\
  (forall old,
     find (fun p => (fst p =? name)%string) (savedFilters st) = Some old ->
     currentFilters (loadPreset name st')
     = currentFilters (loadPreset name
                         {| filters := filters st';
                            searchFields := searchFields st';
                            savedFilters := savedFilters st |})).
Proof.
  intros Hname Hsaved.
  unfold savePreset in Hsaved. rewrite Hname in Hsaved. cbn in Hsaved.
  split.
  - intros Hfresh.
    assert (F : find (fun p => (fst p =? name)%string) (savedFilters st')
                = Some (name, currentFilters st)).
    { rewrite Hsaved. apply find_app_fresh.
      - intros p Hp. apply String.eqb_neq. now apply Hfresh.
      - apply String.eqb_refl. }
    unfold loadPreset. rewrite Hname, F.
    destruct st as [f sf sv]. destruct f as [d l p z s c sto fo b se r q].
    destruct st' as [f' sf' sv']. destruct f' as [d' l' p' z' s' c' sto' fo' b' se' r' q'].
    cbn. rewrite !str_or_empty_id. repeat split; reflexivity.
  - intros old Hold.
    unfold loadPreset. rewrite Hname. cbn [savedFilters].
    rewrite Hsaved, (find_app_taken _ _ _ _ Hold), Hold.
    destruct old as [n0 preset]. reflexivity.
Qed.


(* ================================================================== *)
(** * The URL of the simple filter endpoint *)
(* ================================================================== *)

Lemma append_assoc_str (a b c : string) :
  ((a ++ b) ++ c = a ++ (b ++ c))%string.
Proof. induction a as [|x a IH]; simpl; [reflexivity|now rewrite IH]. Qed.

Lemma length_append_str (a b : string) :
  String.length (a ++ b) = (String.length a + String.length b)%nat.
Proof. induction a as [|x a IH]; simpl; [reflexivity|now rewrite IH]. Qed.

Lemma append_cancel_r (a b q : string) :
  (a ++ q = b ++ q)%string -> a = b.
Proof.
  revert b. induction a as [|x a IH]; intros [|y b] H; simpl in H.
  - reflexivity.
  - apply (f_equal String.length) in H. simpl in H.
    rewrite length_append_str in H. lia.
  - apply (f_equal String.length) in H. simpl in H.
    rewrite length_append_str in H. lia.
  - injection H as -> H. f_equal. now apply IH.
Qed.

Lemma unitChar_code u : 0 <= u < 256 -> Z.of_N (N_of_ascii (unitChar u)) = u.
Proof.
  intros H. unfold unitChar. rewrite N_ascii_embedding by lia. lia.
Qed.

Lemma hexValue_hexDigit d : 0 <= d < 16 -> hexValue (hexDigit d) = Some d.
Proof.
  intros H.
  assert (C : d = 0 \/ d = 1 \/ d = 2 \/ d = 3 \/ d = 4 \/ d = 5 \/ d = 6
              \/ d = 7 \/ d = 8 \/ d = 9 \/ d = 10 \/ d = 11 \/ d = 12
              \/ d = 13 \/ d = 14 \/ d = 15) by lia.
  repeat (destruct C as [->|C]; [reflexivity|]). subst d. reflexivity.
Qed.

Lemma hexDigit_safe d : 0 <= d < 16 -> segmentSafe (hexDigit d) = true.
Proof.
  intros H.
  assert (C : d = 0 \/ d = 1 \/ d = 2 \/ d = 3 \/ d = 4 \/ d = 5 \/ d = 6
              \/ d = 7 \/ d = 8 \/ d = 9 \/ d = 10 \/ d = 11 \/ d = 12
              \/ d = 13 \/ d = 14 \/ d = 15) by lia.
  repeat (destruct C as [->|C]; [reflexivity|]). subst d. reflexivity.
Qed.

Lemma readByte_pctByte b rest :
  0 <= b < 256 -> readByte (pctByte b rest) = Some (b, rest).
Proof.
  intros H. unfold readByte, pctByte.
  change (Ascii.eqb "%" "%") with true. cbv iota.
  rewrite !hexValue_hexDigit by (Z.div_mod_to_equations; lia).
  f_equal. f_equal. Z.div_mod_to_equations. lia.
Qed.

Lemma uriUnreserved_range u : uriUnreserved u = true -> 33 <= u <= 126 /\ u <> 37.
Proof.
  unfold uriUnreserved. cbn [existsb]. intros H.
  repeat match type of H with
  | (_ || _)%bool = true => apply orb_prop in H; destruct H as [H|H]
  | (_ && _)%bool = true => apply andb_prop in H; destruct H as [? H]
  end;
  repeat match goal with
  | H : (_ <=? _) = true |- _ => apply Z.leb_le in H
  | H : (_ =? _) = true |- _ => apply Z.eqb_eq in H
  end; try lia; try discriminate.
Qed.

Lemma decodeHead_pct b rest :
  0 <= b < 256 ->
  decodeHead (pctByte b rest) =
  match readByte (pctByte b rest) with
  | Some (b1, r1) =>
      if b1 <? 128 then Some ([b1], r1)
      else
        match readByte r1 with
        | Some (b2, r2) =>
            if b1 <? 224
            then Some ([(b1 - 192) * 64 + (b2 - 128)], r2)
            else
              match readByte r2 with
              | Some (b3, r3) =>
                  if b1 <? 240
                  then Some ([(b1 - 224) * 4096 + (b2 - 128) * 64
                              + (b3 - 128)], r3)
                  else
                    match readByte r3 with
                    | Some (b4, r4) =>
                        Some (unitsOf ((b1 - 240) * 262144
                                       + (b2 - 128) * 4096
                                       + (b3 - 128) * 64 + (b4 - 128)),
                              r4)
                    | None => None
                    end
              | None => None
              end
        | None => None
        end
  | None => None
  end.
Proof. intros _. reflexivity. Qed.

(** The octets of a code point are read back as its code units. *)
Lemma decodeHead_octets cp rest :
  0 <= cp < 1114112 ->
  decodeHead (pctOctets (utf8 cp) rest) = Some (unitsOf cp, rest).
Proof.
  intros H. unfold utf8.
  destruct (Z.ltb_spec cp 128); [|destruct (Z.ltb_spec cp 2048);
    [|destruct (Z.ltb_spec cp 65536)]];
    cbn [pctOctets fold_right]; rewrite decodeHead_pct by (Z.div_mod_to_equations; lia);
    rewrite !readByte_pctByte by (Z.div_mod_to_equations; lia).
  - destruct (Z.ltb_spec cp 128); [|lia]. unfold unitsOf.
    destruct (Z.ltb_spec cp 65536); [reflexivity|lia].
  - destruct (Z.ltb_spec (192 + cp / 64) 128);
      [exfalso; Z.div_mod_to_equations; lia|].
    destruct (Z.ltb_spec (192 + cp / 64) 224);
      [|exfalso; Z.div_mod_to_equations; lia].
    unfold unitsOf. destruct (Z.ltb_spec cp 65536); [|lia].
    f_equal. f_equal. f_equal. Z.div_mod_to_equations. lia.
  - destruct (Z.ltb_spec (224 + cp / 4096) 128);
      [exfalso; Z.div_mod_to_equations; lia|].
    destruct (Z.ltb_spec (224 + cp / 4096) 224);
      [exfalso; Z.div_mod_to_equations; lia|].
    destruct (Z.ltb_spec (224 + cp / 4096) 240);
      [|exfalso; Z.div_mod_to_equations; lia].
    unfold unitsOf. destruct (Z.ltb_spec cp 65536); [|lia].
    f_equal. f_equal. f_equal. Z.div_mod_to_equations. lia.
  - destruct (Z.ltb_spec (240 + cp / 262144) 128);
      [exfalso; Z.div_mod_to_equations; lia|].
    destruct (Z.ltb_spec (240 + cp / 262144) 224);
      [exfalso; Z.div_mod_to_equations; lia|].
    destruct (Z.ltb_spec (240 + cp / 262144) 240);
      [exfalso; Z.div_mod_to_equations; lia|].
    f_equal. f_equal. f_equal. Z.div_mod_to_equations. lia.
Qed.

Lemma code_units_inv u s :
  code_units (u :: s) -> 0 <= u < 65536 /\ code_units s.
Proof. intros H. inversion H. auto. Qed.

Lemma surrogate_facts u :
  (isLeadSurrogate u = true -> 55296 <= u <= 56319) /\
  (isTrailSurrogate u = true -> 56320 <= u <= 57343) /\
  (isLeadSurrogate u = false -> u < 55296 \/ 56319 < u) /\
  (isTrailSurrogate u = false -> u < 56320 \/ 57343 < u).
Proof.
  unfold isLeadSurrogate, isTrailSurrogate.
  destruct (Z.leb_spec 55296 u), (Z.leb_spec u 56319),
    (Z.leb_spec 56320 u), (Z.leb_spec u 57343); cbn;
    repeat split; intros; try discriminate; lia.
Qed.

(** The first item of an encoded string is read back, and what follows it
    is the encoding of the rest. *)
Lemma encode_head u rest e :
  code_units (u :: rest) ->
  encodeURIComponent (u :: rest) = Some e ->
  exists consumed rest' e',
    u :: rest = (consumed ++ rest')%list /\
    (List.length rest' < List.length (u :: rest))%nat /\
    encodeURIComponent rest' = Some e' /\
    decodeHead e = Some (consumed, e').
Proof.
  intros Hcu. apply code_units_inv in Hcu as [Hu Hrest].
  cbn [encodeURIComponent].
  destruct (surrogate_facts u) as (L1 & T1 & L0 & T0).
  destruct (uriUnreserved u) eqn:U.
  - destruct (encodeURIComponent rest) as [e'|] eqn:E; [|discriminate].
    intros [= <-]. exists [u], rest, e'.
    split; [reflexivity|split; [cbn; lia|split; [exact E|]]].
    apply uriUnreserved_range in U.
    cbn [decodeHead].
    destruct (Ascii.eqb_spec (unitChar u) "%") as [C|_].
    + exfalso. apply (f_equal (fun c => Z.of_N (N_of_ascii c))) in C.
      rewrite unitChar_code in C by lia. cbn in C. lia.
    + rewrite unitChar_code by lia. reflexivity.
  - destruct (isLeadSurrogate u) eqn:L.
    + destruct rest as [|l rest']; [discriminate|].
      apply code_units_inv in Hrest as [Hl Hrest'].
      destruct (surrogate_facts l) as (_ & T1l & _ & _).
      destruct (isTrailSurrogate l) eqn:T; [|discriminate].
      destruct (encodeURIComponent rest') as [e'|] eqn:E; [|discriminate].
      intros [= <-]. exists [u; l], rest', e'.
      split; [reflexivity|split; [cbn; lia|split; [exact E|]]].
      specialize (L1 eq_refl). specialize (T1l eq_refl).
      rewrite decodeHead_octets by (unfold surrogatePair; lia).
      f_equal. f_equal. unfold unitsOf, surrogatePair.
      destruct (Z.ltb_spec ((u - 55296) * 1024 + (l - 56320) + 65536) 65536);
        [lia|].
      f_equal; [|f_equal]; Z.div_mod_to_equations; lia.
    + destruct (isTrailSurrogate u) eqn:T; [discriminate|].
      destruct (encodeURIComponent rest) as [e'|] eqn:E; [|discriminate].
      intros [= <-]. exists [u], rest, e'.
      split; [reflexivity|split; [cbn; lia|split; [exact E|]]].
      rewrite decodeHead_octets by lia.
      unfold unitsOf. destruct (Z.ltb_spec u 65536); [reflexivity|lia].
Qed.

Lemma encodeURIComponent_inj_len n : forall a b e,
  (List.length a <= n)%nat -> code_units a -> code_units b ->
  encodeURIComponent a = Some e -> encodeURIComponent b = Some e -> a = b.
Proof.
  induction n as [|n IH]; intros a b e Hn Ha Hb Ea Eb.
  - destruct a; [|cbn in Hn; lia].
    injection Ea as <-.
    destruct b as [|v b]; [reflexivity|].
    destruct (encode_head v b _ Hb Eb) as (c & r & e' & _ & _ & _ & D).
    discriminate D.
  - destruct a as [|u a].
    + injection Ea as <-.
      destruct b as [|v b]; [reflexivity|].
      destruct (encode_head v b _ Hb Eb) as (c & r & e' & _ & _ & _ & D).
      discriminate D.
    + destruct (encode_head u a _ Ha Ea) as (c & r & e' & Hs & Hlen & Er & D).
      destruct b as [|v b]; [injection Eb as <-; discriminate D|].
      destruct (encode_head v b _ Hb Eb) as (c' & r' & e'' & Hs' & _ & Er' & D').
      rewrite D in D'. injection D' as <- <-.
      rewrite Hs, Hs'. f_equal.
      apply (IH r r' e'); auto.
      * cbn in Hn, Hlen. lia.
      * rewrite Hs in Ha. unfold code_units in *.
        apply Forall_app in Ha. tauto.
      * rewrite Hs' in Hb. unfold code_units in *.
        apply Forall_app in Hb. tauto.
Qed.

Lemma encodeURIComponent_inj a b e :
  code_units a -> code_units b ->
  encodeURIComponent a = Some e -> encodeURIComponent b = Some e -> a = b.
Proof. apply (encodeURIComponent_inj_len (List.length a)). lia. Qed.

(** [encodeURIComponent] throws exactly on a lone surrogate. *)
Lemma encodeURIComponent_defined_len n : forall s,
  (List.length s <= n)%nat ->
  (encodeURIComponent s = None <-> isWellFormed s = false).
Proof.
  induction n as [|n IH]; intros s Hn.
  - destruct s; [|cbn in Hn; lia]. cbn. split; discriminate.
  - destruct s as [|u rest]; [cbn; split; discriminate|].
    cbn [encodeURIComponent isWellFormed].
    destruct (surrogate_facts u) as (L1 & T1 & _ & _).
    destruct (uriUnreserved u) eqn:U.
    + apply uriUnreserved_range in U.
      destruct (isLeadSurrogate u); [specialize (L1 eq_refl); lia|].
      destruct (isTrailSurrogate u); [specialize (T1 eq_refl); lia|].
      cbn [negb andb].
      rewrite <- (IH rest) by (cbn in Hn; lia).
      destruct (encodeURIComponent rest); cbn; split; congruence.
    + destruct (isLeadSurrogate u).
      * destruct rest as [|l rest']; [tauto|].
        destruct (isTrailSurrogate l); [|tauto]. cbn [andb].
        rewrite <- (IH rest') by (cbn in Hn; lia).
        destruct (encodeURIComponent rest'); cbn; split; congruence.
      * destruct (isTrailSurrogate u); [tauto|]. cbn [negb andb].
        rewrite <- (IH rest) by (cbn in Hn; lia).
        destruct (encodeURIComponent rest); cbn; split; congruence.
Qed.

Lemma encodeURIComponent_defined s :
  encodeURIComponent s = None <-> isWellFormed s = false.
Proof. apply (encodeURIComponent_defined_len (List.length s)). lia. Qed.

Lemma pctByte_safe b rest :
  0 <= b < 256 ->
  all_chars segmentSafe (pctByte b rest) = all_chars segmentSafe rest.
Proof.
  intros H. unfold pctByte. cbn [all_chars].
  rewrite !hexDigit_safe by (Z.div_mod_to_equations; lia). reflexivity.
Qed.

Lemma pctOctets_safe cp rest :
  0 <= cp < 1114112 ->
  all_chars segmentSafe (pctOctets (utf8 cp) rest)
  = all_chars segmentSafe rest.
Proof.
  intros H. unfold utf8.
  destruct (Z.ltb_spec cp 128); [|destruct (Z.ltb_spec cp 2048);
    [|destruct (Z.ltb_spec cp 65536)]];
    cbn [pctOctets fold_right];
    rewrite !pctByte_safe by (Z.div_mod_to_equations; lia); reflexivity.
Qed.

Lemma encodeURIComponent_safe_len n : forall s e,
  (List.length s <= n)%nat -> code_units s ->
  encodeURIComponent s = Some e -> all_chars segmentSafe e = true.
Proof.
  induction n as [|n IH]; intros s e Hn Hcu.
  - destruct s; [|cbn in Hn; lia]. intros [= <-]. reflexivity.
  - destruct s as [|u rest]; [intros [= <-]; reflexivity|].
    apply code_units_inv in Hcu as [Hu Hrest].
    cbn [encodeURIComponent].
    destruct (surrogate_facts u) as (L1 & _ & _ & _).
    destruct (uriUnreserved u) eqn:U.
    + destruct (encodeURIComponent rest) as [e'|] eqn:E; [|discriminate].
      intros [= <-]. cbn [all_chars].
      rewrite (IH rest e') by (auto; cbn in Hn; lia).
      unfold segmentSafe. pose proof (uriUnreserved_range u U).
      rewrite unitChar_code by lia. now rewrite U.
    + destruct (isLeadSurrogate u).
      * destruct rest as [|l rest']; [discriminate|].
        apply code_units_inv in Hrest as [Hl Hrest'].
        destruct (surrogate_facts l) as (_ & T1l & _ & _).
        destruct (isTrailSurrogate l); [|discriminate].
        destruct (encodeURIComponent rest') as [e'|] eqn:E; [|discriminate].
        intros [= <-]. specialize (L1 eq_refl). specialize (T1l eq_refl).
        rewrite pctOctets_safe by (unfold surrogatePair; lia).
        apply (IH rest'); auto. cbn in Hn. lia.
      * destruct (isTrailSurrogate u); [discriminate|].
        destruct (encodeURIComponent rest) as [e'|] eqn:E; [|discriminate].
        intros [= <-]. rewrite pctOctets_safe by lia.
        apply (IH rest); auto. cbn in Hn. lia.
Qed.

Lemma encodeURIComponent_safe s e :
  code_units s -> encodeURIComponent s = Some e ->
  all_chars segmentSafe e = true.
Proof. apply (encodeURIComponent_safe_len (List.length s)). lia. Qed.

(** X15.  Different filter values never give the same URL: for a filter
    type and paging options, [getSimpleFilteredForecastData] hands
    [apiClient.get] the same URL for two values only when the values are
    the same string. *)
Theorem simple_filter_url_determines_value filterType options value value' url :
  code_units value -> code_units value' ->
  simpleFilterUrl filterType value options = Some url ->
  simpleFilterUrl filterType value' options = Some url ->
  value = value'.
Proof.
  intros Hv Hv'. unfold simpleFilterUrl. cbv zeta.
  destruct (encodeURIComponent value) as [e|] eqn:E; [|discriminate].
  destruct (encodeURIComponent value') as [e'|] eqn:E'; [|discriminate].
  cbn [option_map]. intros <- H.
  apply (f_equal (fun o => match o with Some x => x | None => "" end)) in H.
  cbv beta iota in H.
  apply append_cancel_l in H. apply append_cancel_l in H.
  apply append_cancel_l in H. apply append_cancel_r in H. subst e'.
  exact (encodeURIComponent_inj value value' e Hv Hv' E E').
Qed.

Lemma all_chars_In p s c :
  all_chars p s = true -> In c (list_ascii_of_string s) -> p c = true.
Proof.
  induction s as [|x s IH]; simpl; [intros _ []|].
  intros H [<-|Hin]; apply andb_prop in H as [Hx Hs]; auto.
Qed.

(** X16.  The encoded value stays inside its path segment, and a value that
    cannot be encoded is not requested: for a value with a lone surrogate
    [getSimpleFilteredForecastData] makes no request; for any other value
    the URL is the path of the template, the encoded value and the query
    string, and every character of the encoded value is unreserved or part
    of a [%XX] escape, so none is [/], [?], [#], [&], [=], [+] or a
    space. *)
Theorem encoded_value_stays_in_segment filterType options value :
  code_units value ->
  (isWellFormed value = false ->
   simpleFilterUrl filterType value options = None) /\
  (isWellFormed value = true ->
   exists encoded queryString,
     simpleFilterUrl filterType value options
     = Some ("/forecast/chunked-filter/" ++ filterType_name filterType ++ "/"
             ++ encoded ++ queryString) /\
     (queryString = "" \/ exists q, queryString = "?" ++ q) /\
     forall c, In c (list_ascii_of_string encoded) ->
       segmentSafe c = true /\
       ~ In c (list_ascii_of_string "/?#&=+ ")).
Proof.
  intros Hv. unfold simpleFilterUrl. cbv zeta. split.
  - intros Hwf. apply encodeURIComponent_defined in Hwf. now rewrite Hwf.
  - intros Hwf.
    destruct (encodeURIComponent value) as [e|] eqn:E.
    + eexists e, _. split; [reflexivity|]. split.
      * match goal with
        | |- (if ?b then _ else _) = _ \/ _ => destruct b
        end; [right; eexists; reflexivity|left; reflexivity].
      * intros c Hin.
        pose proof (all_chars_In _ _ _ (encodeURIComponent_safe _ _ Hv E) Hin)
          as Hsafe.
        split; [exact Hsafe|].
        intros Hbad. cbn [list_ascii_of_string In] in Hbad.
        repeat (destruct Hbad as [<-|Hbad]; [discriminate Hsafe|]).
        exact Hbad.
    + apply encodeURIComponent_defined in E. congruence.
Qed.

(* ================================================================== *)
(** * Retrying by count *)
(* ================================================================== *)

(** A query that retries up to a count: with [m] retries left after [c]
    failures it makes [k + 1 <= m + 1] requests -- the first [k] failed, and
    the last one succeeded unless the retries ran out. *)
Lemma retryer_by_count {A : Type} (fn : Z -> A + Error) ms (m : nat) :
  forall (c : Z) (fuel : nat),
    (m + 1 <= fuel)%nat ->
    exists k,
      (k <= m)%nat /\
      retryer fuel fn (RetryCount (c + Z.of_nat m)) (DelayMs ms) c
      = Some (retried k ms, fn (c + Z.of_nat k)) /\
      (forall i, (i < k)%nat -> exists e, fn (c + Z.of_nat i) = inr e) /\
      ((k < m)%nat -> exists a, fn (c + Z.of_nat k) = inl a).
Proof.
  induction m as [|m IH]; intros c fuel Hfuel;
    (destruct fuel as [|fuel]; [lia|]); cbn [retryer].
  - exists 0%nat. replace (c + Z.of_nat 0) with c by lia.
    split; [lia|]. split.
    + destruct (fn c) as [a|e]; [reflexivity|].
      rewrite Z.ltb_irrefl. reflexivity.
    + split; [intros i Hi; lia|intros Hk; lia].
  - destruct (fn c) as [a|e] eqn:E.
    + exists 0%nat. replace (c + Z.of_nat 0) with c by lia.
      split; [lia|]. split; [now rewrite E|].
      split; [intros i Hi; lia|intros _; eauto].
    + replace (c <? c + Z.of_nat (S m)) with true
        by (symmetry; apply Z.ltb_lt; lia).
      cbn [negb].
      destruct (IH (c + 1) fuel ltac:(lia)) as (k & Hk & Hrun & Hfail & Hok).
      replace (c + 1 + Z.of_nat m) with (c + Z.of_nat (S m)) in Hrun by lia.
      rewrite Hrun. exists (S k).
      replace (c + Z.of_nat (S k)) with (c + 1 + Z.of_nat k) by lia.
      split; [lia|]. split; [reflexivity|]. split.
      * intros [|i] Hi.
        -- replace (c + Z.of_nat 0) with c by lia. eauto.
        -- replace (c + Z.of_nat (S i)) with (c + 1 + Z.of_nat i) by lia.
           apply Hfail. lia.
      * intros Hlt. apply Hok. lia.
Qed.

Lemma fetches_retried k ms : fetches (retried k ms) = S k.
Proof.
  induction k as [|k IH]; [reflexivity|].
  change (fetches (retried (S k) ms)) with (S (fetches (retried k ms))).
  now rewrite IH.
Qed.

Lemma waits_retried k ms : waits (retried k ms) = repeat ms k.
Proof.
  induction k as [|k IH]; [reflexivity|].
  change (waits (retried (S k) ms)) with (ms :: waits (retried k ms)).
  now rewrite IH.
Qed.

(** X17.  The health check is tried at most three times, 1000 ms apart: it
    stops at the first request that succeeds, and gives up, with the error
    of the third request, when all three fail -- whatever the failures
    are. *)
Theorem health_check_tried_three_times fuel enabled transport :
  (3 <= fuel)%nat ->
  exists k,
    (k <= 2)%nat /\
    runHealthCheck fuel queryClient_defaults (useHealthCheck_options enabled)
      transport
    = Some (retried k 1000, checkHealth (transport (Z.of_nat k))) /\
    fetches (retried k 1000) = S k /\
    waits (retried k 1000) = repeat 1000 k /\
    (forall i, (i < k)%nat ->
       exists e, checkHealth (transport (Z.of_nat i)) = inr e) /\
    ((k < 2)%nat -> exists a, checkHealth (transport (Z.of_nat k)) = inl a).
Proof.
  intros Hfuel. unfold runHealthCheck.
  cbn [retry retryDelay useHealthCheck_options].
  destruct (retryer_by_count (fun i => checkHealth (transport i)) 1000 2 0
              fuel ltac:(lia)) as (k & Hk & Hrun & Hfail & Hok).
  exists k. split; [exact Hk|]. split; [exact Hrun|].
  split; [apply fetches_retried|]. split; [apply waits_retried|].
  split; [exact Hfail|exact Hok].
Qed.

(* ================================================================== *)
(** * Week numbers *)
(* ================================================================== *)

Section WeekArithmetic.

Import JsDate.

Lemma Qceiling_fraction (a : Z) (d : positive) :
  Qceiling (Qmake a d) = - ((- a) / Zpos d).
Proof. reflexivity. Qed.

(** The rational the source rounds up, as a quotient of integers. *)
Lemma week_quotient (p wd : Z) :
  Qceiling ((Qmake p 86400000 + inject_Z wd + 1) / 7)
  = - ((- (p + (wd + 1) * 86400000)) / 604800000).
Proof.
  rewrite <- (Qceiling_fraction (p + (wd + 1) * 86400000) 604800000).
  apply Qceiling_comp.
  unfold Qeq, Qdiv, Qmult, Qplus, Qinv, inject_Z. simpl. lia.
Qed.

(** [getWeekNumber] of a valid date, in integers: with [D] the day number
    of 1 January of the date's local year, the local milliseconds since that
    midnight, plus the weekday of 1 January and one more day, divided by a
    week and rounded up. *)
Lemma getWeekNumber_formula localTZA t :
  ~ (0 <= YearFromTime (LocalTime localTZA t) <= 99) ->
  Z.abs (DayFromYear (YearFromTime (LocalTime localTZA t)) * msPerDay - localTZA)
  <= maxTime ->
  getWeekNumber localTZA (Some t) =
  Some (- ((- (LocalTime localTZA t
               - DayFromYear (YearFromTime (LocalTime localTZA t)) * msPerDay
               + ((DayFromYear (YearFromTime (LocalTime localTZA t)) + 4) mod 7 + 1)
                 * msPerDay))
           / (7 * msPerDay))).
Proof.
  intros Hy Hs.
  set (y := YearFromTime (LocalTime localTZA t)) in *.
  unfold getWeekNumber, getFullYear, getTime. cbn [option_map]. cbv zeta.
  fold y. unfold newDate_y0d.
  replace ((0 <=? y) && (y <=? 99))%bool with false
    by (symmetry; apply andb_false_iff;
        destruct (Z_lt_le_dec y 0); [left; apply Z.leb_gt; lia|
        right; apply Z.leb_gt; lia]).
  unfold timeClip, UTC.
  replace (DayFromYear y + 1 - 1) with (DayFromYear y) by lia.
  replace (Z.abs (DayFromYear y * msPerDay - localTZA) <=? maxTime) with true
    by (symmetry; now apply Z.leb_le).
  unfold getDay. cbn [option_map].
  unfold WeekDay, Day, LocalTime.
  replace (DayFromYear y * msPerDay - localTZA + localTZA)
    with (DayFromYear y * msPerDay) by lia.
  rewrite Z.div_mul by (unfold msPerDay; lia).
  f_equal. unfold msPerDay. rewrite week_quotient. f_equal. f_equal. lia.
Qed.

(** Where a time since the epoch sits in its local year. *)
Lemma local_year_facts localTZA t :
  0 <= t <= maxTime -> Z.abs localTZA <= msPerDay ->
  1969 <= YearFromTime (LocalTime localTZA t) /\
  DayFromYear (YearFromTime (LocalTime localTZA t)) * msPerDay
  <= LocalTime localTZA t
  < (DayFromYear (YearFromTime (LocalTime localTZA t)) + 366) * msPerDay /\
  Z.abs (DayFromYear (YearFromTime (LocalTime localTZA t)) * msPerDay - localTZA)
  <= maxTime.
Proof.
  intros Ht Htz.
  set (L := LocalTime localTZA t).
  set (y := YearFromTime L).
  assert (HL : L = t + localTZA) by reflexivity.
  assert (Hd : -1 <= Day L /\ Day L * msPerDay <= L < (Day L + 1) * msPerDay).
  { unfold Day, msPerDay in *. Z.div_mod_to_equations. lia. }
  pose proof (YearFromDay_spec (Day L)) as [Hlo Hhi].
  fold (YearFromTime L) in Hlo, Hhi. fold y in Hlo, Hhi.
  pose proof (DayFromYear_next y) as Hnext.
  assert (Hy : 1969 <= y).
  { destruct (Z_lt_le_dec y 1969) as [Hlt|]; [|assumption].
    pose proof (DayFromYear_mono (y + 1) 1969 ltac:(lia)) as Hm.
    change (DayFromYear 1969) with (-365) in Hm. lia. }
  unfold msPerDay, maxTime in *. repeat split; try lia.
Qed.

(** Every date since the epoch has a week number from 1 to 54. *)
Lemma getWeekNumber_range localTZA t :
  0 <= t <= maxTime -> Z.abs localTZA <= msPerDay ->
  exists w, getWeekNumber localTZA (Some t) = Some w /\ 1 <= w <= 54.
Proof.
  intros Ht Htz.
  destruct (local_year_facts localTZA t Ht Htz) as (Hy & HL & Hs).
  rewrite getWeekNumber_formula by (assumption || lia).
  eexists. split; [reflexivity|].
  set (D := DayFromYear (YearFromTime (LocalTime localTZA t))) in *.
  set (L := LocalTime localTZA t) in *.
  unfold msPerDay in *. Z.div_mod_to_equations. lia.
Qed.

(** X18.  Week numbers are between 1 and 54: for every date since the
    epoch, in a zone within a day of UTC, [getWeekNumber] gives a number
    from 1 to 54. *)
Theorem week_number_between_1_and_54 localTZA t :
  0 <= t <= maxTime -> Z.abs localTZA <= msPerDay ->
  exists w, getWeekNumber localTZA (Some t) = Some w /\ 1 <= w <= 54.
Proof. apply getWeekNumber_range. Qed.

(** X19.  Within a year the week number never goes down: of two times
    since the epoch in the same local year, the later has the larger or the
    same week number. *)
Theorem week_number_monotone localTZA t t' w w' :
  0 <= t <= t' -> t' <= maxTime -> Z.abs localTZA <= msPerDay ->
  YearFromTime (LocalTime localTZA t) = YearFromTime (LocalTime localTZA t') ->
  getWeekNumber localTZA (Some t) = Some w ->
  getWeekNumber localTZA (Some t') = Some w' ->
  w <= w'.
Proof.
  intros Ht Ht' Htz Hyear.
  destruct (local_year_facts localTZA t ltac:(lia) Htz) as (Hy & HL & Hs).
  destruct (local_year_facts localTZA t' ltac:(lia) Htz) as (Hy' & HL' & Hs').
  rewrite !getWeekNumber_formula by (assumption || lia).
  rewrite <- Hyear. intros [= <-] [= <-].
  set (D := DayFromYear (YearFromTime (LocalTime localTZA t))) in *.
  unfold LocalTime, msPerDay in *. Z.div_mod_to_equations. lia.
Qed.

Lemma YearFromDay_DayFromYear y : YearFromDay (DayFromYear y) = y.
Proof.
  pose proof (YearFromDay_spec (DayFromYear y)) as [Hlo Hhi].
  set (Y := YearFromDay (DayFromYear y)) in *.
  destruct (Z.lt_trichotomy Y y) as [H|[H|H]]; [|assumption|].
  - pose proof (DayFromYear_mono (Y + 1) y ltac:(lia)). lia.
  - pose proof (DayFromYear_mono (y + 1) Y ltac:(lia)) as Hm.
    assert (DayFromYear y < DayFromYear (y + 1))
      by (unfold DayFromYear; Z.div_mod_to_equations; lia).
    lia.
Qed.

(** X20.  The first midnight of a year is in week 1: for every year from
    1970 to 275000, [getWeekNumber(new Date(year, 0, 1))] is 1. *)
Theorem new_year_is_week_1 localTZA year :
  1970 <= year <= 275000 -> Z.abs localTZA <= msPerDay ->
  getWeekNumber localTZA (newDate_y0d localTZA (Some year) (Some 1)) = Some 1.
Proof.
  intros Hyear Htz.
  assert (HD : 0 <= DayFromYear year <= 99999999).
  { pose proof (DayFromYear_mono 1970 year ltac:(lia)) as H1.
    pose proof (DayFromYear_mono year 275000 ltac:(lia)) as H2.
    change (DayFromYear 1970) with 0 in H1.
    change (DayFromYear 275000) with 99722160 in H2. lia. }
  unfold newDate_y0d.
  replace ((0 <=? year) && (year <=? 99))%bool with false
    by (symmetry; apply andb_false_iff; right; apply Z.leb_gt; lia).
  replace (DayFromYear year + 1 - 1) with (DayFromYear year) by lia.
  unfold timeClip, UTC.
  replace (Z.abs (DayFromYear year * msPerDay - localTZA) <=? maxTime) with true
    by (symmetry; apply Z.leb_le; unfold msPerDay, maxTime in *; lia).
  assert (HL : LocalTime localTZA (DayFromYear year * msPerDay - localTZA)
               = DayFromYear year * msPerDay) by (unfold LocalTime; lia).
  assert (HY : YearFromTime (DayFromYear year * msPerDay) = year).
  { unfold YearFromTime, Day. rewrite Z.div_mul by (unfold msPerDay; lia).
    apply YearFromDay_DayFromYear. }
  rewrite getWeekNumber_formula; rewrite HL, HY.
  - f_equal. unfold msPerDay. Z.div_mod_to_equations. lia.
  - lia.
  - unfold msPerDay, maxTime in *. lia.
Qed.

End WeekArithmetic.

Section YearBoundary.

Import JsDate.

Variable localTZA : Z.
Variable Date_parse : string -> num.

Lemma getWeekNumber_invalid : getWeekNumber localTZA None = None.
Proof. reflexivity. Qed.

(** A record dated since the epoch has a week number of at least 1. *)
Lemma recordWeek_positive r t w :
  Z.abs localTZA <= msPerDay ->
  Date_parse (forecast_week r) = Some t -> 0 <= t ->
  recordWeek localTZA Date_parse r = Some w -> 1 <= w.
Proof.
  intros Htz P Ht. unfold recordWeek, newDate_str. rewrite P. unfold timeClip.
  destruct (Z.abs t <=? maxTime) eqn:B.
  - apply Z.leb_le in B.
    destruct (getWeekNumber_range localTZA t ltac:(lia) Htz) as (w' & -> & Hw').
    intros [= <-]. lia.
  - rewrite getWeekNumber_invalid. discriminate.
Qed.

(** X21.  Early in January the window reaches back to week numbers 0 and
    below, which are compared with the week numbers of the records and not
    carried into the previous year: when every parsable record is dated
    since the epoch, the column of such a week is 0 in every row. *)
Theorem weeks_before_the_year_stay_zero now0 now pg resp row w :
  Z.abs localTZA <= msPerDay ->
  (forall r t, In r (data resp) ->
               Date_parse (forecast_week r) = Some t -> 0 <= t) ->
  In (Some w) (window localTZA now) -> w <= 0 ->
  In row (rows (pivotData localTZA Date_parse now0 now pg (Some resp))) ->
  cell row (Some w) = Some 0.
Proof.
  intros Htz Hdates Hwk Hw Hin.
  destruct (rows_from_map _ _ _ _ _ _ _ Hin) as (k & row0 & G & E & _ & _).
  assert (Hc : cell row (Some w)
               = Some (get_or_zero (row_weeks row0) (weekLabel (Some w))))
    by (rewrite E; apply complete_cell; assumption).
  destruct (cell_provenance _ _ _ _ _ _ _ _ _ Hin Hwk Hc)
    as [Hz|(r & Hr & _ & _ & Hrw & _)].
  - rewrite Hc, Hz. reflexivity.
  - exfalso.
    destruct (Date_parse (forecast_week r)) as [t|] eqn:P.
    + pose proof (recordWeek_positive r t w Htz P (Hdates r t Hr P) Hrw). lia.
    + unfold recordWeek, newDate_str in Hrw. rewrite P in Hrw.
      rewrite getWeekNumber_invalid in Hrw. discriminate.
Qed.

End YearBoundary.

(* ================================================================== *)
(** * The performance monitor *)
(* ================================================================== *)

Section MonitorFacts.

Variable Millis : Type.
Variable t_zero : Millis.
Variable t_sub t_add : Millis -> Millis -> Millis.
Variable t_div_count : Millis -> nat -> Millis.

#[local] Abbreviation effect :=
  (monitor_effect Millis t_zero t_sub t_add t_div_count).
#[local] Abbreviation run :=
  (monitor_run Millis t_zero t_sub t_add t_div_count).
#[local] Abbreviation count st := (loadCount Millis (metrics Millis st)).
#[local] Abbreviation kept st := (loadTimes Millis st).

(** What holds at the start and is kept by every run of the effect holds
    after every sequence of renders. *)
Lemma monitor_run_ind (P : MonitorState Millis -> Prop) :
  P (monitor_initial Millis t_zero) ->
  (forall st isLoading now, P st -> P (effect st isLoading now)) ->
  forall events, P (run events).
Proof.
  intros H0 Hstep events. unfold monitor_run.
  induction events as [|e events IH] using rev_ind; [exact H0|].
  rewrite fold_left_app. cbn [fold_left]. apply Hstep. exact IH.
Qed.

Lemma last_tl {A} (l : list A) (d : A) :
  (2 <= List.length l)%nat -> last (tl l) d = last l d.
Proof. destruct l as [|a [|b l]]; cbn [List.length]; try lia. reflexivity. Qed.

(** X22.  The monitor averages over the last ten loads at most: after any
    sequence of renders the kept load times are as many as the loads
    counted, up to ten. *)
Theorem monitor_keeps_last_ten events :
  List.length
    (loadTimes Millis (monitor_run Millis t_zero t_sub t_add t_div_count events))
  = Nat.min
      (loadCount Millis
         (metrics Millis
            (monitor_run Millis t_zero t_sub t_add t_div_count events)))
      10.
Proof.
  apply monitor_run_ind; [reflexivity|].
  intros st isLoading now IH. unfold monitor_effect.
  destruct isLoading, (loadStartTime Millis st) as [start|]; try exact IH.
  cbv zeta. cbn [metrics loadCount loadTimes].
  set (pushed := (kept st ++ [t_sub now start])%list).
  assert (Hp : List.length pushed = S (List.length (kept st)))
    by (unfold pushed; rewrite length_app; cbn [List.length]; lia).
  destruct (10 <? List.length pushed)%nat eqn:B.
  - apply Nat.ltb_lt in B.
    destruct pushed as [|x pushed']; cbn [tl List.length] in *; lia.
  - apply Nat.ltb_ge in B. lia.
Qed.

(** X23.  What the monitor reports is about the load times it kept: once a
    load is counted, the last load time is the last one kept, the loading
    time is the same number, and the average is the sum of the kept times
    over their number. *)
Theorem monitor_reports_kept_times events :
  (0 < loadCount Millis (metrics Millis (monitor_run Millis t_zero t_sub t_add t_div_count events)))%nat ->
  loadTimes Millis (monitor_run Millis t_zero t_sub t_add t_div_count events) <> [] /\
  lastLoadTime Millis (metrics Millis (monitor_run Millis t_zero t_sub t_add t_div_count events))
  = last (loadTimes Millis (monitor_run Millis t_zero t_sub t_add t_div_count events)) t_zero /\
  loadingTime Millis (metrics Millis (monitor_run Millis t_zero t_sub t_add t_div_count events))
  = lastLoadTime Millis (metrics Millis (monitor_run Millis t_zero t_sub t_add t_div_count events)) /\
  averageLoadTime Millis (metrics Millis (monitor_run Millis t_zero t_sub t_add t_div_count events))
  = t_div_count
      (fold_left t_add (loadTimes Millis (monitor_run Millis t_zero t_sub t_add t_div_count events)) t_zero)
      (List.length (loadTimes Millis (monitor_run Millis t_zero t_sub t_add t_div_count events))).
Proof.
  apply (monitor_run_ind (fun st =>
    (0 < count st)%nat ->
    kept st <> [] /\
    lastLoadTime Millis (metrics Millis st) = last (kept st) t_zero /\
    loadingTime Millis (metrics Millis st)
    = lastLoadTime Millis (metrics Millis st) /\
    averageLoadTime Millis (metrics Millis st)
    = t_div_count (fold_left t_add (kept st) t_zero) (List.length (kept st)))).
  - cbn. lia.
  - intros st isLoading now IH. unfold monitor_effect.
    destruct isLoading, (loadStartTime Millis st) as [start|]; try exact IH.
    intros _. cbv zeta.
    cbn [metrics loadCount loadTimes lastLoadTime loadingTime averageLoadTime].
    set (pushed := (kept st ++ [t_sub now start])%list).
    assert (Hp : List.length pushed = S (List.length (kept st)))
      by (unfold pushed; rewrite length_app; cbn [List.length]; lia).
    assert (Hl : last pushed t_zero = t_sub now start)
      by (unfold pushed; apply last_last).
    destruct (10 <? List.length pushed)%nat eqn:B.
    + apply Nat.ltb_lt in B. repeat split.
      * destruct pushed as [|x [|y l]]; cbn [List.length tl] in *;
          [lia|lia|discriminate].
      * rewrite last_tl by lia. symmetry. exact Hl.
    + repeat split.
      * destruct pushed; [cbn in Hp; lia|discriminate].
      * symmetry. exact Hl.
Qed.

End MonitorFacts.

(* ================================================================== *)
(** * Runs of the properties above *)
(* ================================================================== *)

Section MoreRuns.

Import Host.

#[local] Abbreviation run now pg records :=
  (pivotData 0 isoDateParse now now pg (Some (mkResponse records))).

Lemma row_a_10_in_run : In row_a_10 (rows (run noon_6_Mar_2024 1 [a_now_10])).
Proof. vm_compute. left. reflexivity. Qed.

Lemma every_header_has_a_cell_witness :
  In row_a_10 (rows (run noon_6_Mar_2024 1 [a_now_10])) /\
  exists v, Obj.get (row_weeks row_a_10) "Week 8" = Some v.
Proof.
  split; [exact row_a_10_in_run|].
  apply (every_header_has_a_cell 0 isoDateParse noon_6_Mar_2024
           noon_6_Mar_2024 1 (Some (mkResponse [a_now_10])) row_a_10
           {| week := "Week 8"; dateRange := "19 Feb-25 Feb" |}).
  - exact row_a_10_in_run.
  - vm_compute. tauto.
Defined.

Lemma cells_hold_input_quantities_witness :
  cell row_a_10 (Some 10) = Some 10 /\
  (10 = 0 \/
   exists r, In r (data (mkResponse [a_now_10])) /\
             inWindow 0 isoDateParse noon_6_Mar_2024 r = true /\
             pageId 1 (rowKey r) = row_pageId row_a_10 /\
             recordWeek 0 isoDateParse r = Some 10 /\ predicted_qty r = 10).
Proof.
  assert (Hc : cell row_a_10 (Some 10) = Some 10) by (vm_compute; reflexivity).
  split; [exact Hc|].
  apply (cells_hold_input_quantities 0 isoDateParse noon_6_Mar_2024
           noon_6_Mar_2024 1 (mkResponse [a_now_10]) row_a_10 (Some 10) 10).
  - exact row_a_10_in_run.
  - vm_compute. tauto.
  - exact Hc.
Defined.

Lemma row_labelled_by_first_record_witness :
  (exists before r after,
     data (mkResponse [a_now_10]) = (before ++ r :: after)%list /\
     inWindow 0 isoDateParse noon_6_Mar_2024 r = true /\
     pageId 1 (rowKey r) = row_pageId row_a_10 /\
     (forall r', In r' before ->
                 inWindow 0 isoDateParse noon_6_Mar_2024 r' = true ->
                 rowKey r' <> rowKey r) /\
     (row_mh_brick row_a_10, row_site_id row_a_10) = groupKey r) /\
  row_mh_brick row_a_10 <> "".
Proof.
  apply (row_labelled_by_first_record 0 isoDateParse noon_6_Mar_2024
           noon_6_Mar_2024 1 (mkResponse [a_now_10]) row_a_10).
  exact row_a_10_in_run.
Defined.

Lemma preset_round_trip_witness :
  currentFilters (loadPreset "mine" (savePreset (Some "mine") table_a))
  = currentFilters table_a /\
  FilterState.page (filters (loadPreset "mine" (savePreset (Some "mine") table_a)))
  = 1.
Proof.
  destruct (preset_round_trip table_a (savePreset (Some "mine") table_a) "mine"
              eq_refl eq_refl) as [H _].
  destruct H as (H1 & H2 & _); [intros p []|].
  split; assumption.
Defined.


Lemma simple_filter_url_determines_value_witness :
  simpleFilterUrl FT_zone value_with_pair (Some 50, Some 0)
  = Some "/forecast/chunked-filter/zone/a%2F%F0%9F%98%80?limit=50" /\
  value_with_pair = ([97; 47] ++ [55357; 56832])%list.
Proof.
  assert (E : simpleFilterUrl FT_zone value_with_pair (Some 50, Some 0)
              = Some "/forecast/chunked-filter/zone/a%2F%F0%9F%98%80?limit=50")
    by (vm_compute; reflexivity).
  split; [exact E|].
  apply (simple_filter_url_determines_value FT_zone (Some 50, Some 0)
           value_with_pair ([97; 47] ++ [55357; 56832])%list
           "/forecast/chunked-filter/zone/a%2F%F0%9F%98%80?limit=50").
  - repeat constructor; lia.
  - repeat constructor; lia.
  - exact E.
  - exact E.
Defined.

Lemma encoded_value_stays_in_segment_witness :
  exists encoded queryString,
    simpleFilterUrl FT_zone value_a_slash_b_c (Some 50, Some 0)
    = Some ("/forecast/chunked-filter/" ++ filterType_name FT_zone ++ "/"
            ++ encoded ++ queryString) /\
    (queryString = "" \/ exists q, queryString = "?" ++ q) /\
    forall c, In c (list_ascii_of_string encoded) ->
      segmentSafe c = true /\
      ~ In c (list_ascii_of_string "/?#&=+ ").
Proof.
  destruct (encoded_value_stays_in_segment FT_zone (Some 50, Some 0)
              value_a_slash_b_c) as [_ H].
  - repeat constructor; lia.
  - apply H. reflexivity.
Defined.

Lemma health_check_tried_three_times_witness :
  exists k,
    (k <= 2)%nat /\
    runHealthCheck 3 queryClient_defaults (useHealthCheck_options true)
      offline
    = Some (retried k 1000, checkHealth (offline (Z.of_nat k))) /\
    fetches (retried k 1000) = S k /\
    waits (retried k 1000) = repeat 1000 k /\
    (forall i, (i < k)%nat ->
       exists e, checkHealth (offline (Z.of_nat i)) = inr e) /\
    ((k < 2)%nat -> exists a, checkHealth (offline (Z.of_nat k)) = inl a).
Proof.
  apply (health_check_tried_three_times 3 true offline). lia.
Defined.

Lemma week_number_between_1_and_54_witness :
  exists w, getWeekNumber 0 (Some noon_6_Mar_2024) = Some w /\ 1 <= w <= 54.
Proof.
  apply (week_number_between_1_and_54 0 noon_6_Mar_2024);
    unfold noon_6_Mar_2024, JsDate.maxTime, JsDate.msPerDay; lia.
Defined.

Lemma week_number_monotone_witness :
  getWeekNumber 0 (Some noon_6_Mar_2024) = Some 10 /\
  getWeekNumber 0 (Some (noon_6_Mar_2024 + 604800000)) = Some 11 /\
  10 <= 11.
Proof.
  assert (H1 : getWeekNumber 0 (Some noon_6_Mar_2024) = Some 10)
    by (vm_compute; reflexivity).
  assert (H2 : getWeekNumber 0 (Some (noon_6_Mar_2024 + 604800000)) = Some 11)
    by (vm_compute; reflexivity).
  split; [exact H1|split; [exact H2|]].
  apply (week_number_monotone 0 noon_6_Mar_2024 (noon_6_Mar_2024 + 604800000)
           10 11).
  - unfold noon_6_Mar_2024. lia.
  - unfold noon_6_Mar_2024, JsDate.maxTime. lia.
  - unfold JsDate.msPerDay. lia.
  - vm_compute. reflexivity.
  - exact H1.
  - exact H2.
Defined.

Lemma new_year_is_week_1_witness :
  getWeekNumber 0 (JsDate.newDate_y0d 0 (Some 2024) (Some 1)) = Some 1.
Proof.
  apply (new_year_is_week_1 0 2024); unfold JsDate.msPerDay; lia.
Defined.

Lemma weeks_before_the_year_stay_zero_witness :
  In row_a_jan_7 (rows (run noon_3_Jan_2024 1 [a_jan_7])) /\
  cell row_a_jan_7 (Some 0) = Some 0.
Proof.
  assert (Hin : In row_a_jan_7 (rows (run noon_3_Jan_2024 1 [a_jan_7])))
    by (vm_compute; left; reflexivity).
  split; [exact Hin|].
  apply (weeks_before_the_year_stay_zero 0 isoDateParse noon_3_Jan_2024
           noon_3_Jan_2024 1 (mkResponse [a_jan_7]) row_a_jan_7 0).
  - unfold JsDate.msPerDay. lia.
  - intros r t [<-|[]] H.
    assert (E : isoDateParse (forecast_week a_jan_7) = Some 1704153600000)
      by (vm_compute; reflexivity).
    rewrite E in H. injection H as <-. lia.
  - vm_compute. tauto.
  - lia.
  - exact Hin.
Defined.

Lemma monitor_reports_kept_times_witness :
  loadTimes Z (monitor_run Z 0 Z.sub Z.add (fun t n => t / Z.of_nat n) one_load)
  <> [] /\
  averageLoadTime Z
    (metrics Z (monitor_run Z 0 Z.sub Z.add (fun t n => t / Z.of_nat n) one_load))
  = 250.
Proof.
  destruct (monitor_reports_kept_times Z 0 Z.sub Z.add
              (fun t n => t / Z.of_nat n) one_load)
    as (H1 & _ & _ & H4).
  - vm_compute. lia.
  - split; [exact H1|]. rewrite H4. vm_compute. reflexivity.
Defined.

End MoreRuns.
